(** * Replenishment pipeline: forecaster, stock calculator, allocation engine

    Shallow embedding of
      - [app/services/demand_forecaster.py]   (DemandForecaster)
      - [app/services/stock_calculator.py]    (StockCalculator)
      - [app/services/distribution_service.py] (DistributionService)

    Python [float] values are embedded as exact rationals ([Q]); integer
    quantities ([int]) as [Z]; text as [string]; insertion-ordered [dict]s as
    association lists whose keys are kept unique by [dict_set]. *)

From Stdlib Require Import ZArith QArith Qround Qminmax.
From Stdlib Require Import List String Bool Lia Lqa.
From Stdlib Require Import Permutation SetoidList SetoidPermutation.
Import ListNotations.

Local Open Scope Z_scope.
Local Open Scope Q_scope.
Local Open Scope string_scope.
Local Open Scope list_scope.

(** ** Python numerics *)

Module Py.

Definition Qltb (x y : Q) : bool := negb (Qle_bool y x).

(** [round(x)] of Python 3: nearest integer, ties to the even one. *)
Definition round (x : Q) : Z :=
  let f := Qfloor x in
  match Qcompare (x - inject_Z f) (1 # 2) with
  | Lt => f
  | Gt => (f + 1)%Z
  | Eq => if Z.even f then f else (f + 1)%Z
  end.

(** [int(x)]: truncation towards zero. *)
Definition int (x : Q) : Z :=
  if Qltb x 0 then Qceiling x else Qfloor x.

(** [round(x, 2)]: nearest multiple of 1/100, ties to even. *)
Definition round2 (x : Q) : Q := inject_Z (round (x * 100)) / 100.

(** [max(0, x)]: Python returns the first maximal argument. *)
Definition max0 (x : Q) : Q := if Qltb 0 x then x else 0.

(** [max(a, b)] and [min(a, b)]: the first argument wins a tie. *)
Definition max (a b : Q) : Q := if Qltb a b then b else a.
Definition min (a b : Q) : Q := if Qltb b a then b else a.

(** [max(1, n)] on integers. *)
Definition max1 (n : Z) : Z := if (1 <? n)%Z then n else 1%Z.

(** [k in l] for a list of strings. *)
Definition str_in (k : string) (l : list string) : bool :=
  existsb (String.eqb k) l.

End Py.

(** ** Insertion-ordered dictionaries *)

Section Dict.
Context {K V : Type}.
Variable eqb : K -> K -> bool.

Fixpoint dict_get (k : K) (d : list (K * V)) : option V :=
  match d with
  | [] => None
  | (k', v) :: d' => if eqb k k' then Some v else dict_get k d'
  end.

(** [d[k] = v]: an existing key keeps its position, a new key goes last. *)
Fixpoint dict_set (k : K) (v : V) (d : list (K * V)) : list (K * V) :=
  match d with
  | [] => [(k, v)]
  | (k', v') :: d' =>
      if eqb k k' then (k', v) :: d' else (k', v') :: dict_set k v d'
  end.
End Dict.

(** ** Data model *)

Record StockLevel := mkStockLevel {
  product_id : Z;
  deposit_id : Z;
  cod_item : string;
  producto_nombre : string;
  marca : string;
  rubro : string;
  subrubro : string;
  deposito_nombre : string;
  stock_actual : Q;
  stock_real : Q;
  stock_reservado : Q;
  stock_minimo : Q;
  stock_ideal : Q;
  stock_maximo : Q;
  demanda_diaria : Q;
  dias_cobertura : Z;
  metodo_forecast : string;
  tendencia : string;
  ventas_30_dias : Q;
  ventas_60_dias : Q;
  ventas_90_dias : Q;
  ventas_365_dias : Q;
  monto_90_dias : Q;
  estado : string
}.

Record TransferProposal := mkTransfer {
  t_product_id : Z;
  t_cod_item : string;
  t_producto_nombre : string;
  t_marca : string;
  t_rubro : string;
  deposit_origen_id : Z;
  deposit_origen_nombre : string;
  deposit_destino_id : Z;
  deposit_destino_nombre : string;
  cantidad_transferir : Z;
  stock_origen_antes : Q;
  stock_origen_despues : Q;
  stock_destino_antes : Q;
  stock_destino_despues : Q;
  stock_minimo_destino : Q;
  stock_ideal_destino : Q;
  stock_objetivo_destino : Q
}.

Record PurchaseNeed := mkPurchase {
  p_product_id : Z;
  p_cod_item : string;
  p_producto_nombre : string;
  p_marca : string;
  p_rubro : string;
  p_subrubro : string;
  p_deposit_destino_id : Z;
  p_deposit_destino_nombre : string;
  cantidad_necesaria : Z;
  stock_actual_destino : Q;
  p_stock_objetivo_destino : Q;
  stock_central_actual : Q;
  stock_central_minimo : Q;
  costo_unitario : Q;
  costo_total : Q;
  origen_necesidad : string
}.

(** The [summary] dictionary of a result (totals of the two lists, the
    target level as given and the time of the run) is left out. *)
Record DistributionResult := mkResult {
  transfers : list TransferProposal;
  purchase_needs : list PurchaseNeed
}.

(** ** DistributionService *)

Module DistributionService.

Definition CENTRAL_DEPOSIT_NAME : string := "DEPOSITO RUTA 9".

Definition Deposits := list (string * StockLevel).
Definition Grouped := list (Z * Deposits).

(** [_group_by_product]: [grouped[sl.product_id][sl.deposito_nombre] = sl]. *)
Definition group_insert (grouped : Grouped) (sl : StockLevel) : Grouped :=
  let inner :=
    match dict_get Z.eqb (product_id sl) grouped with
    | Some d => d
    | None => []
    end in
  dict_set Z.eqb (product_id sl)
    (dict_set String.eqb (deposito_nombre sl) sl inner) grouped.

Definition _group_by_product (stock_levels : list StockLevel) : Grouped :=
  fold_left group_insert stock_levels [].

(** The [if/elif/else] on [target_level]; any other text means ideal. *)
Definition stock_objetivo (target_level : string) (sl : StockLevel) : Q :=
  if target_level =? "minimo" then stock_minimo sl
  else if target_level =? "maximo" then stock_maximo sl
  else stock_ideal sl.

Definition sum_transfers (ts : list TransferProposal) : Z :=
  fold_right (fun t a => (cantidad_transferir t + a)%Z) 0%Z ts.

Definition sum_purchases (ps : list PurchaseNeed) : Z :=
  fold_right (fun p a => (cantidad_necesaria p + a)%Z) 0%Z ps.

Section Central.
Variable target_level : string.
(** [product_costs.get(product_id, 0)], read from the products table. *)
Variable product_costs : Z -> Q.

Definition full_transfer (pid : Z) (central sucursal : StockLevel)
    (cantidad : Z) : TransferProposal :=
  {| t_product_id := pid;
     t_cod_item := cod_item central;
     t_producto_nombre := producto_nombre central;
     t_marca := marca central;
     t_rubro := rubro central;
     deposit_origen_id := deposit_id central;
     deposit_origen_nombre := deposito_nombre central;
     deposit_destino_id := deposit_id sucursal;
     deposit_destino_nombre := deposito_nombre sucursal;
     cantidad_transferir := cantidad;
     stock_origen_antes := stock_actual central;
     stock_origen_despues := stock_actual central - inject_Z cantidad;
     stock_destino_antes := stock_actual sucursal;
     stock_destino_despues := stock_actual sucursal + inject_Z cantidad;
     stock_minimo_destino := stock_minimo sucursal;
     stock_ideal_destino := stock_ideal sucursal;
     stock_objetivo_destino := stock_objetivo target_level sucursal |}.

Definition partial_transfer (pid : Z) (central sucursal : StockLevel)
    (cantidad : Z) : TransferProposal :=
  {| t_product_id := pid;
     t_cod_item := cod_item central;
     t_producto_nombre := producto_nombre central;
     t_marca := marca central;
     t_rubro := rubro central;
     deposit_origen_id := deposit_id central;
     deposit_origen_nombre := deposito_nombre central;
     deposit_destino_id := deposit_id sucursal;
     deposit_destino_nombre := deposito_nombre sucursal;
     cantidad_transferir := cantidad;
     stock_origen_antes := stock_actual central;
     stock_origen_despues := stock_minimo central;
     stock_destino_antes := stock_actual sucursal;
     stock_destino_despues := stock_actual sucursal + inject_Z cantidad;
     stock_minimo_destino := stock_minimo sucursal;
     stock_ideal_destino := stock_ideal sucursal;
     stock_objetivo_destino := stock_objetivo target_level sucursal |}.

Definition purchase (pid : Z) (central destino : StockLevel)
    (cantidad : Z) (actual_destino objetivo : Q) (origen : string)
    : PurchaseNeed :=
  {| p_product_id := pid;
     p_cod_item := cod_item destino;
     p_producto_nombre := producto_nombre destino;
     p_marca := marca destino;
     p_rubro := rubro destino;
     p_subrubro := subrubro destino;
     p_deposit_destino_id := deposit_id destino;
     p_deposit_destino_nombre := deposito_nombre destino;
     cantidad_necesaria := cantidad;
     stock_actual_destino := actual_destino;
     p_stock_objetivo_destino := objetivo;
     stock_central_actual := stock_actual central;
     stock_central_minimo := stock_minimo central;
     costo_unitario := product_costs pid;
     costo_total := product_costs pid * inject_Z cantidad;
     origen_necesidad := origen |}.

(** The rounded deficit of a branch, [0] when the branch is skipped by
    one of the two [continue] guards. *)
Definition faltante_int (sucursal : StockLevel) : Z :=
  let faltante := stock_objetivo target_level sucursal - stock_actual sucursal in
  if Qle_bool faltante 0 then 0%Z
  else
    let fi := Py.round faltante in
    if (fi <=? 0)%Z then 0%Z else fi.

(** One iteration of [for sucursal in sucursales_data]: the pool left
    and what the iteration appends to the two output lists. *)
Definition procesar_sucursal (pid : Z) (central : StockLevel)
    (disponible_central : Q) (sucursal : StockLevel)
    : Q * list TransferProposal * list PurchaseNeed :=
  let objetivo := stock_objetivo target_level sucursal in
  let faltante := objetivo - stock_actual sucursal in
  if Qle_bool faltante 0 then (disponible_central, [], [])
  else
    let fi := Py.round faltante in
    if (fi <=? 0)%Z then (disponible_central, [], [])
    else if Qle_bool (inject_Z fi) disponible_central then
      (disponible_central - inject_Z fi,
       [full_transfer pid central sucursal fi], [])
    else if Py.Qltb 0 disponible_central then
      let cantidad := Py.int disponible_central in
      let restante := (fi - cantidad)%Z in
      (0,
       [partial_transfer pid central sucursal cantidad],
       [purchase pid central sucursal restante
          (stock_actual sucursal + inject_Z cantidad) objetivo
          "Sucursal sin cobertura"])
    else
      (disponible_central, [],
       [purchase pid central sucursal fi (stock_actual sucursal) objetivo
          "Central sin stock"]).

Fixpoint procesar_sucursales (pid : Z) (central : StockLevel)
    (disponible_central : Q) (sucursales : list StockLevel)
    : list TransferProposal * list PurchaseNeed :=
  match sucursales with
  | [] => ([], [])
  | s :: rest =>
      let '(disp, ts, ps) := procesar_sucursal pid central disponible_central s in
      let '(ts', ps') := procesar_sucursales pid central disp rest in
      (ts ++ ts', ps ++ ps')
  end.

(** The block after the peer loop: the central node's own purchase. *)
Definition compra_central (pid : Z) (central : StockLevel) : list PurchaseNeed :=
  if Py.Qltb (stock_actual central) (stock_minimo central) then
    let objetivo := stock_objetivo target_level central in
    let fi := Py.round (objetivo - stock_actual central) in
    if (0 <? fi)%Z then
      [purchase pid central central fi (stock_actual central) objetivo
         "Central bajo mínimo"]
    else []
  else [].

(** The scan of [deposits_data.items()] that splits central and peers. *)
Definition central_data (deposits : Deposits) : option StockLevel :=
  fold_left
    (fun acc '(name, sl) =>
       if name =? CENTRAL_DEPOSIT_NAME then Some sl else acc)
    deposits None.

Definition sucursales_data (deposits : Deposits) : list StockLevel :=
  map snd
    (filter (fun '(name, _) => negb (name =? CENTRAL_DEPOSIT_NAME)) deposits).

(** Body of [for product_id, deposits_data in products_by_id.items()]. *)
Definition procesar_producto (pid : Z) (deposits : Deposits)
    : list TransferProposal * list PurchaseNeed :=
  match central_data deposits with
  | None => ([], [])
  | Some central =>
      let disponible_central :=
        Py.max0 (stock_actual central - stock_minimo central) in
      let '(ts, ps) :=
        procesar_sucursales pid central disponible_central
          (sucursales_data deposits) in
      (ts, ps ++ compra_central pid central)
  end.

Fixpoint procesar_productos (grouped : Grouped)
    : list TransferProposal * list PurchaseNeed :=
  match grouped with
  | [] => ([], [])
  | (pid, deposits) :: rest =>
      let '(ts, ps) := procesar_producto pid deposits in
      let '(ts', ps') := procesar_productos rest in
      (ts ++ ts', ps ++ ps')
  end.

(** The comprehension that applies the two exclusion lists. *)
Definition filtered_levels (stock_levels : list StockLevel)
    (excluded_deposits excluded_brands : list string) : list StockLevel :=
  filter
    (fun sl =>
       negb (Py.str_in (deposito_nombre sl) excluded_deposits)
       && negb (Py.str_in (marca sl) excluded_brands))
    stock_levels.

Definition products_by_id (stock_levels : list StockLevel)
    (excluded_deposits excluded_brands : list string) : Grouped :=
  _group_by_product
    (filtered_levels stock_levels excluded_deposits excluded_brands).

Definition generate_distribution (stock_levels : list StockLevel)
    (excluded_deposits excluded_brands : list string) : DistributionResult :=
  let '(ts, ps) :=
    procesar_productos
      (products_by_id stock_levels excluded_deposits excluded_brands) in
  {| transfers := ts; purchase_needs := ps |}.

End Central.

End DistributionService.

(** *** Peer redistribution *)

Module Redistribution.
Import DistributionService.

(** The two kinds of [dict] rows built by the classification loop; the
    fields [excedente_disponible] and [faltante] are the ones the pairing
    loop updates in place. *)
Record Excedente := mkExcedente {
  exc_deposito : string;
  exc_stock_level : StockLevel;
  excedente_disponible : Q
}.

Record Faltante := mkFaltante {
  fal_deposito : string;
  fal_stock_level : StockLevel;
  faltante : Q;
  fal_stock_objetivo : Q
}.

(** [list.sort(key=..., reverse=True)]: stable, largest key first. *)
Section SortDesc.
Context {A : Type}.
Variable key : A -> Q.

Fixpoint insert_desc (x : A) (l : list A) : list A :=
  match l with
  | [] => [x]
  | y :: l' =>
      if Py.Qltb (key x) (key y) then y :: insert_desc x l' else x :: y :: l'
  end.

Definition sort_desc (l : list A) : list A := fold_right insert_desc [] l.
End SortDesc.

Section Peers.
Variable target_level : string.

Definition clasificar_excedente (entry : string * StockLevel) : list Excedente :=
  let '(deposit_name, sl) := entry in
  if Py.Qltb (stock_maximo sl) (stock_actual sl) && Py.Qltb 0 (stock_maximo sl) then
    let excedente := stock_actual sl - stock_ideal sl in
    if Qle_bool 1 excedente then [mkExcedente deposit_name sl excedente] else []
  else [].

Definition clasificar_faltante (entry : string * StockLevel) : list Faltante :=
  let '(deposit_name, sl) := entry in
  let objetivo := stock_objetivo target_level sl in
  let falta := objetivo - stock_actual sl in
  if Qle_bool 1 falta && Py.Qltb (stock_actual sl) (stock_ideal sl) then
    [mkFaltante deposit_name sl falta objetivo]
  else [].

Definition excedentes_de (deposits : Deposits) : list Excedente :=
  sort_desc excedente_disponible (flat_map clasificar_excedente deposits).

Definition faltantes_de (deposits : Deposits) : list Faltante :=
  sort_desc faltante (flat_map clasificar_faltante deposits).

Definition redistribution_transfer (pid : Z) (sl_origen : StockLevel)
    (fal : Faltante) (cantidad : Z) : TransferProposal :=
  let sl_destino := fal_stock_level fal in
  {| t_product_id := pid;
     t_cod_item := cod_item sl_origen;
     t_producto_nombre := producto_nombre sl_origen;
     t_marca := marca sl_origen;
     t_rubro := rubro sl_origen;
     deposit_origen_id := deposit_id sl_origen;
     deposit_origen_nombre := deposito_nombre sl_origen;
     deposit_destino_id := deposit_id sl_destino;
     deposit_destino_nombre := deposito_nombre sl_destino;
     cantidad_transferir := cantidad;
     stock_origen_antes := stock_actual sl_origen;
     stock_origen_despues := stock_actual sl_origen - inject_Z cantidad;
     stock_destino_antes := stock_actual sl_destino;
     stock_destino_despues := stock_actual sl_destino + inject_Z cantidad;
     stock_minimo_destino := stock_minimo sl_destino;
     stock_ideal_destino := stock_ideal sl_destino;
     stock_objetivo_destino := fal_stock_objetivo fal |}.

Definition descontar (fal : Faltante) (cantidad : Z) : Faltante :=
  {| fal_deposito := fal_deposito fal;
     fal_stock_level := fal_stock_level fal;
     faltante := faltante fal - inject_Z cantidad;
     fal_stock_objetivo := fal_stock_objetivo fal |}.

(** [for fal in faltantes] for one surplus row: the surplus left, the
    deficit rows as updated in place, and the transfers appended. *)
Fixpoint emparejar (pid : Z) (sl_origen : StockLevel) (disponible : Q)
    (faltantes : list Faltante) : Q * list Faltante * list TransferProposal :=
  match faltantes with
  | [] => (disponible, [], [])
  | fal :: rest =>
      if Qle_bool (faltante fal) 0 then
        let '(d, rest', ts) := emparejar pid sl_origen disponible rest in
        (d, fal :: rest', ts)
      else if Qle_bool disponible 0 then (disponible, faltantes, [])
      else
        let cantidad := Py.min disponible (faltante fal) in
        let cantidad_int := Py.round cantidad in
        if (cantidad_int <? 1)%Z then
          let '(d, rest', ts) := emparejar pid sl_origen disponible rest in
          (d, fal :: rest', ts)
        else
          let '(d, rest', ts) :=
            emparejar pid sl_origen (disponible - inject_Z cantidad_int) rest in
          (d, descontar fal cantidad_int :: rest',
           redistribution_transfer pid sl_origen fal cantidad_int :: ts)
  end.

(** [for exc in excedentes]. *)
Fixpoint redistribuir (pid : Z) (excedentes : list Excedente)
    (faltantes : list Faltante) : list TransferProposal :=
  match excedentes with
  | [] => []
  | exc :: rest =>
      if Qle_bool (excedente_disponible exc) 0 then
        redistribuir pid rest faltantes
      else
        let '(_, faltantes', ts) :=
          emparejar pid (exc_stock_level exc) (excedente_disponible exc)
            faltantes in
        ts ++ redistribuir pid rest faltantes'
  end.

Definition redistribuir_producto (pid : Z) (deposits : Deposits)
    : list TransferProposal :=
  redistribuir pid (excedentes_de deposits) (faltantes_de deposits).

Definition products_by_id (stock_levels : list StockLevel)
    (excluded_deposits : list string) : Grouped :=
  _group_by_product
    (filter (fun sl => negb (Py.str_in (deposito_nombre sl) excluded_deposits))
       stock_levels).

Definition generate_excess_redistribution (stock_levels : list StockLevel)
    (excluded_deposits : list string) : DistributionResult :=
  {| transfers :=
       flat_map (fun '(pid, deposits) => redistribuir_producto pid deposits)
         (products_by_id stock_levels excluded_deposits);
     purchase_needs := [] |}.

End Peers.

End Redistribution.

(** ** DemandForecaster *)

(** One row of the sales [DataFrame]; [fecha] is a calendar day number
    (the sales table stores one row per product, deposit and date). *)
Record Venta := mkVenta {
  fecha : Z;
  cantidad : Q;
  monto : Q
}.

Record ForecastResult := mkForecast {
  f_product_id : Z;
  f_deposit_id : Z;
  f_demanda_diaria : Q;
  metodo_usado : string;
  confianza : Q;
  f_tendencia : string;
  f_ventas_30_dias : Q;
  f_ventas_60_dias : Q;
  f_ventas_90_dias : Q;
  f_ventas_365_dias : Q;
  f_monto_90_dias : Q
}.

(** What a fitted [sklearn.linear_model.LinearRegression] exposes. *)
Record LinearModel := mkModel {
  coef_ : Q;
  intercept_ : Q;
  score : Q
}.

Module DemandForecaster.

Definition DataFrame := list Venta.

Definition Qsum (l : list Q) : Q := fold_right Qplus 0 l.

(** [df.sort_values('fecha')]: ascending; rows of one date keep their order. *)
Fixpoint insert_fecha (r : Venta) (l : DataFrame) : DataFrame :=
  match l with
  | [] => [r]
  | r' :: l' =>
      if (fecha r' <=? fecha r)%Z then r' :: insert_fecha r l' else r :: l
  end.

Definition sort_values (df : DataFrame) : DataFrame :=
  fold_left (fun acc r => insert_fecha r acc) df [].

(** [df['fecha'].max()] and [.min()] of a non-empty frame. *)
Definition fecha_max (df : DataFrame) : Z :=
  match df with
  | [] => 0%Z
  | r :: rest => fold_left (fun m r' => Z.max m (fecha r')) rest (fecha r)
  end.

Definition fecha_min (df : DataFrame) : Z :=
  match df with
  | [] => 0%Z
  | r :: rest => fold_left (fun m r' => Z.min m (fecha r')) rest (fecha r)
  end.

(** [df[df['fecha'] >= desde]]. *)
Definition desde_fecha (desde : Z) (df : DataFrame) : DataFrame :=
  filter (fun r => (desde <=? fecha r)%Z) df.

(** [df.groupby(df['fecha'].dt.date)['cantidad'].sum()]: one entry per
    day, ordered by day. *)
Fixpoint acumular (d : Z) (q : Q) (l : list (Z * Q)) : list (Z * Q) :=
  match l with
  | [] => [(d, q)]
  | (d', q') :: l' =>
      if (d <? d')%Z then (d, q) :: l
      else if (d =? d')%Z then (d', q' + q) :: l'
      else (d', q') :: acumular d q l'
  end.

Definition groupby_sum (df : DataFrame) : list (Z * Q) :=
  fold_left (fun acc r => acumular (fecha r) (cantidad r) acc) df [].

(** [Series.median()]: middle of the sorted values, or the mean of the
    two middle ones. *)
Fixpoint insert_asc (x : Q) (l : list Q) : list Q :=
  match l with
  | [] => [x]
  | y :: l' => if Qle_bool x y then x :: l else y :: insert_asc x l'
  end.

Definition sort_asc (l : list Q) : list Q := fold_right insert_asc [] l.

Definition median (l : list Q) : Q :=
  let s := sort_asc l in
  let n := length s in
  if Nat.even n then (nth (n / 2 - 1) s 0 + nth (n / 2) s 0) / 2
  else nth (n / 2) s 0.

Definition _promedio_simple (df : DataFrame) (dias : Z) : Q :=
  let total_vendido := Qsum (map cantidad df) in
  total_vendido / inject_Z (Py.max1 dias).

Definition _mediana_ajustada (df : DataFrame) (dias : Z) : Q :=
  let df_diario := groupby_sum df in
  match df_diario with
  | [] => 0
  | _ =>
      let mediana := median (map snd df_diario) in
      let dias_con_ventas := Z.of_nat (length df_diario) in
      let proporcion := inject_Z dias_con_ventas / inject_Z (Py.max1 dias) in
      mediana * proporcion
  end.

(** [np.linspace(1, 2, n)]. *)
Definition linspace_1_2 (n : nat) : list Q :=
  match n with
  | O => []
  | S O => [1]
  | _ => map (fun i => 1 + inject_Z (Z.of_nat i) / inject_Z (Z.of_nat n - 1))
           (seq 0 n)
  end.

(** [pd.date_range(start, end, freq='D')]. *)
Definition date_range (start stop : Z) : list Z :=
  map (fun i => (start + Z.of_nat i)%Z) (seq 0 (Z.to_nat (stop - start + 1))).

Definition _promedio_movil_ponderado (df : DataFrame) (fecha_fin : Z)
    (ventana_dias : Z) : Q :=
  let fecha_inicio := (fecha_fin - ventana_dias)%Z in
  let df_reciente := desde_fecha fecha_inicio df in
  match df_reciente with
  | [] => 0
  | _ =>
      let df_diario := groupby_sum df_reciente in
      let todas_fechas := date_range fecha_inicio fecha_fin in
      let completo :=
        map (fun d =>
               match dict_get Z.eqb d df_diario with
               | Some q => q
               | None => 0
               end) todas_fechas in
      let pesos := linspace_1_2 (length completo) in
      let suma_ponderada :=
        Qsum (map (fun '(c, w) => c * w) (combine completo pesos)) in
      let suma_pesos := Qsum pesos in
      if Py.Qltb 0 suma_pesos then suma_ponderada / suma_pesos else 0
  end.

Section Forecaster.
Variable metodo_preferido : string.
(** [LinearRegression().fit(X, y)] on the points (day index, quantity). *)
Variable linear_regression : list (Z * Q) -> LinearModel.

Definition min_days_for_ml : Z := 30.
Definition min_days_for_movil : Z := 14.

Definition _ml_tendencia (df : DataFrame) (fecha_fin : Z) : Q * string * Q :=
  let df_diario := groupby_sum df in
  if (Z.of_nat (length df_diario) <? min_days_for_ml)%Z then
    let total_vendido := Qsum (map snd df_diario) in
    let fechas := map fst df_diario in
    let dias_periodo :=
      (fold_right Z.max (hd 0%Z fechas) fechas
       - fold_right Z.min (hd 0%Z fechas) fechas + 1)%Z in
    (total_vendido / inject_Z (Py.max1 dias_periodo), "estable", 3 # 10)
  else
    let f_min := fold_right Z.min (hd 0%Z (map fst df_diario)) (map fst df_diario) in
    let puntos := map (fun '(d, q) => ((d - f_min)%Z, q)) df_diario in
    let modelo := linear_regression puntos in
    let r2 := score modelo in
    let conf := Py.max (3 # 10) (Py.min (95 # 100) r2) in
    let pendiente := coef_ modelo in
    let promedio_diario :=
      Qsum (map snd puntos) / inject_Z (Z.of_nat (length puntos)) in
    let ratio_pendiente := pendiente / Py.max (1 # 100) promedio_diario in
    let tend :=
      if Py.Qltb (1 # 100) ratio_pendiente then "creciente"
      else if Py.Qltb ratio_pendiente (- (1 # 100)) then "decreciente"
      else "estable" in
    let dias_futuro := (fecha_fin - f_min)%Z in
    let predicciones :=
      map (fun i => intercept_ modelo
                    + coef_ modelo * inject_Z (dias_futuro + Z.of_nat i))
        (seq 0 15) in
    let demanda_proyectada := Qsum predicciones / 15 in
    (Py.max 0 demanda_proyectada, tend, conf).

Definition _seleccionar_mejor_metodo
    (demanda_simple demanda_mediana demanda_movil demanda_ml confianza_ml : Q)
    (dias_con_datos : Z) (tend : string) : Q * string * Q :=
  if metodo_preferido =? "promedio_simple" then
    (demanda_simple, "promedio_simple", 6 # 10)
  else if metodo_preferido =? "mediana" then
    (demanda_mediana, "mediana", 7 # 10)
  else if (dias_con_datos <? min_days_for_movil)%Z then
    (demanda_mediana, "mediana", 5 # 10)
  else if (dias_con_datos <? min_days_for_ml)%Z then
    (demanda_movil, "promedio_movil", 6 # 10)
  else if Py.Qltb (6 # 10) confianza_ml && negb (tend =? "estable") then
    (demanda_ml, "ml_tendencia", confianza_ml)
  else
    (demanda_mediana * (3 # 10) + demanda_movil * (4 # 10)
     + demanda_ml * (3 # 10),
     "combinado", 7 # 10).

Definition sin_datos (product_id deposit_id : Z) : ForecastResult :=
  {| f_product_id := product_id;
     f_deposit_id := deposit_id;
     f_demanda_diaria := 0;
     metodo_usado := "sin_datos";
     confianza := 0;
     f_tendencia := "estable";
     f_ventas_30_dias := 0;
     f_ventas_60_dias := 0;
     f_ventas_90_dias := 0;
     f_ventas_365_dias := 0;
     f_monto_90_dias := 0 |}.

Definition calculate_demand (sales_history : DataFrame)
    (product_id deposit_id : Z) (days_back : Z) : ForecastResult :=
  match sales_history with
  | [] => sin_datos product_id deposit_id
  | _ =>
      let df0 := sort_values sales_history in
      let fecha_fin := fecha_max df0 in
      let fecha_inicio := (fecha_fin - days_back)%Z in
      let df := desde_fecha fecha_inicio df0 in
      match df with
      | [] => sin_datos product_id deposit_id
      | _ =>
          let ventas desde := Qsum (map cantidad (desde_fecha (fecha_fin - desde) df)) in
          let ventas_365 := Qsum (map cantidad df) in
          let monto_90 := Qsum (map monto (desde_fecha (fecha_fin - 90) df)) in
          let dias_con_datos := (fecha_fin - fecha_min df + 1)%Z in
          let demanda_simple := _promedio_simple df dias_con_datos in
          let demanda_mediana := _mediana_ajustada df dias_con_datos in
          let demanda_movil := _promedio_movil_ponderado df fecha_fin 90 in
          let '(demanda_ml, tend, confianza_ml) := _ml_tendencia df fecha_fin in
          let '(demanda_final, metodo, conf) :=
            _seleccionar_mejor_metodo demanda_simple demanda_mediana
              demanda_movil demanda_ml confianza_ml dias_con_datos tend in
          {| f_product_id := product_id;
             f_deposit_id := deposit_id;
             f_demanda_diaria := Py.max 0 demanda_final;
             metodo_usado := metodo;
             confianza := conf;
             f_tendencia := tend;
             f_ventas_30_dias := ventas 30%Z;
             f_ventas_60_dias := ventas 60%Z;
             f_ventas_90_dias := ventas 90%Z;
             f_ventas_365_dias := ventas_365;
             f_monto_90_dias := monto_90 |}
      end
  end.

End Forecaster.

End DemandForecaster.

(** ** StockCalculator *)

(** One row of [_get_products_with_stock]. *)
Record ProductStock := mkProductStock {
  ps_product_id : Z;
  ps_deposit_id : Z;
  ps_cod_item : string;
  ps_nombre : string;
  ps_marca : option string;
  ps_rubro : option string;
  ps_subrubro : option string;
  ps_deposito_nombre : string;
  ps_stock_disponible : Q;
  ps_stock_real : Q;
  ps_stock_reservado : Q
}.

Module StockCalculator.

(** [x or ''] on an optional text column. *)
Definition or_empty (x : option string) : string :=
  match x with
  | Some s => s
  | None => ""
  end.

Section Calculator.
(** [self.global_config['factor_ideal']] and [['factor_maximo']]. *)
Variable factor_ideal factor_maximo : Q.
(** [settings.sales_period_days]. *)
Variable sales_period_days : Z.
(** The configuration look-ups [_get_dias_stock(marca, rubro, subrubro)]
    and [_get_umbral_minimo(subrubro, rubro)], answered from the
    configuration table. *)
Variable _get_dias_stock : option string -> option string -> option string -> Z.
Variable _get_umbral_minimo : option string -> option string -> Z.
(** [sales_history.get(key, pd.DataFrame())]. *)
Variable sales_history : Z * Z -> DemandForecaster.DataFrame.
(** The forecaster built in [__init__]. *)
Variable metodo_calculo : string.
Variable linear_regression : list (Z * Q) -> LinearModel.

(** The three targets before rounding. *)
Definition niveles (forecast : ForecastResult) (dias_stock umbral_minimo : Z)
    : Q * Q * Q :=
  if Py.Qltb (f_ventas_365_dias forecast) (inject_Z umbral_minimo) then
    (0, 0, 0)
  else
    let stock_minimo := f_demanda_diaria forecast * inject_Z dias_stock in
    (stock_minimo, stock_minimo * factor_ideal, stock_minimo * factor_maximo).

Definition determinar_estado (stock_minimo stock_maximo stock_actual : Q)
    : string :=
  if Qeq_bool stock_minimo 0 then
    if Qle_bool stock_actual 0 then "sin_stock" else "ok"
  else if Qle_bool stock_actual 0 then "sin_stock"
  else if Py.Qltb stock_actual stock_minimo then "bajo_minimo"
  else if Py.Qltb stock_maximo stock_actual then "excedente"
  else "ok".

(** Body of [for ps in products_stock]. *)
Definition calcular_nivel (ps : ProductStock) : StockLevel :=
  let dias_stock :=
    _get_dias_stock (ps_marca ps) (ps_rubro ps) (ps_subrubro ps) in
  let sales_df := sales_history (ps_product_id ps, ps_deposit_id ps) in
  let forecast :=
    DemandForecaster.calculate_demand metodo_calculo linear_regression
      sales_df (ps_product_id ps) (ps_deposit_id ps) sales_period_days in
  let umbral_minimo := _get_umbral_minimo (ps_subrubro ps) (ps_rubro ps) in
  let '(minimo, ideal, maximo) := niveles forecast dias_stock umbral_minimo in
  {| product_id := ps_product_id ps;
     deposit_id := ps_deposit_id ps;
     cod_item := ps_cod_item ps;
     producto_nombre := ps_nombre ps;
     marca := or_empty (ps_marca ps);
     rubro := or_empty (ps_rubro ps);
     subrubro := or_empty (ps_subrubro ps);
     deposito_nombre := ps_deposito_nombre ps;
     stock_actual := ps_stock_disponible ps;
     stock_real := ps_stock_real ps;
     stock_reservado := ps_stock_reservado ps;
     stock_minimo := Py.round2 minimo;
     stock_ideal := Py.round2 ideal;
     stock_maximo := Py.round2 maximo;
     demanda_diaria := f_demanda_diaria forecast;
     dias_cobertura := dias_stock;
     metodo_forecast := metodo_usado forecast;
     tendencia := f_tendencia forecast;
     ventas_30_dias := f_ventas_30_dias forecast;
     ventas_60_dias := f_ventas_60_dias forecast;
     ventas_90_dias := f_ventas_90_dias forecast;
     ventas_365_dias := f_ventas_365_dias forecast;
     monto_90_dias := f_monto_90_dias forecast;
     estado := determinar_estado minimo maximo (ps_stock_disponible ps) |}.

Definition calculate_all_stock_levels (products_stock : list ProductStock)
    : list StockLevel :=
  map calcular_nivel products_stock.

End Calculator.

End StockCalculator.

(** ** Reports and look-ups around the pipeline *)

Module PyMore.

(** [round(x, 1)]: nearest multiple of 1/10, ties to even. *)
Definition round1 (x : Q) : Q := inject_Z (Py.round (x * 10)) / 10.

(** Truth value of an optional text: [None] and [''] are false. *)
Definition truthy (x : option string) : bool :=
  match x with
  | Some s => negb (s =? "")
  | None => false
  end.

End PyMore.

(** *** [DistributionService.get_redistribution_opportunities] *)

Record Opportunity := mkOpportunity {
  o_product_id : Z;
  o_cod_item : string;
  o_producto : string;
  desde : string;
  hacia : string;
  cantidad_sugerida : Z;
  excedente_origen : Q;
  faltante_destino : Q
}.

Module Opportunities.
Import DistributionService.

(** The rows of the two lists built by the scan of one product. *)
Record RowExcedente := mkRowExcedente {
  re_deposito : string;
  re_deposit_id : Z;
  re_excedente : Q;
  re_stock_level : StockLevel
}.

Record RowFaltante := mkRowFaltante {
  rf_deposito : string;
  rf_deposit_id : Z;
  rf_faltante : Q;
  rf_stock_level : StockLevel
}.

(** The [if / elif] scan of [deposits_data.items()]. *)
Fixpoint clasificar (deposits : Deposits)
    : list RowExcedente * list RowFaltante :=
  match deposits with
  | [] => ([], [])
  | (deposit_name, sl) :: rest =>
      let '(excedentes, faltantes) := clasificar rest in
      if Py.Qltb (stock_maximo sl) (stock_actual sl) then
        (mkRowExcedente deposit_name (deposit_id sl)
           (stock_actual sl - stock_ideal sl) sl :: excedentes, faltantes)
      else if Py.Qltb (stock_actual sl) (stock_minimo sl) then
        (excedentes,
         mkRowFaltante deposit_name (deposit_id sl)
           (stock_ideal sl - stock_actual sl) sl :: faltantes)
      else (excedentes, faltantes)
  end.

Definition oportunidad (pid : Z) (exc : RowExcedente) (fal : RowFaltante)
    : list Opportunity :=
  let cantidad_posible := Py.min (re_excedente exc) (rf_faltante fal) in
  if Qle_bool 1 cantidad_posible then
    [{| o_product_id := pid;
        o_cod_item := cod_item (re_stock_level exc);
        o_producto := producto_nombre (re_stock_level exc);
        desde := re_deposito exc;
        hacia := rf_deposito fal;
        cantidad_sugerida := Py.int cantidad_posible;
        excedente_origen := Py.round2 (re_excedente exc);
        faltante_destino := Py.round2 (rf_faltante fal) |}]
  else [].

Definition oportunidades_producto (pid : Z) (deposits : Deposits)
    : list Opportunity :=
  let '(excedentes, faltantes) := clasificar deposits in
  match excedentes, faltantes with
  | [], _ => []
  | _, [] => []
  | _, _ =>
      flat_map (fun exc => flat_map (oportunidad pid exc) faltantes) excedentes
  end.

Definition get_redistribution_opportunities (stock_levels : list StockLevel)
    : list Opportunity :=
  flat_map (fun '(pid, deposits) => oportunidades_producto pid deposits)
    (_group_by_product stock_levels).

End Opportunities.

(** *** [StockCalculator]: configuration look-ups and reports *)

Record Summary := mkSummary {
  s_total : Z;
  s_bajo_minimo : Z;
  s_sin_stock : Z;
  s_excedente : Z;
  s_ok : Z;
  porcentaje_bajo_minimo : Q;
  porcentaje_excedente : Q
}.

Record ProductTotal := mkProductTotal {
  monto_total : Q;
  registros : list StockLevel
}.

Record ExtendedSummary := mkExtendedSummary {
  valor_stock_total : Q;
  skus_total : Z;
  skus_bajo_minimo : Z;
  skus_top_bajo_minimo : Z
}.

Module StockReports.

Section Config.
(** [self.config_cache], [self.global_config['dias_stock_default']],
    [self.subrubro_thresholds], [self.global_config['umbral_minimo_ventas']]
    and [str.upper]. *)
Variable config_cache : list (string * Z).
Variable dias_stock_default : Z.
Variable subrubro_thresholds : list (string * Z).
Variable umbral_minimo_ventas : Z.
Variable upper : string -> string.

Definition cache_key (prefix : string) (x : option string) : string :=
  match x with
  | Some s => prefix ++ upper s
  | None => prefix
  end.

Definition _get_dias_stock (marca rubro subrubro : option string) : Z :=
  match (if PyMore.truthy marca
         then dict_get String.eqb (cache_key "marca_" marca) config_cache
         else None) with
  | Some d => d
  | None =>
      match (if PyMore.truthy subrubro
             then dict_get String.eqb (cache_key "subrubro_" subrubro) config_cache
             else None) with
      | Some d => d
      | None =>
          match (if PyMore.truthy rubro
                 then dict_get String.eqb (cache_key "rubro_" rubro) config_cache
                 else None) with
          | Some d => d
          | None => dias_stock_default
          end
      end
  end.

Definition _get_umbral_minimo (subrubro rubro : option string) : Z :=
  match (if PyMore.truthy subrubro
         then match subrubro with
              | Some s => dict_get String.eqb s subrubro_thresholds
              | None => None
              end
         else None) with
  | Some u => u
  | None => umbral_minimo_ventas
  end.

End Config.

Definition contar (label : string) (stock_levels : list StockLevel) : Z :=
  Z.of_nat (length (filter (fun s => estado s =? label) stock_levels)).

Definition porcentaje (parte total : Z) : Q :=
  PyMore.round1 (inject_Z parte / inject_Z (Py.max1 total) * 100).

Definition get_summary (stock_levels : list StockLevel) : Summary :=
  let total := Z.of_nat (length stock_levels) in
  let bajo_minimo := contar "bajo_minimo" stock_levels in
  let sin_stock := contar "sin_stock" stock_levels in
  let excedente := contar "excedente" stock_levels in
  let ok := contar "ok" stock_levels in
  {| s_total := total;
     s_bajo_minimo := bajo_minimo;
     s_sin_stock := sin_stock;
     s_excedente := excedente;
     s_ok := ok;
     porcentaje_bajo_minimo := porcentaje bajo_minimo total;
     porcentaje_excedente := porcentaje excedente total |}.

(** Step 1 of [get_top_200_products]: totals per product, in order of
    first appearance. *)
Definition totals_insert (totals : list (Z * ProductTotal)) (sl : StockLevel)
    : list (Z * ProductTotal) :=
  let actual :=
    match dict_get Z.eqb (product_id sl) totals with
    | Some t => t
    | None => mkProductTotal 0 []
    end in
  dict_set Z.eqb (product_id sl)
    (mkProductTotal (monto_total actual + monto_90_dias sl)
       (registros actual ++ [sl]))
    totals.

Definition product_totals (stock_levels : list StockLevel)
    : list (Z * ProductTotal) :=
  fold_left totals_insert stock_levels [].

(** Steps 2 and 3: [sorted(..., reverse=True)[:200]] and the set of ids. *)
Definition sorted_products (stock_levels : list StockLevel)
    : list (Z * ProductTotal) :=
  firstn 200
    (Redistribution.sort_desc (fun x => monto_total (snd x))
       (product_totals stock_levels)).

Definition top_200_ids (stock_levels : list StockLevel) : list Z :=
  map fst (sorted_products stock_levels).

Definition bajo_o_sin_stock (sl : StockLevel) : bool :=
  (estado sl =? "bajo_minimo") || (estado sl =? "sin_stock").

(** Step 4. *)
Definition get_top_200_products (stock_levels : list StockLevel)
    : list StockLevel :=
  filter
    (fun sl =>
       existsb (Z.eqb (product_id sl)) (top_200_ids stock_levels)
       && bajo_o_sin_stock sl
       && Py.Qltb 0 (stock_minimo sl))
    stock_levels.

Definition get_negative_stock (stock_levels : list StockLevel)
    : list StockLevel :=
  filter (fun s => Py.Qltb (stock_real s) (- (1 # 2))) stock_levels.

(** [set.add] on a set of product ids, kept as a duplicate-free list. *)
Definition set_add (x : Z) (s : list Z) : list Z :=
  if existsb (Z.eqb x) s then s else s ++ [x].

Section Extended.
(** [product_costs.get(pid, 0)] over the rows with a positive cost. *)
Variable product_costs : Z -> Q.

Definition valor_paso (valor : Q) (sl : StockLevel) : Q :=
  let costo := product_costs (product_id sl) in
  if Py.Qltb 0 costo && Py.Qltb 0 (stock_real sl)
  then valor + stock_real sl * costo
  else valor.

Definition get_extended_summary (stock_levels : list StockLevel)
    : ExtendedSummary :=
  let valor := fold_left valor_paso stock_levels 0 in
  let skus_vistos :=
    fold_left (fun s sl => set_add (product_id sl) s) stock_levels [] in
  let skus_bajo :=
    fold_left
      (fun s sl => if bajo_o_sin_stock sl then set_add (product_id sl) s else s)
      stock_levels [] in
  let top_200 := get_top_200_products stock_levels in
  let skus_top :=
    fold_left (fun s sl => set_add (product_id sl) s) top_200 [] in
  {| valor_stock_total := Py.round2 valor;
     skus_total := Z.of_nat (length skus_vistos);
     skus_bajo_minimo := Z.of_nat (length skus_bajo);
     skus_top_bajo_minimo := Z.of_nat (length skus_top) |}.

End Extended.

End StockReports.

(** *** [PurchaseService.get_purchase_summary] *)



Record ImmobilizedSummary := mkImmobilizedSummary {
  im_total_productos : Z;
  im_total_unidades : Z;
  im_valor_total : Q
}.

Module PurchaseService.





(** [get_immobilized_stock_summary]: the body of the loop on the running
    [(total_productos, total_unidades, total_valor)], then the result. *)
Definition inmovilizado_paso (product_costs : Z -> Q) (acc : Z * Q * Q)
    (sl : StockLevel) : Z * Q * Q :=
  let '(total_productos, total_unidades, total_valor) := acc in
  if (estado sl =? "excedente") && Py.Qltb 0 (stock_maximo sl) then
    let unidades_excedentes := stock_actual sl - stock_maximo sl in
    if Py.Qltb 0 unidades_excedentes then
      let costo_unitario := product_costs (product_id sl) in
      ((total_productos + 1)%Z,
       total_unidades + unidades_excedentes,
       total_valor + unidades_excedentes * costo_unitario)
    else acc
  else acc.

Definition get_immobilized_stock_summary (product_costs : Z -> Q)
    (stock_levels : list StockLevel) : ImmobilizedSummary :=
  let '(total_productos, total_unidades, total_valor) :=
    fold_left (inmovilizado_paso product_costs) stock_levels (0%Z, 0, 0) in
  {| im_total_productos := total_productos;
     im_total_unidades := Py.int (inject_Z (Py.round total_unidades));
     im_valor_total := Py.round2 total_valor |}.

End PurchaseService.

(** * Vocabulary of the specification *)

Module Spec.
Import DistributionService.

(** The outputs that concern one product. *)
Definition transfers_of (p : Z) (ts : list TransferProposal) : list TransferProposal :=
  filter (fun t => (t_product_id t =? p)%Z) ts.

Definition purchases_of (p : Z) (ps : list PurchaseNeed) : list PurchaseNeed :=
  filter (fun q => (p_product_id q =? p)%Z) ps.

(** The two causes that tag a peer's uncovered deficit. *)
Definition peer_cause (q : PurchaseNeed) : bool :=
  (origen_necesidad q =? "Sucursal sin cobertura")
  || (origen_necesidad q =? "Central sin stock").

Definition central_below_minimum (q : PurchaseNeed) : bool :=
  origen_necesidad q =? "Central bajo mínimo".

(** The outputs addressed to one destination. *)
Definition transfers_to (name : string) (ts : list TransferProposal) :=
  filter (fun t => deposit_destino_nombre t =? name) ts.

Definition purchases_for (name : string) (ps : list PurchaseNeed) :=
  filter (fun q => p_deposit_destino_nombre q =? name) ps.

(** [round(target - current_available)] of a peer. *)
Definition rounded_deficit (target_level : string) (s : StockLevel) : Z :=
  Py.round (stock_objetivo target_level s - stock_actual s).


(** [max(0, central.current_available - central.stock_minimum)]. *)
Definition available_at_central (central : StockLevel) : Q :=
  Qmax 0 (stock_actual central - stock_minimo central).

(** Totals of peer redistribution, as the classification defines them. *)
Definition total_surplus (deposits : Deposits) : Q :=
  DemandForecaster.Qsum
    (map Redistribution.excedente_disponible (Redistribution.excedentes_de deposits)).

Definition total_deficit (target_level : string) (deposits : Deposits) : Q :=
  DemandForecaster.Qsum
    (map Redistribution.faltante (Redistribution.faltantes_de target_level deposits)).

(** Nearest whole number of units, halves upwards. *)
Definition half_up (x : Q) : Z := Qfloor (x + (1 # 2)).

Definition surplus_units (es : list Redistribution.Excedente) : Z :=
  fold_right Z.add 0%Z
    (map (fun e => half_up (Redistribution.excedente_disponible e)) es).

Definition deficit_units (fs : list Redistribution.Faltante) : Z :=
  fold_right Z.add 0%Z (map (fun f => half_up (Redistribution.faltante f)) fs).

Definition total_surplus_units (deposits : Deposits) : Z :=
  surplus_units (Redistribution.excedentes_de deposits).

Definition total_deficit_units (target_level : string) (deposits : Deposits) : Z :=
  deficit_units (Redistribution.faltantes_de target_level deposits).

(** The series restricted to the trailing window that ends at its own
    latest date. *)
Definition window (series : DemandForecaster.DataFrame) (window_days : Z)
    : DemandForecaster.DataFrame :=
  filter
    (fun r => (DemandForecaster.fecha_max series - window_days <=? fecha r)%Z)
    series.

(** The seven daily totals of the outlier example. *)
Definition outlier_days : list Q := [1; 1; 1; 1; 2; 3; 6].

End Spec.

(** * Concrete inputs *)

Module Escenario.
Import DistributionService.

Definition nivel (pid : Z) (name : string) (actual minimo ideal maximo : Q)
    : StockLevel :=
  {| product_id := pid; deposit_id := 0; cod_item := "0001";
     producto_nombre := "producto"; marca := "marca"; rubro := "rubro";
     subrubro := "subrubro"; deposito_nombre := name;
     stock_actual := actual; stock_real := actual; stock_reservado := 0;
     stock_minimo := minimo; stock_ideal := ideal; stock_maximo := maximo;
     demanda_diaria := 0; dias_cobertura := 30; metodo_forecast := "mediana";
     tendencia := "estable"; ventas_30_dias := 0; ventas_60_dias := 0;
     ventas_90_dias := 0; ventas_365_dias := 0; monto_90_dias := 0;
     estado := "ok" |}.

Definition sin_costos (_ : Z) : Q := 0.

(** Central 120 with floor 50; peer A short of 40, peer B short of 50. *)
Definition central_120 := nivel 1 CENTRAL_DEPOSIT_NAME 120 50 100 200.
Definition peer_A := nivel 1 "SUCURSAL A" 10 25 50 100.
Definition peer_B := nivel 1 "SUCURSAL B" 0 25 50 100.
Definition red_120 := [central_120; peer_A; peer_B].

(** Central half a unit above its floor; one peer short of 5. *)
Definition central_justo := nivel 1 CENTRAL_DEPOSIT_NAME 10 (19 # 2) 19 38.
Definition peer_corto := nivel 1 "SUCURSAL A" 0 (5 # 2) 5 10.
Definition red_media_unidad := [central_justo; peer_corto].

(** A peer with suppressed targets and a fractional negative stock. *)
Definition peer_negativo := nivel 1 "SUCURSAL A" (- (3 # 10)) 0 0 0.
Definition red_negativa := [central_120; peer_negativo].

(** The same with a whole negative stock. *)
Definition peer_menos_3 := nivel 1 "SUCURSAL A" (- 3) 0 0 0.
Definition red_menos_3 := [central_120; peer_menos_3].

(** A central below its own floor. *)
Definition central_bajo := nivel 1 CENTRAL_DEPOSIT_NAME 20 50 100 200.
Definition red_central_bajo := [central_bajo; peer_A].

Definition compra_del_central : PurchaseNeed :=
  purchase sin_costos 1 central_bajo central_bajo 80 20 100
    "Central bajo mínimo".

Definition depositos (levels : list StockLevel) : Deposits :=
  map (fun sl => (deposito_nombre sl, sl)) levels.

(** Surplus of 1.5 units facing a deficit of 10. *)
Definition peer_sobra := nivel 1 "SUCURSAL X" 2 (1 # 4) (1 # 2) 1.
Definition peer_falta := nivel 1 "SUCURSAL Y" 0 5 10 20.
Definition red_sobrante := [peer_sobra; peer_falta].

(** Sales histories. *)
Definition ajuste_nulo (_ : list (Z * Q)) : LinearModel := mkModel 0 0 0.

Definition ventas_outlier : DemandForecaster.DataFrame :=
  [mkVenta 0 1 100; mkVenta 50 1 100; mkVenta 100 6 600; mkVenta 150 1 100;
   mkVenta 200 1 100; mkVenta 250 3 300; mkVenta 200 1 100; mkVenta 364 1 100].

Definition ventas_escasas : DemandForecaster.DataFrame :=
  [mkVenta 0 0 0; mkVenta 365 1 100].

Definition ventas_firmes : DemandForecaster.DataFrame :=
  [mkVenta 0 5 500; mkVenta 1 5 500].

Definition historial (key : Z * Z) : DemandForecaster.DataFrame :=
  if (fst key =? 1)%Z then ventas_escasas else ventas_firmes.

Definition fila (pid : Z) : ProductStock :=
  {| ps_product_id := pid; ps_deposit_id := 1; ps_cod_item := "0001";
     ps_nombre := "producto"; ps_marca := None; ps_rubro := None;
     ps_subrubro := None; ps_deposito_nombre := "SUCURSAL A";
     ps_stock_disponible := 3; ps_stock_real := 3; ps_stock_reservado := 0 |}.

Definition un_dia (_ _ _ : option string) : Z := 1.
Definition umbral_uno (_ _ : option string) : Z := 1.

End Escenario.

(** * Invariants *)

Module Invariantes.
Import DistributionService.

(** What [_group_by_product] guarantees: one entry per product, one row per
    deposit name inside it, each row filed under its own name and product. *)
Definition well_filed (pid : Z) (deposits : Deposits) : Prop :=
  NoDup (map fst deposits)
  /\ Forall (fun e => deposito_nombre (snd e) = fst e /\ product_id (snd e) = pid)
       deposits.

Definition well_grouped (grouped : Grouped) : Prop :=
  NoDup (map fst grouped)
  /\ Forall (fun g => well_filed (fst g) (snd g)) grouped.

Section Central.
Variable target_level : string.
Variable product_costs : Z -> Q.

(** What one iteration of the peer loop can do. *)
Inductive paso (pid : Z) (central : StockLevel) (disp : Q) (s : StockLevel)
  : Q * list TransferProposal * list PurchaseNeed -> Prop :=
| paso_nada :
    faltante_int target_level s = 0%Z -> paso pid central disp s (disp, [], [])
| paso_total :
    (1 <= faltante_int target_level s)%Z -> inject_Z (faltante_int target_level s) <= disp ->
    paso pid central disp s
      (disp - inject_Z (faltante_int target_level s),
       [full_transfer target_level pid central s (faltante_int target_level s)], [])
| paso_parcial :
    (1 <= faltante_int target_level s)%Z -> disp < inject_Z (faltante_int target_level s) -> 0 < disp ->
    paso pid central disp s
      (0,
       [partial_transfer target_level pid central s (Py.int disp)],
       [purchase product_costs pid central s (faltante_int target_level s - Py.int disp)
          (stock_actual s + inject_Z (Py.int disp))
          (stock_objetivo target_level s) "Sucursal sin cobertura"])
| paso_compra :
    (1 <= faltante_int target_level s)%Z -> disp <= 0 ->
    paso pid central disp s
      (disp, [],
       [purchase product_costs pid central s (faltante_int target_level s) (stock_actual s)
          (stock_objetivo target_level s) "Central sin stock"]).

Definition transfer_ok (pid : Z) (central s : StockLevel) (t : TransferProposal)
    : Prop :=
  t_product_id t = pid
  /\ deposit_origen_nombre t = deposito_nombre central
  /\ deposit_destino_nombre t = deposito_nombre s.

Definition purchase_ok (pid : Z) (s : StockLevel) (q : PurchaseNeed) : Prop :=
  p_product_id q = pid
  /\ p_deposit_destino_nombre q = deposito_nombre s
  /\ Spec.peer_cause q = true.

End Central.

(** What the pairing loops guarantee of each transfer they emit. *)
Definition transfer_de (pid : Z) (o : StockLevel)
    (fals : list Redistribution.Faltante) (t : TransferProposal) : Prop :=
  (1 <= cantidad_transferir t)%Z
  /\ t_product_id t = pid
  /\ deposit_origen_nombre t = deposito_nombre o
  /\ exists d, In d (map Redistribution.fal_stock_level fals)
               /\ deposit_destino_nombre t = deposito_nombre d.

Definition transfer_entre (pid : Z) (excs : list Redistribution.Excedente)
    (fals : list Redistribution.Faltante) (t : TransferProposal) : Prop :=
  (1 <= cantidad_transferir t)%Z
  /\ t_product_id t = pid
  /\ exists o d,
       In o (map Redistribution.exc_stock_level excs)
       /\ In d (map Redistribution.fal_stock_level fals)
       /\ deposit_origen_nombre t = deposito_nombre o
       /\ deposit_destino_nombre t = deposito_nombre d.

End Invariantes.

(** * Properties of single outputs *)

Module Propiedades.
Import DistributionService.

(** A transfer from [central] to the peer [s], as the peer loop builds it. *)
Definition traslado_de (target_level : string) (pid : Z)
    (central s : StockLevel) (t : TransferProposal) : Prop :=
  t_product_id t = pid
  /\ deposit_origen_nombre t = deposito_nombre central
  /\ t_marca t = marca central
  /\ deposit_destino_nombre t = deposito_nombre s
  /\ stock_destino_antes t = stock_actual s
  /\ stock_objetivo_destino t = stock_objetivo target_level s
  /\ stock_destino_despues t = stock_actual s + inject_Z (cantidad_transferir t)
  /\ (0 <= cantidad_transferir t)%Z
  /\ (cantidad_transferir t <= faltante_int target_level s)%Z
  /\ (1 <= faltante_int target_level s)%Z.

(** A purchase need for the destination [d], as the loops build it. *)
Definition compra_de (target_level : string) (product_costs : Z -> Q)
    (pid : Z) (d : StockLevel) (q : PurchaseNeed) : Prop :=
  p_product_id q = pid
  /\ p_deposit_destino_nombre q = deposito_nombre d
  /\ p_marca q = marca d
  /\ p_stock_objetivo_destino q = stock_objetivo target_level d
  /\ costo_unitario q = product_costs pid
  /\ costo_total q = product_costs pid * inject_Z (cantidad_necesaria q)
  /\ (1 <= cantidad_necesaria q)%Z
  /\ stock_actual_destino q + inject_Z (cantidad_necesaria q)
     == stock_actual d
        + inject_Z (Py.round (stock_objetivo target_level d - stock_actual d)).

(** The three causes of a purchase need. *)
Definition causa_conocida (q : PurchaseNeed) : Prop :=
  origen_necesidad q = "Sucursal sin cobertura"
  \/ origen_necesidad q = "Central sin stock"
  \/ origen_necesidad q = "Central bajo mínimo".

(** The four stock states. *)
Definition estado_conocido (sl : StockLevel) : Prop :=
  estado sl = "ok" \/ estado sl = "bajo_minimo"
  \/ estado sl = "excedente" \/ estado sl = "sin_stock".




(** A deficit row never asks for more than its target less its stock, and
    its location is below its ideal stock. *)
Definition tope_ok (f : Redistribution.Faltante) : Prop :=
  Redistribution.faltante f
  <= Redistribution.fal_stock_objetivo f
     - stock_actual (Redistribution.fal_stock_level f)
  /\ stock_actual (Redistribution.fal_stock_level f)
     < stock_ideal (Redistribution.fal_stock_level f).

(** A transfer of peer redistribution from the location [o]. *)
Definition traslado_entre_pares (o : StockLevel) (t : TransferProposal)
    : Prop :=
  (1 <= cantidad_transferir t)%Z
  /\ deposit_origen_nombre t = deposito_nombre o
  /\ stock_origen_antes t = stock_actual o
  /\ stock_origen_despues t = stock_actual o - inject_Z (cantidad_transferir t)
  /\ stock_ideal o - (1 # 2) <= stock_origen_despues t
  /\ stock_destino_despues t
     = stock_destino_antes t + inject_Z (cantidad_transferir t)
  /\ stock_destino_antes t < stock_ideal_destino t
  /\ stock_destino_despues t <= stock_objetivo_destino t + (1 # 2).

(** The 90-day sales amount of a product over all its locations. *)
Definition monto_producto (stock_levels : list StockLevel) (pid : Z) : Q :=
  DemandForecaster.Qsum
    (map monto_90_dias
       (filter (fun x => (product_id x =? pid)%Z) stock_levels)).

(** The distinct products of a list of levels. *)
Definition productos (stock_levels : list StockLevel) : list Z :=
  nodup Z.eq_dec (map product_id stock_levels).

(** The line of a report a transfer or a purchase need belongs to. *)
Definition linea_traslado (t : TransferProposal) : Z * string :=
  (t_product_id t, deposit_destino_nombre t).

Definition linea_compra (q : PurchaseNeed) : Z * string :=
  (p_product_id q, p_deposit_destino_nombre q).

End Propiedades.

(** * More concrete inputs *)

Module Casos.
Import DistributionService.

(** Product 1 with its central row, product 2 without one. *)
Definition peer_2A := Escenario.nivel 2 "SUCURSAL A" 0 25 50 100.
Definition peer_2B := Escenario.nivel 2 "SUCURSAL B" 5 25 50 100.
Definition red_dos_productos : list StockLevel :=
  Escenario.red_120 ++ [peer_2A; peer_2B].

(** A peer half a unit short of its ideal stock. *)
Definition peer_C := Escenario.nivel 1 "SUCURSAL C" (99 # 2) 25 50 100.
Definition red_con_C : list StockLevel := Escenario.red_120 ++ [peer_C].

(** 201 products under their minimum, product [i] having sold for [i]. *)
Definition con_monto (i : nat) : StockLevel :=
  {| product_id := Z.of_nat i; deposit_id := 1; cod_item := "0001";
     producto_nombre := "producto"; marca := "marca"; rubro := "rubro";
     subrubro := "subrubro"; deposito_nombre := "SUCURSAL A";
     stock_actual := 1; stock_real := 1; stock_reservado := 0;
     stock_minimo := 5; stock_ideal := 10; stock_maximo := 20;
     demanda_diaria := 0; dias_cobertura := 30; metodo_forecast := "mediana";
     tendencia := "estable"; ventas_30_dias := 0; ventas_60_dias := 0;
     ventas_90_dias := 0; ventas_365_dias := 0;
     monto_90_dias := inject_Z (Z.of_nat i);
     estado := "bajo_minimo" |}.

Definition muchos_productos : list StockLevel := map con_monto (seq 1 201).

(** Six units sold in two tickets of one day. *)
Definition venta_unica : DemandForecaster.DataFrame :=
  [mkVenta 100 4 400; mkVenta 100 2 200].

(** Three levels of one product: 10 units above a maximum of 20, a surplus
    whose maximum rounds to 0, and a level within its bounds; every unit
    costs 10. *)
Definition nivel_estado (name : string) (actual maximo : Q) (st : string)
    : StockLevel :=
  {| product_id := 1; deposit_id := 1; cod_item := "0001";
     producto_nombre := "producto"; marca := "marca"; rubro := "rubro";
     subrubro := "subrubro"; deposito_nombre := name;
     stock_actual := actual; stock_real := actual; stock_reservado := 0;
     stock_minimo := maximo / 4; stock_ideal := maximo / 2;
     stock_maximo := maximo;
     demanda_diaria := 0; dias_cobertura := 30; metodo_forecast := "mediana";
     tendencia := "estable"; ventas_30_dias := 0; ventas_60_dias := 0;
     ventas_90_dias := 0; ventas_365_dias := 0; monto_90_dias := 0;
     estado := st |}.

Definition red_inmovilizada : list StockLevel :=
  [nivel_estado "SUCURSAL A" 30 20 "excedente";
   nivel_estado "SUCURSAL B" 5 0 "excedente";
   nivel_estado "SUCURSAL C" 15 20 "ok"].

Definition costo_diez (_ : Z) : Q := 10.

(** Product 2 as the calculator sees it: the central deposit with 100
    units, a peer with 7 and a peer with 2, each selling 5 a day. *)
Definition fila_en (did : Z) (name : string) (stock : Q) : ProductStock :=
  {| ps_product_id := 2; ps_deposit_id := did; ps_cod_item := "0002";
     ps_nombre := "producto"; ps_marca := None; ps_rubro := None;
     ps_subrubro := None; ps_deposito_nombre := name;
     ps_stock_disponible := stock; ps_stock_real := stock;
     ps_stock_reservado := 0 |}.

Definition filas_producto_2 : list ProductStock :=
  [fila_en 1 DistributionService.CENTRAL_DEPOSIT_NAME 100;
   fila_en 2 "SUCURSAL A" 7;
   fila_en 3 "SUCURSAL B" 2].

Definition niveles_producto_2 : list StockLevel :=
  StockCalculator.calculate_all_stock_levels 2 4 365 Escenario.un_dia
    Escenario.umbral_uno Escenario.historial "mediana" Escenario.ajuste_nulo
    filas_producto_2.

(** Two products under their minimum. *)
Definition pocos_productos : list StockLevel := map con_monto (seq 1 2).

End Casos.

(** * Proofs *)

(** ** Python numerics *)

Module PyFacts.

Lemma Qltb_true (x y : Q) : Py.Qltb x y = true <-> x < y.
Proof.
  unfold Py.Qltb. rewrite negb_true_iff.
  split; intro H.
  - apply Qnot_le_lt. intro L. apply Qle_bool_iff in L. congruence.
  - destruct (Qle_bool y x) eqn:E; [|reflexivity].
    apply Qle_bool_iff in E. exfalso. apply (Qlt_not_le _ _ H E).
Qed.

Lemma Qltb_false (x y : Q) : Py.Qltb x y = false <-> y <= x.
Proof.
  unfold Py.Qltb. rewrite negb_false_iff. apply Qle_bool_iff.
Qed.

Lemma Qle_bool_false (x y : Q) : Qle_bool x y = false <-> y < x.
Proof.
  rewrite <- Qltb_true. unfold Py.Qltb.
  destruct (Qle_bool x y); simpl; split; congruence.
Qed.

Lemma inject_Z_minus (a b : Z) : inject_Z (a - b) = inject_Z a - inject_Z b.
Proof.
  unfold Z.sub, Qminus. rewrite inject_Z_plus, inject_Z_opp. reflexivity.
Qed.

Lemma Qfloor_unique (x : Q) (n : Z) :
  inject_Z n <= x -> x < inject_Z (n + 1) -> Qfloor x = n.
Proof.
  intros Hlo Hhi.
  pose proof (Qfloor_resp_le _ _ Hlo) as H1. rewrite Qfloor_Z in H1.
  pose proof (Qfloor_le x) as H2.
  assert (H3 : inject_Z (Qfloor x) < inject_Z (n + 1)) by lra.
  rewrite <- Zlt_Qlt in H3. lia.
Qed.

Lemma Qfloor_shift (x : Q) (k : Z) :
  Qfloor (x - inject_Z k) = (Qfloor x - k)%Z.
Proof.
  apply Qfloor_unique.
  - pose proof (Qfloor_le x). rewrite inject_Z_minus. lra.
  - pose proof (Qlt_floor x) as H.
    replace (Qfloor x - k + 1)%Z with ((Qfloor x + 1) - k)%Z by lia.
    rewrite inject_Z_minus. lra.
Qed.

Ltac unit_plus :=
  rewrite ?Z.add_0_r, ?inject_Z_plus in *;
  change (inject_Z 0) with 0 in *; change (inject_Z 1) with 1 in *.

Lemma round_cases (x : Q) :
  Py.round x = Qfloor x /\ x - inject_Z (Qfloor x) <= 1 # 2
  \/ Py.round x = (Qfloor x + 1)%Z /\ (1 # 2) <= x - inject_Z (Qfloor x).
Proof.
  unfold Py.round.
  destruct (Qcompare (x - inject_Z (Qfloor x)) (1 # 2)) eqn:E.
  - apply Qeq_alt in E.
    destruct (Z.even (Qfloor x)); [left | right]; split; try reflexivity; lra.
  - apply Qlt_alt in E. left. split; [reflexivity | lra].
  - apply Qgt_alt in E. right. split; [reflexivity | lra].
Qed.

Lemma round_lower (x : Q) : x - (1 # 2) <= inject_Z (Py.round x).
Proof.
  pose proof (Qfloor_le x) as Hlo. pose proof (Qlt_floor x) as Hhi.
  destruct (round_cases x) as [[-> H] | [-> H]]; unit_plus; lra.
Qed.

Lemma round_upper (x : Q) : inject_Z (Py.round x) <= x + (1 # 2).
Proof.
  pose proof (Qfloor_le x) as Hlo. pose proof (Qlt_floor x) as Hhi.
  destruct (round_cases x) as [[-> H] | [-> H]]; unit_plus; lra.
Qed.

#[export] Instance round_Proper : Proper (Qeq ==> eq) Py.round.
Proof.
  intros x y E. unfold Py.round.
  rewrite (Qfloor_comp _ _ E).
  assert (E' : x - inject_Z (Qfloor y) == y - inject_Z (Qfloor y))
    by (rewrite E; reflexivity).
  rewrite (Qcompare_comp _ _ E' _ _ (Qeq_refl (1 # 2))).
  reflexivity.
Qed.

Lemma round_Z (z : Z) : Py.round (inject_Z z) = z.
Proof.
  unfold Py.round. rewrite Qfloor_Z.
  assert (E : inject_Z z - inject_Z z == 0) by ring.
  rewrite (Qcompare_comp _ _ E _ _ (Qeq_refl (1 # 2))). reflexivity.
Qed.

Lemma round_mono (x y : Q) : x <= y -> (Py.round x <= Py.round y)%Z.
Proof.
  intro L. apply Qle_lt_or_eq in L. destruct L as [L | E].
  - destruct (Z_le_gt_dec (Py.round x) (Py.round y)) as [|G]; [assumption|].
    exfalso.
    assert (G' : (Py.round y + 1 <= Py.round x)%Z) by lia.
    rewrite Zle_Qle in G'. unit_plus.
    pose proof (round_upper x). pose proof (round_lower y). lra.
  - rewrite E. lia.
Qed.

Lemma round_pos (x : Q) : (1 <= Py.round x)%Z -> 0 < x.
Proof.
  intro H. rewrite Zle_Qle in H. change (inject_Z 1) with 1 in H.
  pose proof (round_upper x). lra.
Qed.

Lemma round_nonpos (x : Q) : x <= 0 -> (Py.round x <= 0)%Z.
Proof.
  intro H. apply round_mono in H.
  change 0 with (inject_Z 0) in H. rewrite round_Z in H. exact H.
Qed.

#[export] Instance int_Proper : Proper (Qeq ==> eq) Py.int.
Proof.
  intros x y E. unfold Py.int, Py.Qltb.
  assert (B : Qle_bool 0 x = Qle_bool 0 y).
  { destruct (Qle_bool 0 x) eqn:Hx, (Qle_bool 0 y) eqn:Hy; try reflexivity.
    - apply Qle_bool_iff in Hx. apply Qle_bool_false in Hy. lra.
    - apply Qle_bool_iff in Hy. apply Qle_bool_false in Hx. lra. }
  rewrite B, (Qfloor_comp _ _ E), (Qceiling_comp _ _ E). reflexivity.
Qed.

Lemma int_nonneg (x : Q) : 0 <= x -> Py.int x = Qfloor x.
Proof.
  intro H. unfold Py.int.
  destruct (Py.Qltb x 0) eqn:E; [|reflexivity].
  apply Qltb_true in E. lra.
Qed.

Lemma int_Z (z : Z) : Py.int (inject_Z z) = z.
Proof.
  unfold Py.int. rewrite Qfloor_Z, Qceiling_Z. destruct (Py.Qltb _ _); reflexivity.
Qed.

Lemma max0_nonneg (x : Q) : 0 <= Py.max0 x.
Proof.
  unfold Py.max0. destruct (Py.Qltb 0 x) eqn:E; [|lra].
  apply Qltb_true in E. lra.
Qed.

Lemma max0_le_Qmax (x : Q) : Py.max0 x <= Qmax 0 x.
Proof.
  unfold Py.max0. destruct (Py.Qltb 0 x).
  - apply Q.le_max_r.
  - apply Q.le_max_l.
Qed.

Lemma max0_zero (x : Q) : x <= 0 -> Py.max0 x = 0.
Proof.
  intro H. unfold Py.max0. destruct (Py.Qltb 0 x) eqn:E; [|reflexivity].
  apply Qltb_true in E. lra.
Qed.

Lemma max_nonneg (x : Q) : 0 <= Py.max 0 x.
Proof.
  unfold Py.max. destruct (Py.Qltb 0 x) eqn:E; [|lra].
  apply Qltb_true in E. lra.
Qed.

Lemma min_le_l (a b : Q) : Py.min a b <= a.
Proof.
  unfold Py.min. destruct (Py.Qltb b a) eqn:E; [|lra].
  apply Qltb_true in E. lra.
Qed.

Lemma min_le_r (a b : Q) : Py.min a b <= b.
Proof.
  unfold Py.min. destruct (Py.Qltb b a) eqn:E; [lra|].
  apply Qltb_false in E. lra.
Qed.

Lemma max1_pos (n : Z) : (1 <= Py.max1 n)%Z.
Proof.
  unfold Py.max1. destruct (1 <? n)%Z eqn:E; [|lia].
  apply Z.ltb_lt in E. lia.
Qed.

Lemma max1_as_max (n : Z) : Py.max1 n = Z.max 1 n.
Proof.
  unfold Py.max1. destruct (1 <? n)%Z eqn:E.
  - apply Z.ltb_lt in E. lia.
  - apply Z.ltb_ge in E. lia.
Qed.

End PyFacts.

(** ** Dictionaries and grouping *)

Section DictFacts.
Context {K V : Type}.
Variable eqb : K -> K -> bool.
Hypothesis eqb_eq : forall a b, eqb a b = true <-> a = b.

Lemma dict_set_keys (k : K) (v : V) (d : list (K * V)) (k' : K) :
  In k' (map fst (dict_set eqb k v d)) <-> k' = k \/ In k' (map fst d).
Proof.
  induction d as [|[k0 v0] d IH]; simpl.
  - intuition congruence.
  - destruct (eqb k k0) eqn:E; simpl.
    + apply eqb_eq in E. subst. intuition congruence.
    + rewrite IH. intuition congruence.
Qed.

Lemma dict_set_NoDup (k : K) (v : V) (d : list (K * V)) :
  NoDup (map fst d) -> NoDup (map fst (dict_set eqb k v d)).
Proof.
  induction d as [|[k0 v0] d IH]; simpl; intro H.
  - constructor; [intros [] | constructor].
  - inversion H as [|? ? Hn Hd]; subst.
    destruct (eqb k k0) eqn:E; simpl.
    + constructor; assumption.
    + constructor; [|auto].
      rewrite dict_set_keys. intros [-> | Hin]; [|contradiction].
      assert (eqb k k = true) by (apply eqb_eq; reflexivity). congruence.
Qed.

Lemma dict_set_In (k : K) (v : V) (d : list (K * V)) (e : K * V) :
  In e (dict_set eqb k v d) -> e = (k, v) \/ In e d.
Proof.
  induction d as [|[k0 v0] d IH]; simpl.
  - intros [<- | []]. left. reflexivity.
  - destruct (eqb k k0) eqn:E; simpl.
    + apply eqb_eq in E. subst. intros [<- | H]; auto.
    + intros [<- | H]; auto. destruct (IH H); auto.
Qed.

Lemma dict_get_In (k : K) (v : V) (d : list (K * V)) :
  dict_get eqb k d = Some v -> In (k, v) d.
Proof.
  induction d as [|[k0 v0] d IH]; simpl; [discriminate|].
  destruct (eqb k k0) eqn:E.
  - apply eqb_eq in E. subst. intros [= ->]. left. reflexivity.
  - intro H. right. auto.
Qed.

Lemma In_dict_get (k : K) (v : V) (d : list (K * V)) :
  NoDup (map fst d) -> In (k, v) d -> dict_get eqb k d = Some v.
Proof.
  induction d as [|[k0 v0] d IH]; simpl; [contradiction|].
  intros Hnd Hin. inversion Hnd as [|? ? Hn Hd]; subst.
  destruct (eqb k k0) eqn:E.
  - apply eqb_eq in E. subst. destruct Hin as [[= ->] | Hin]; [reflexivity|].
    exfalso. apply Hn. apply (in_map fst) in Hin. exact Hin.
  - destruct Hin as [[= -> ->] | Hin]; [|auto].
    assert (eqb k k = true) by (apply eqb_eq; reflexivity). congruence.
Qed.

Lemma NoDup_keys_unique (d : list (K * V)) (k : K) (v v' : V) :
  NoDup (map fst d) -> In (k, v) d -> In (k, v') d -> v = v'.
Proof.
  intros Hnd H1 H2.
  apply (In_dict_get _ _ _ Hnd) in H1. apply (In_dict_get _ _ _ Hnd) in H2.
  congruence.
Qed.
End DictFacts.

Module GroupFacts.
Import DistributionService Invariantes.

Lemma group_insert_well_grouped (grouped : Grouped) (sl : StockLevel) :
  well_grouped grouped -> well_grouped (group_insert grouped sl).
Proof.
  intros [Hnd Hall]. unfold group_insert. split.
  - apply dict_set_NoDup; [apply Z.eqb_eq | assumption].
  - apply Forall_forall. intros [pid deps] Hin.
    apply (dict_set_In Z.eqb Z.eqb_eq) in Hin. destruct Hin as [[= -> ->] | Hin].
    + assert (Hinner : well_filed (product_id sl)
                match dict_get Z.eqb (product_id sl) grouped with
                | Some d => d
                | None => []
                end).
      { destruct (dict_get Z.eqb (product_id sl) grouped) as [d|] eqn:G.
        - apply dict_get_In in G; [|apply Z.eqb_eq].
          rewrite Forall_forall in Hall. apply (Hall _ G).
        - split; [constructor | constructor]. }
      destruct Hinner as [Hnd' Hall']. split; simpl.
      * apply dict_set_NoDup; [apply String.eqb_eq | assumption].
      * apply Forall_forall. intros e He.
        apply (dict_set_In String.eqb String.eqb_eq) in He.
        destruct He as [-> | He]; [simpl; split; reflexivity|].
        rewrite Forall_forall in Hall'. apply (Hall' _ He).
    + rewrite Forall_forall in Hall. apply (Hall _ Hin).
Qed.

Lemma fold_group_insert_well_grouped (l : list StockLevel) (grouped : Grouped) :
  well_grouped grouped -> well_grouped (fold_left group_insert l grouped).
Proof.
  revert grouped. induction l as [|sl l IH]; simpl; intros grouped H.
  - exact H.
  - apply IH, group_insert_well_grouped, H.
Qed.

Lemma group_by_product_well_grouped (l : list StockLevel) :
  well_grouped (_group_by_product l).
Proof.
  apply fold_group_insert_well_grouped. split; constructor.
Qed.

Lemma well_grouped_entry (grouped : Grouped) (p : Z) (deposits : Deposits) :
  well_grouped grouped -> In (p, deposits) grouped -> well_filed p deposits.
Proof.
  intros [_ Hall] Hin. rewrite Forall_forall in Hall. apply (Hall _ Hin).
Qed.

End GroupFacts.

(** ** Central distribution *)

Module CentralFacts.
Import DistributionService Invariantes Spec PyFacts.

Lemma sum_transfers_app (a b : list TransferProposal) :
  sum_transfers (a ++ b) = (sum_transfers a + sum_transfers b)%Z.
Proof. induction a; simpl; lia. Qed.

Lemma sum_purchases_app (a b : list PurchaseNeed) :
  sum_purchases (a ++ b) = (sum_purchases a + sum_purchases b)%Z.
Proof. induction a; simpl; lia. Qed.

Lemma filter_all {A : Type} (f : A -> bool) (l : list A) :
  Forall (fun x => f x = true) l -> filter f l = l.
Proof.
  induction 1 as [|x l Hx _ IH]; simpl; [reflexivity|].
  rewrite Hx, IH. reflexivity.
Qed.

Lemma filter_none {A : Type} (f : A -> bool) (l : list A) :
  Forall (fun x => f x = false) l -> filter f l = [].
Proof.
  induction 1 as [|x l Hx _ IH]; simpl; [reflexivity|].
  rewrite Hx, IH. reflexivity.
Qed.

Section Central.
Variable target_level : string.
Variable product_costs : Z -> Q.

Local Abbreviation paso := (paso target_level product_costs).
Local Abbreviation procesar_sucursal := (procesar_sucursal target_level product_costs).
Local Abbreviation procesar_sucursales := (procesar_sucursales target_level product_costs).
Local Abbreviation procesar_producto := (procesar_producto target_level product_costs).
Local Abbreviation procesar_productos := (procesar_productos target_level product_costs).
Local Abbreviation compra_central := (compra_central target_level product_costs).
Local Abbreviation faltante_int := (faltante_int target_level).

(** The deficit the loop acts on is the rounded deficit when that is at
    least one unit, and nothing otherwise. *)
Lemma faltante_int_rounded (s : StockLevel) :
  faltante_int s =
  if (1 <=? rounded_deficit target_level s)%Z
  then rounded_deficit target_level s else 0%Z.
Proof.
  unfold DistributionService.faltante_int, rounded_deficit.
  set (x := stock_objetivo target_level s - stock_actual s).
  destruct (Qle_bool x 0) eqn:E.
  - apply Qle_bool_iff, round_nonpos in E.
    destruct (1 <=? Py.round x)%Z eqn:L; [|reflexivity].
    apply Z.leb_le in L. lia.
  - destruct (Py.round x <=? 0)%Z eqn:L, (1 <=? Py.round x)%Z eqn:L';
      try reflexivity.
    + apply Z.leb_le in L, L'. lia.
    + apply Z.leb_gt in L, L'. lia.
Qed.

Lemma faltante_int_nonneg (s : StockLevel) : (0 <= faltante_int s)%Z.
Proof.
  rewrite faltante_int_rounded.
  destruct (1 <=? rounded_deficit target_level s)%Z eqn:L; [|lia].
  apply Z.leb_le in L. lia.
Qed.

Lemma procesar_sucursal_paso (pid : Z) (central : StockLevel) (disp : Q)
    (s : StockLevel) :
  paso pid central disp s (procesar_sucursal pid central disp s).
Proof.
  unfold DistributionService.procesar_sucursal.
  pose proof (eq_refl (faltante_int s)) as F.
  unfold DistributionService.faltante_int at 1 in F.
  set (x := stock_objetivo target_level s - stock_actual s) in *.
  destruct (Qle_bool x 0) eqn:E.
  { apply paso_nada. symmetry. exact F. }
  destruct (Py.round x <=? 0)%Z eqn:L.
  { apply paso_nada. symmetry. exact F. }
  apply Z.leb_gt in L. rewrite F.
  destruct (Qle_bool (inject_Z (faltante_int s)) disp) eqn:C.
  { apply Qle_bool_iff in C. apply paso_total; [lia | exact C]. }
  apply Qle_bool_false in C.
  destruct (Py.Qltb 0 disp) eqn:P.
  - apply Qltb_true in P. apply paso_parcial; [lia | exact C | exact P].
  - apply Qltb_false in P. apply paso_compra; [lia | exact P].
Qed.

(** Each iteration hands out exactly the peer's deficit. *)
Lemma paso_conserva pid central disp s disp' ts ps :
  paso pid central disp s (disp', ts, ps) ->
  (sum_transfers ts + sum_purchases ps)%Z = faltante_int s.
Proof.
  inversion 1; subst; simpl; lia.
Qed.

(** Each iteration takes what it transfers from the pool and never
    overdraws it. *)
Lemma paso_pool pid central disp s disp' ts ps :
  paso pid central disp s (disp', ts, ps) ->
  0 <= disp -> 0 <= disp' /\ inject_Z (sum_transfers ts) + disp' <= disp.
Proof.
  inversion 1; subst; simpl; intro Hd; unit_plus.
  - split; lra.
  - split; lra.
  - rewrite int_nonneg by lra.
    pose proof (Qfloor_le disp). split; lra.
  - split; lra.
Qed.

Lemma paso_sin_pool pid central disp s disp' ts ps :
  paso pid central disp s (disp', ts, ps) ->
  disp <= 0 -> ts = [] /\ disp' = disp.
Proof.
  inversion 1; subst; intro Hd; try (split; reflexivity).
  - exfalso. assert (Q1 : inject_Z 1 <= inject_Z (faltante_int s))
      by (rewrite <- Zle_Qle; assumption).
    change (inject_Z 1) with 1 in Q1. lra.
  - exfalso. lra.
Qed.

Lemma paso_etiquetas pid central disp s disp' ts ps :
  paso pid central disp s (disp', ts, ps) ->
  Forall (transfer_ok pid central s) ts /\ Forall (purchase_ok pid s) ps.
Proof.
  inversion 1; subst; split; repeat constructor.
Qed.

(** *** The peer loop *)

Lemma sucursales_conserva (f : string -> bool) pid central L :
  forall disp ts ps,
  procesar_sucursales pid central disp L = (ts, ps) ->
  (sum_transfers (filter (fun t => f (deposit_destino_nombre t)) ts)
   + sum_purchases (filter (fun q => f (p_deposit_destino_nombre q)) ps))%Z
  = fold_right Z.add 0%Z
      (map faltante_int (filter (fun s => f (deposito_nombre s)) L)).
Proof.
  induction L as [|s L IH]; simpl; intros disp ts ps E.
  - injection E as <- <-. reflexivity.
  - pose proof (procesar_sucursal_paso pid central disp s) as P.
    destruct (procesar_sucursal pid central disp s) as [[d1 t1] p1].
    destruct (procesar_sucursales pid central d1 L) as [t2 p2] eqn:R.
    injection E as <- <-.
    rewrite !filter_app, sum_transfers_app, sum_purchases_app.
    specialize (IH _ _ _ R).
    pose proof (paso_conserva _ _ _ _ _ _ _ P) as C.
    destruct (paso_etiquetas _ _ _ _ _ _ _ P) as [Ht Hp].
    destruct (f (deposito_nombre s)) eqn:F.
    + rewrite (filter_all _ t1), (filter_all _ p1); simpl; [lia | |].
      * eapply Forall_impl; [|exact Hp]. intros q (_ & -> & _). exact F.
      * eapply Forall_impl; [|exact Ht]. intros t (_ & _ & ->). exact F.
    + rewrite (filter_none _ t1), (filter_none _ p1); simpl; [lia | |].
      * eapply Forall_impl; [|exact Hp]. intros q (_ & -> & _). exact F.
      * eapply Forall_impl; [|exact Ht]. intros t (_ & _ & ->). exact F.
Qed.

Lemma sucursales_pool pid central L :
  forall disp ts ps,
  procesar_sucursales pid central disp L = (ts, ps) ->
  0 <= disp -> inject_Z (sum_transfers ts) <= disp.
Proof.
  induction L as [|s L IH]; simpl; intros disp ts ps E Hd.
  - injection E as <- <-. simpl. exact Hd.
  - pose proof (procesar_sucursal_paso pid central disp s) as P.
    destruct (procesar_sucursal pid central disp s) as [[d1 t1] p1].
    destruct (procesar_sucursales pid central d1 L) as [t2 p2] eqn:R.
    injection E as <- <-.
    destruct (paso_pool _ _ _ _ _ _ _ P Hd) as [Hd1 Hle].
    specialize (IH _ _ _ R Hd1).
    rewrite sum_transfers_app, inject_Z_plus. lra.
Qed.

Lemma sucursales_sin_pool pid central L :
  forall disp ts ps,
  procesar_sucursales pid central disp L = (ts, ps) ->
  disp <= 0 -> ts = [].
Proof.
  induction L as [|s L IH]; simpl; intros disp ts ps E Hd.
  - injection E as <- <-. reflexivity.
  - pose proof (procesar_sucursal_paso pid central disp s) as P.
    destruct (procesar_sucursal pid central disp s) as [[d1 t1] p1].
    destruct (procesar_sucursales pid central d1 L) as [t2 p2] eqn:R.
    injection E as <- <-.
    destruct (paso_sin_pool _ _ _ _ _ _ _ P Hd) as [-> ->].
    simpl. apply (IH _ _ _ R Hd).
Qed.

Lemma sucursales_etiquetas pid central L :
  forall disp ts ps,
  procesar_sucursales pid central disp L = (ts, ps) ->
  Forall (fun t => t_product_id t = pid
                   /\ deposit_origen_nombre t = deposito_nombre central) ts
  /\ Forall (fun q => p_product_id q = pid /\ peer_cause q = true) ps.
Proof.
  induction L as [|s L IH]; simpl; intros disp ts ps E.
  - injection E as <- <-. split; constructor.
  - pose proof (procesar_sucursal_paso pid central disp s) as P.
    destruct (procesar_sucursal pid central disp s) as [[d1 t1] p1].
    destruct (procesar_sucursales pid central d1 L) as [t2 p2] eqn:R.
    injection E as <- <-.
    destruct (paso_etiquetas _ _ _ _ _ _ _ P) as [Ht Hp].
    destruct (IH _ _ _ R) as [Ht2 Hp2].
    split; apply Forall_app; split; try assumption.
    + eapply Forall_impl; [|exact Ht]. intros t (H1 & H2 & _). auto.
    + eapply Forall_impl; [|exact Hp]. intros q (H1 & _ & H3). auto.
Qed.

(** *** One product *)

Lemma compra_central_etiquetas pid central :
  Forall (fun q => p_product_id q = pid
                   /\ peer_cause q = false
                   /\ central_below_minimum q = true
                   /\ p_deposit_destino_nombre q = deposito_nombre central
                   /\ stock_actual central < stock_minimo central)
    (compra_central pid central).
Proof.
  unfold DistributionService.compra_central.
  destruct (Py.Qltb (stock_actual central) (stock_minimo central)) eqn:B;
    [|constructor].
  apply Qltb_true in B.
  destruct (0 <? _)%Z; repeat constructor. exact B.
Qed.

Lemma producto_ids pid deposits :
  Forall (fun t => t_product_id t = pid) (fst (procesar_producto pid deposits))
  /\ Forall (fun q => p_product_id q = pid) (snd (procesar_producto pid deposits)).
Proof.
  unfold DistributionService.procesar_producto.
  destruct (central_data deposits) as [central|]; [|split; constructor].
  destruct (procesar_sucursales _ _ _ _) as [ts ps] eqn:R.
  destruct (sucursales_etiquetas _ _ _ _ _ _ R) as [Ht Hp]. simpl. split.
  - eapply Forall_impl; [|exact Ht]. intros t [H _]. exact H.
  - apply Forall_app. split.
    + eapply Forall_impl; [|exact Hp]. intros q [H _]. exact H.
    + eapply Forall_impl; [|apply compra_central_etiquetas].
      intros q [H _]. exact H.
Qed.

(** *** All products *)

Lemma productos_ajenos (grouped : Grouped) (p : Z) :
  ~ In p (map fst grouped) ->
  transfers_of p (fst (procesar_productos grouped)) = []
  /\ purchases_of p (snd (procesar_productos grouped)) = [].
Proof.
  induction grouped as [|[pid deps] G IH]; simpl; intro Hn.
  - split; reflexivity.
  - destruct (producto_ids pid deps) as [Ht Hp].
    destruct (procesar_producto pid deps) as [t1 p1].
    destruct (procesar_productos G) as [t2 p2]. simpl in *.
    destruct IH as [IHt IHp]; [tauto|].
    unfold transfers_of, purchases_of in *.
    rewrite !filter_app, IHt, IHp, !app_nil_r. split; apply filter_none.
    + eapply Forall_impl; [|exact Ht]. intros t ->. apply Z.eqb_neq. tauto.
    + eapply Forall_impl; [|exact Hp]. intros q ->. apply Z.eqb_neq. tauto.
Qed.

Lemma productos_propios (grouped : Grouped) (p : Z) (deposits : Deposits) :
  NoDup (map fst grouped) -> In (p, deposits) grouped ->
  transfers_of p (fst (procesar_productos grouped))
  = fst (procesar_producto p deposits)
  /\ purchases_of p (snd (procesar_productos grouped))
     = snd (procesar_producto p deposits).
Proof.
  induction grouped as [|[pid deps] G IH]; simpl; intros Hnd Hin; [contradiction|].
  inversion Hnd as [|? ? Hnot HndG]; subst.
  destruct Hin as [[= -> ->] | Hin].
  - destruct (productos_ajenos G p Hnot) as [Et Ep].
    destruct (producto_ids p deposits) as [Ht Hp].
    destruct (procesar_producto p deposits) as [t1 p1].
    destruct (procesar_productos G) as [t2 p2]. simpl in *.
    unfold transfers_of, purchases_of in *.
    rewrite !filter_app, Et, Ep, !app_nil_r. split; apply filter_all.
    + eapply Forall_impl; [|exact Ht]. intros t ->. apply Z.eqb_refl.
    + eapply Forall_impl; [|exact Hp]. intros q ->. apply Z.eqb_refl.
  - assert (Hne : pid <> p).
    { intros ->. apply Hnot. apply (in_map fst) in Hin. exact Hin. }
    destruct (IH HndG Hin) as [Et Ep].
    destruct (producto_ids pid deps) as [Ht Hp].
    destruct (procesar_producto pid deps) as [t1 p1].
    destruct (procesar_productos G) as [t2 p2]. simpl in *.
    unfold transfers_of, purchases_of in *.
    rewrite !filter_app, Et, Ep.
    rewrite (filter_none _ t1), (filter_none _ p1); [split; reflexivity | |].
    + eapply Forall_impl; [|exact Hp]. intros q ->. apply Z.eqb_neq. exact Hne.
    + eapply Forall_impl; [|exact Ht]. intros t ->. apply Z.eqb_neq. exact Hne.
Qed.

(** *** Central and peers of one product *)

Lemma central_data_fold (deposits : Deposits) (acc : option StockLevel) :
  forall c,
  fold_left
    (fun acc '(name, sl) =>
       if name =? CENTRAL_DEPOSIT_NAME then Some sl else acc)
    deposits acc = Some c ->
  In (CENTRAL_DEPOSIT_NAME, c) deposits \/ acc = Some c.
Proof.
  revert acc. induction deposits as [|[n sl] d IH]; simpl; intros acc c H.
  - right. exact H.
  - destruct (IH _ _ H) as [Hin | Hacc]; [left; right; exact Hin|].
    destruct (n =? CENTRAL_DEPOSIT_NAME) eqn:E.
    + apply String.eqb_eq in E. injection Hacc as ->. subst n.
      left. left. reflexivity.
    + right. exact Hacc.
Qed.

Lemma central_data_In (deposits : Deposits) (c : StockLevel) :
  central_data deposits = Some c -> In (CENTRAL_DEPOSIT_NAME, c) deposits.
Proof.
  intro H. destruct (central_data_fold _ _ _ H) as [Hin | Habs];
    [exact Hin | discriminate].
Qed.

Lemma central_data_nombre p deposits c :
  well_filed p deposits -> central_data deposits = Some c ->
  deposito_nombre c = CENTRAL_DEPOSIT_NAME.
Proof.
  intros [_ Hall] H. apply central_data_In in H.
  rewrite Forall_forall in Hall. apply (Hall _ H).
Qed.

Lemma sucursales_data_In (deposits : Deposits) (s : StockLevel) :
  In s (sucursales_data deposits) <->
  exists n, In (n, s) deposits /\ n <> CENTRAL_DEPOSIT_NAME.
Proof.
  unfold sucursales_data. rewrite in_map_iff. split.
  - intros [[n s'] [<- Hin]]. apply filter_In in Hin. destruct Hin as [Hin Hn].
    exists n. split; [exact Hin|].
    apply String.eqb_neq. apply negb_true_iff. exact Hn.
  - intros [n [Hin Hn]]. exists (n, s). split; [reflexivity|].
    apply filter_In. split; [exact Hin|].
    apply negb_true_iff. apply String.eqb_neq. exact Hn.
Qed.

Lemma sucursales_data_nombres p deposits :
  well_filed p deposits ->
  NoDup (map deposito_nombre (sucursales_data deposits))
  /\ Forall (fun s => deposito_nombre s <> CENTRAL_DEPOSIT_NAME)
       (sucursales_data deposits).
Proof.
  intros [Hnd Hall]. unfold sucursales_data.
  induction deposits as [|[n sl] d IH]; simpl.
  - split; constructor.
  - inversion Hnd as [|? ? Hn Hd]; subst.
    inversion Hall as [|? ? [Hname _] Hall']; subst. simpl in *.
    destruct (IH Hd Hall') as [IH1 IH2].
    destruct (n =? CENTRAL_DEPOSIT_NAME) eqn:E; simpl; [split; assumption|].
    apply String.eqb_neq in E. split.
    + constructor; [|exact IH1].
      intro Hin. apply in_map_iff in Hin. destruct Hin as [s [Hs Hin]].
      apply in_map_iff in Hin. destruct Hin as [[n' s'] [<- Hin]].
      apply filter_In in Hin. destruct Hin as [Hin _].
      rewrite Forall_forall in Hall'. destruct (Hall' _ Hin) as [Hn' _].
      simpl in *. apply Hn. apply in_map_iff. exists (n', s').
      split; [simpl; congruence | exact Hin].
    + constructor; [congruence | exact IH2].
Qed.



Lemma producto_pool (p : Z) (deposits : Deposits) (central : StockLevel) :
  central_data deposits = Some central ->
  inject_Z (sum_transfers (fst (procesar_producto p deposits)))
  <= available_at_central central
  /\ Forall (fun t => deposit_origen_nombre t = deposito_nombre central)
       (fst (procesar_producto p deposits)).
Proof.
  intro Hc. unfold DistributionService.procesar_producto. rewrite Hc.
  destruct (procesar_sucursales _ _ _ _) as [ts ps] eqn:R. simpl. split.
  - eapply Qle_trans; [|apply max0_le_Qmax].
    apply (sucursales_pool _ _ _ _ _ _ R), max0_nonneg.
  - destruct (sucursales_etiquetas _ _ _ _ _ _ R) as [Ht _].
    eapply Forall_impl; [|exact Ht]. intros t [_ H]. exact H.
Qed.

Lemma producto_exclusion (p : Z) (deposits : Deposits) (q : PurchaseNeed) :
  In q (snd (procesar_producto p deposits)) ->
  central_below_minimum q = true ->
  exists central,
    central_data deposits = Some central
    /\ stock_actual central < stock_minimo central
    /\ fst (procesar_producto p deposits) = [].
Proof.
  unfold DistributionService.procesar_producto.
  destruct (central_data deposits) as [central|]; [|intros []].
  destruct (procesar_sucursales _ _ _ _) as [ts ps] eqn:R. simpl.
  intros Hin Hq. exists central. split; [reflexivity|].
  apply in_app_or in Hin. destruct Hin as [Hin | Hin].
  - exfalso. destruct (sucursales_etiquetas _ _ _ _ _ _ R) as [_ Hp].
    rewrite Forall_forall in Hp. destruct (Hp _ Hin) as [_ Hcause].
    unfold peer_cause, central_below_minimum in *.
    apply String.eqb_eq in Hq. rewrite Hq in Hcause. discriminate.
  - pose proof (compra_central_etiquetas p central) as Hcc.
    rewrite Forall_forall in Hcc. destruct (Hcc _ Hin) as (_ & _ & _ & _ & Hlt).
    split; [exact Hlt|].
    apply (sucursales_sin_pool _ _ _ _ _ _ R).
    rewrite max0_zero by lra. lra.
Qed.

Lemma producto_destino (p : Z) (deposits : Deposits) (central s : StockLevel) :
  well_filed p deposits ->
  central_data deposits = Some central ->
  In s (sucursales_data deposits) ->
  (sum_transfers (transfers_to (deposito_nombre s) (fst (procesar_producto p deposits)))
   + sum_purchases (purchases_for (deposito_nombre s)
                      (snd (procesar_producto p deposits))))%Z
  = faltante_int s.
Proof.
  intros Hwf Hc Hs.
  pose proof (central_data_nombre _ _ _ Hwf Hc) as Hcn.
  destruct (sucursales_data_nombres _ _ Hwf) as [Hnd Hne].
  unfold DistributionService.procesar_producto. rewrite Hc.
  destruct (procesar_sucursales _ _ _ _) as [ts ps] eqn:R. simpl.
  pose proof (sucursales_conserva (fun n => n =? deposito_nombre s)
                _ _ _ _ _ _ R) as C.
  unfold transfers_to, purchases_for.
  rewrite filter_app, sum_purchases_app.
  rewrite (filter_none _ (compra_central _ _)).
  - simpl. rewrite Z.add_0_r, C. clear C R.
    induction (sucursales_data deposits) as [|s0 L IH]; [contradiction|].
    simpl in *. inversion Hnd as [|? ? Hn HndL]; subst.
    inversion Hne as [|? ? _ HneL]; subst.
    destruct Hs as [-> | Hs].
    + rewrite String.eqb_refl. simpl.
      rewrite filter_none; [simpl; lia|].
      apply Forall_forall. intros s' Hs'. apply String.eqb_neq.
      intro E. apply Hn. rewrite <- E. apply in_map. exact Hs'.
    + destruct (deposito_nombre s0 =? deposito_nombre s) eqn:E.
      * apply String.eqb_eq in E. exfalso. apply Hn. rewrite E.
        apply in_map. exact Hs.
      * apply IH; assumption.
  - eapply Forall_impl; [|apply compra_central_etiquetas].
    intros q (_ & _ & _ & Hd & _). rewrite Hd, Hcn.
    apply String.eqb_neq. intro E.
    rewrite Forall_forall in Hne. apply (Hne _ Hs). symmetry. exact E.
Qed.

Lemma productos_In_purchase (grouped : Grouped) (q : PurchaseNeed) :
  In q (snd (procesar_productos grouped)) ->
  exists deposits,
    In (p_product_id q, deposits) grouped
    /\ In q (snd (procesar_producto (p_product_id q) deposits)).
Proof.
  induction grouped as [|[pid deps] G IH]; simpl; [intros []|].
  destruct (producto_ids pid deps) as [_ Hp].
  destruct (procesar_producto pid deps) as [t1 p1] eqn:E1.
  destruct (procesar_productos G) as [t2 p2]. simpl in *.
  intro Hin. apply in_app_or in Hin. destruct Hin as [Hin | Hin].
  - rewrite Forall_forall in Hp. rewrite (Hp _ Hin).
    exists deps. split; [left; reflexivity|]. rewrite E1. exact Hin.
  - destruct (IH Hin) as [d [H1 H2]]. exists d. split; [right|]; assumption.
Qed.

End Central.

End CentralFacts.

(** ** Peer redistribution *)

Module RedistributionFacts.
Import DistributionService Redistribution Invariantes Spec PyFacts CentralFacts.

Lemma insert_desc_perm {A : Type} (key : A -> Q) (x : A) (l : list A) :
  Permutation (insert_desc key x l) (x :: l).
Proof.
  induction l as [|y l IH]; simpl; [reflexivity|].
  destruct (Py.Qltb (key x) (key y)); [|reflexivity].
  rewrite IH. apply perm_swap.
Qed.

Lemma sort_desc_perm {A : Type} (key : A -> Q) (l : list A) :
  Permutation (sort_desc key l) l.
Proof.
  induction l as [|x l IH]; simpl; [reflexivity|].
  rewrite insert_desc_perm, IH. reflexivity.
Qed.

Lemma sort_desc_In {A : Type} (key : A -> Q) (l : list A) (x : A) :
  In x (sort_desc key l) <-> In x l.
Proof.
  split; apply Permutation_in; [|symmetry]; apply sort_desc_perm.
Qed.

Lemma half_up_shift (x : Q) (k : Z) :
  half_up (x - inject_Z k) = (half_up x - k)%Z.
Proof.
  unfold half_up. rewrite <- Qfloor_shift. apply Qfloor_comp. ring.
Qed.

Lemma half_up_nonneg (x : Q) : - (1 # 2) <= x -> (0 <= half_up x)%Z.
Proof.
  intro H. unfold half_up.
  assert (L : 0 <= x + (1 # 2)) by lra.
  apply Qfloor_resp_le in L. exact L.
Qed.

Lemma half_up_Z (z : Z) : half_up (inject_Z z) = z.
Proof.
  unfold half_up. apply Qfloor_unique; unit_plus; lra.
Qed.

Lemma half_up_upper (x : Q) : inject_Z (half_up x) <= x + (1 # 2).
Proof. apply Qfloor_le. Qed.

Lemma deficit_units_nonneg (fs : list Faltante) :
  Forall (fun f => - (1 # 2) <= faltante f) fs -> (0 <= deficit_units fs)%Z.
Proof.
  unfold deficit_units. induction 1 as [|f fs Hf _ IH]; simpl; [lia|].
  pose proof (half_up_nonneg _ Hf). lia.
Qed.

Section Peers.
Variable target_level : string.

(** The pairing loop of one surplus row: every unit transferred leaves
    the surplus and one deficit, and neither is overdrawn by more than
    half a unit. *)
Lemma emparejar_inv (pid : Z) (o : StockLevel) (fals : list Faltante) :
  forall r r' fals' ts,
  Redistribution.emparejar pid o r fals = (r', fals', ts) ->
  - (1 # 2) <= r ->
  Forall (fun f => - (1 # 2) <= faltante f) fals ->
  half_up r' = (half_up r - sum_transfers ts)%Z
  /\ - (1 # 2) <= r'
  /\ deficit_units fals' = (deficit_units fals - sum_transfers ts)%Z
  /\ Forall (fun f => - (1 # 2) <= faltante f) fals'
  /\ map fal_stock_level fals' = map fal_stock_level fals
  /\ Forall (fun t => transfer_de pid o fals t) ts.
Proof.
  induction fals as [|f fals IH]; simpl; intros r r' fals' ts E Hr Hf.
  - injection E as <- <- <-. simpl. repeat split; auto; lia.
  - inversion Hf as [|? ? Hf1 Hf2]; subst.
    assert (Hwiden : forall ts0,
               Forall (fun t => transfer_de pid o fals t) ts0 ->
               Forall (fun t => transfer_de pid o (f :: fals) t) ts0).
    { intros ts0 H0. eapply Forall_impl; [|exact H0].
      intros t (H1 & H2 & H3 & d & Hd & H4).
      repeat split; auto. exists d. split; [right; exact Hd | exact H4]. }
    destruct (Qle_bool (faltante f) 0) eqn:E1.
    { destruct (emparejar pid o r fals) as [[d rest'] ts0] eqn:R.
      injection E as <- <- <-.
      destruct (IH _ _ _ _ R Hr Hf2) as (I1 & I2 & I3 & I4 & I5 & I6).
      unfold deficit_units in *. simpl.
      repeat split; auto; try lia. congruence. }
    apply Qle_bool_false in E1.
    destruct (Qle_bool r 0) eqn:E2.
    { injection E as <- <- <-. simpl. repeat split; auto; lia. }
    apply Qle_bool_false in E2.
    destruct (Py.round (Py.min r (faltante f)) <? 1)%Z eqn:E3.
    { destruct (emparejar pid o r fals) as [[d rest'] ts0] eqn:R.
      injection E as <- <- <-.
      destruct (IH _ _ _ _ R Hr Hf2) as (I1 & I2 & I3 & I4 & I5 & I6).
      unfold deficit_units in *. simpl.
      repeat split; auto; try lia. congruence. }
    apply Z.ltb_ge in E3.
    set (c := Py.round (Py.min r (faltante f))) in *.
    assert (Hc1 : inject_Z c <= r + (1 # 2)).
    { pose proof (round_upper (Py.min r (faltante f))).
      pose proof (min_le_l r (faltante f)). fold c in H. lra. }
    assert (Hc2 : inject_Z c <= faltante f + (1 # 2)).
    { pose proof (round_upper (Py.min r (faltante f))).
      pose proof (min_le_r r (faltante f)). fold c in H. lra. }
    destruct (emparejar pid o (r - inject_Z c) fals) as [[d rest'] ts0] eqn:R.
    injection E as <- <- <-.
    assert (Hr' : - (1 # 2) <= r - inject_Z c) by lra.
    destruct (IH _ _ _ _ R Hr' Hf2) as (I1 & I2 & I3 & I4 & I5 & I6).
    rewrite half_up_shift in I1.
    unfold deficit_units in *. simpl.
    rewrite half_up_shift.
    repeat split; auto; try lia.
    + constructor; [simpl; lra | exact I4].
    + congruence.
    + constructor; [|auto].
      simpl. repeat split; auto.
      exists (fal_stock_level f). split; [left|]; reflexivity.
Qed.

(** The loop over the surplus rows. *)
Lemma redistribuir_inv (pid : Z) (excs : list Excedente) :
  forall fals,
  Forall (fun e => - (1 # 2) <= excedente_disponible e) excs ->
  Forall (fun f => - (1 # 2) <= faltante f) fals ->
  (sum_transfers (redistribuir pid excs fals) <= surplus_units excs)%Z
  /\ (sum_transfers (redistribuir pid excs fals) <= deficit_units fals)%Z
  /\ Forall (fun t => transfer_entre pid excs fals t)
       (redistribuir pid excs fals).
Proof.
  induction excs as [|e excs IH]; simpl; intros fals He Hf.
  - pose proof (deficit_units_nonneg _ Hf).
    unfold surplus_units. simpl. repeat split; auto; lia.
  - inversion He as [|? ? He1 He2]; subst.
    pose proof (half_up_nonneg _ He1) as Hpos.
    assert (Hwiden : forall fals0 ts0,
               map fal_stock_level fals0 = map fal_stock_level fals ->
               Forall (fun t => transfer_entre pid excs fals0 t) ts0 ->
               Forall (fun t => transfer_entre pid (e :: excs) fals t) ts0).
    { intros fals0 ts0 Hmap H0. eapply Forall_impl; [|exact H0].
      intros t (H1 & H2 & o & d & Ho & Hd & H3 & H4).
      repeat split; auto. exists o, d. rewrite <- Hmap.
      repeat split; auto. right. exact Ho. }
    unfold surplus_units in *. simpl.
    destruct (Qle_bool (excedente_disponible e) 0) eqn:E1.
    { destruct (IH fals He2 Hf) as (I1 & I2 & I3).
      repeat split; try lia. apply (Hwiden fals); auto. }
    destruct (Redistribution.emparejar pid (exc_stock_level e)
                (excedente_disponible e) fals) as [[r' fals'] ts] eqn:R.
    destruct (emparejar_inv _ _ _ _ _ _ _ R He1 Hf)
      as (J1 & J2 & J3 & J4 & J5 & J6).
    destruct (IH fals' He2 J4) as (I1 & I2 & I3).
    pose proof (half_up_nonneg _ J2) as Hpos'.
    rewrite sum_transfers_app.
    repeat split; try lia.
    apply Forall_app. split.
    + eapply Forall_impl; [|exact J6].
      intros t (H1 & H2 & H3 & d & Hd & H4).
      repeat split; auto. exists (exc_stock_level e), d.
      repeat split; auto. left. reflexivity.
    + apply (Hwiden fals'); auto.
Qed.

(** *** Classification *)

Lemma clasificar_excedente_In (deposits : Deposits) (e : Excedente) :
  In e (flat_map clasificar_excedente deposits) ->
  In (exc_deposito e, exc_stock_level e) deposits
  /\ 1 <= excedente_disponible e
  /\ 1 <= stock_actual (exc_stock_level e) - stock_ideal (exc_stock_level e).
Proof.
  intro H. apply in_flat_map in H. destruct H as [[n sl] [Hin He]].
  unfold clasificar_excedente in He.
  destruct (_ && _); [|contradiction].
  destruct (Qle_bool 1 (stock_actual sl - stock_ideal sl)) eqn:E;
    [|contradiction].
  apply Qle_bool_iff in E. destruct He as [<- | []]. simpl. auto.
Qed.

Lemma clasificar_faltante_In (deposits : Deposits) (f : Faltante) :
  In f (flat_map (clasificar_faltante target_level) deposits) ->
  In (fal_deposito f, fal_stock_level f) deposits
  /\ 1 <= faltante f
  /\ stock_actual (fal_stock_level f) < stock_ideal (fal_stock_level f).
Proof.
  intro H. apply in_flat_map in H. destruct H as [[n sl] [Hin Hf]].
  unfold clasificar_faltante in Hf.
  destruct (Qle_bool 1 _) eqn:E1; [|contradiction].
  destruct (Py.Qltb (stock_actual sl) (stock_ideal sl)) eqn:E2;
    [|contradiction].
  apply Qle_bool_iff in E1. apply Qltb_true in E2.
  destruct Hf as [<- | []]. simpl. auto.
Qed.

(** *** One product *)

Lemma redistribuir_producto_bounds (p : Z) (deposits : Deposits) :
  (sum_transfers (redistribuir_producto target_level p deposits)
   <= total_surplus_units deposits)%Z
  /\ (sum_transfers (redistribuir_producto target_level p deposits)
      <= total_deficit_units target_level deposits)%Z
  /\ Forall (fun t => (1 <= cantidad_transferir t)%Z /\ t_product_id t = p)
       (redistribuir_producto target_level p deposits).
Proof.
  unfold redistribuir_producto, total_surplus_units, total_deficit_units.
  assert (He : Forall (fun e => - (1 # 2) <= excedente_disponible e)
                 (excedentes_de deposits)).
  { apply Forall_forall. intros e H. apply sort_desc_In in H.
    apply clasificar_excedente_In in H. lra. }
  assert (Hf : Forall (fun f => - (1 # 2) <= faltante f)
                 (faltantes_de target_level deposits)).
  { apply Forall_forall. intros f H. apply sort_desc_In in H.
    apply clasificar_faltante_In in H. lra. }
  destruct (redistribuir_inv p _ _ He Hf) as (H1 & H2 & H3).
  repeat split; auto.
  eapply Forall_impl; [|exact H3]. intros t (Hq & Hp & _). auto.
Qed.

Lemma redistribuir_producto_distintos (p : Z) (deposits : Deposits) :
  well_filed p deposits ->
  Forall (fun t => deposit_origen_nombre t <> deposit_destino_nombre t)
    (redistribuir_producto target_level p deposits).
Proof.
  intros [Hnd Hall]. unfold redistribuir_producto.
  assert (He : Forall (fun e => - (1 # 2) <= excedente_disponible e)
                 (excedentes_de deposits)).
  { apply Forall_forall. intros e H. apply sort_desc_In in H.
    apply clasificar_excedente_In in H. lra. }
  assert (Hf : Forall (fun f => - (1 # 2) <= faltante f)
                 (faltantes_de target_level deposits)).
  { apply Forall_forall. intros f H. apply sort_desc_In in H.
    apply clasificar_faltante_In in H. lra. }
  destruct (redistribuir_inv p _ _ He Hf) as (_ & _ & H3).
  eapply Forall_impl; [|exact H3].
  intros t (_ & _ & o & d & Ho & Hd & -> & ->) Heq.
  apply in_map_iff in Ho. destruct Ho as [e [<- Ho]].
  apply in_map_iff in Hd. destruct Hd as [f [<- Hd]].
  apply sort_desc_In, clasificar_excedente_In in Ho.
  apply sort_desc_In, clasificar_faltante_In in Hd.
  destruct Ho as (Ho & _ & Hsobra). destruct Hd as (Hd & _ & Hfalta).
  rewrite Forall_forall in Hall.
  destruct (Hall _ Ho) as [Hn1 _]. destruct (Hall _ Hd) as [Hn2 _].
  simpl in Hn1, Hn2.
  assert (Hkey : exc_deposito e = fal_deposito f) by congruence.
  rewrite Hkey in Ho.
  pose proof (NoDup_keys_unique String.eqb String.eqb_eq _ _ _ _ Hnd Ho Hd)
    as Hsame.
  rewrite Hsame in Hsobra. lra.
Qed.

(** *** All products *)

Lemma flat_map_ajenos (grouped : Grouped) (p : Z) :
  ~ In p (map fst grouped) ->
  transfers_of p
    (flat_map (fun '(pid, deposits) =>
                 redistribuir_producto target_level pid deposits) grouped)
  = [].
Proof.
  induction grouped as [|[pid deps] G IH]; simpl; intro Hn; [reflexivity|].
  unfold transfers_of in *. rewrite filter_app, IH, app_nil_r by tauto.
  apply filter_none.
  destruct (redistribuir_producto_bounds pid deps) as (_ & _ & H).
  eapply Forall_impl; [|exact H]. intros t [_ ->]. apply Z.eqb_neq. tauto.
Qed.

Lemma flat_map_propios (grouped : Grouped) (p : Z) (deposits : Deposits) :
  NoDup (map fst grouped) -> In (p, deposits) grouped ->
  transfers_of p
    (flat_map (fun '(pid, deposits) =>
                 redistribuir_producto target_level pid deposits) grouped)
  = redistribuir_producto target_level p deposits.
Proof.
  induction grouped as [|[pid deps] G IH]; simpl; intros Hnd Hin; [contradiction|].
  inversion Hnd as [|? ? Hnot HndG]; subst.
  unfold transfers_of in *. rewrite filter_app.
  destruct Hin as [[= -> ->] | Hin].
  - pose proof (flat_map_ajenos G p Hnot) as E. unfold transfers_of in E.
    rewrite E, app_nil_r. apply filter_all.
    destruct (redistribuir_producto_bounds p deposits) as (_ & _ & H).
    eapply Forall_impl; [|exact H]. intros t [_ ->]. apply Z.eqb_refl.
  - assert (Hne : pid <> p).
    { intros ->. apply Hnot. apply (in_map fst) in Hin. exact Hin. }
    rewrite (IH HndG Hin), filter_none; [reflexivity|].
    destruct (redistribuir_producto_bounds pid deps) as (_ & _ & H).
    eapply Forall_impl; [|exact H]. intros t [_ ->]. apply Z.eqb_neq. exact Hne.
Qed.

Lemma flat_map_distintos (grouped : Grouped) :
  well_grouped grouped ->
  Forall (fun t => (1 <= cantidad_transferir t)%Z
                   /\ deposit_origen_nombre t <> deposit_destino_nombre t)
    (flat_map (fun '(pid, deposits) =>
                 redistribuir_producto target_level pid deposits) grouped).
Proof.
  intros [_ Hall]. induction Hall as [|[pid deps] G Hwf _ IH]; simpl;
    [constructor|].
  apply Forall_app. split; [|exact IH].
  destruct (redistribuir_producto_bounds pid deps) as (_ & _ & H).
  pose proof (redistribuir_producto_distintos pid deps Hwf) as H'.
  rewrite Forall_forall in *. intros t Ht. split; [apply H | apply H']; exact Ht.
Qed.

(** Whole surpluses and deficits are their own number of units. *)
Lemma surplus_units_whole (es : list Excedente) :
  Forall (fun e => exists z, excedente_disponible e == inject_Z z) es ->
  inject_Z (surplus_units es)
  == DemandForecaster.Qsum (map excedente_disponible es).
Proof.
  unfold surplus_units. induction 1 as [|e es [z Hz] _ IH]; simpl;
    [reflexivity|].
  rewrite inject_Z_plus, IH.
  unfold half_up. rewrite (Qfloor_comp _ (inject_Z z + (1 # 2)))
    by (rewrite Hz; reflexivity).
  fold (half_up (inject_Z z)). rewrite half_up_Z, Hz. reflexivity.
Qed.

Lemma deficit_units_whole (fs : list Faltante) :
  Forall (fun f => exists z, faltante f == inject_Z z) fs ->
  inject_Z (deficit_units fs) == DemandForecaster.Qsum (map faltante fs).
Proof.
  unfold deficit_units. induction 1 as [|f fs [z Hz] _ IH]; simpl;
    [reflexivity|].
  rewrite inject_Z_plus, IH.
  unfold half_up. rewrite (Qfloor_comp _ (inject_Z z + (1 # 2)))
    by (rewrite Hz; reflexivity).
  fold (half_up (inject_Z z)). rewrite half_up_Z, Hz. reflexivity.
Qed.

End Peers.

End RedistributionFacts.

(** ** Demand forecaster *)

Module ForecasterFacts.
Import DemandForecaster Spec PyFacts.

(** *** Sums *)

Lemma Qsum_acumular (d : Z) (q : Q) (l : list (Z * Q)) :
  Qsum (map snd (acumular d q l)) == Qsum (map snd l) + q.
Proof.
  induction l as [|[d' q'] l IH]; simpl.
  - ring.
  - destruct (d <? d')%Z; simpl; [ring|].
    destruct (d =? d')%Z; simpl; [ring|].
    rewrite IH. ring.
Qed.

Lemma Qsum_groupby_fold (df : DataFrame) (acc : list (Z * Q)) :
  Qsum (map snd
          (fold_left (fun acc r => acumular (fecha r) (cantidad r) acc) df acc))
  == Qsum (map snd acc) + Qsum (map cantidad df).
Proof.
  revert acc. induction df as [|r df IH]; simpl; intro acc.
  - ring.
  - rewrite IH, Qsum_acumular. ring.
Qed.

Lemma Qsum_groupby (df : DataFrame) :
  Qsum (map snd (groupby_sum df)) == Qsum (map cantidad df).
Proof.
  unfold groupby_sum. rewrite Qsum_groupby_fold. simpl. ring.
Qed.

Lemma Qsum_PermutationA (l l' : list Q) :
  PermutationA Qeq l l' -> Qsum l == Qsum l'.
Proof.
  induction 1 as [|x y l l' Hxy _ IH|x y l|l1 l2 l3 _ IH1 _ IH2]; simpl.
  - reflexivity.
  - rewrite Hxy, IH. reflexivity.
  - ring.
  - rewrite IH1. exact IH2.
Qed.

(** *** Sorting and the median *)

Lemma Qle_bool_comp (x x' y y' : Q) :
  x == x' -> y == y' -> Qle_bool x y = Qle_bool x' y'.
Proof.
  intros Hx Hy.
  destruct (Qle_bool x y) eqn:E, (Qle_bool x' y') eqn:E'; try reflexivity.
  - apply Qle_bool_iff in E. apply Qle_bool_false in E'. lra.
  - apply Qle_bool_iff in E'. apply Qle_bool_false in E. lra.
Qed.

Lemma insert_asc_eqlistA (x x' : Q) (l l' : list Q) :
  x == x' -> eqlistA Qeq l l' ->
  eqlistA Qeq (insert_asc x l) (insert_asc x' l').
Proof.
  intros Hx H. induction H as [|y y' l l' Hy Hl IH]; simpl.
  - repeat constructor. exact Hx.
  - rewrite (Qle_bool_comp x x' y y' Hx Hy).
    destruct (Qle_bool x' y'); repeat constructor; auto.
Qed.

Lemma insert_asc_swap (x y : Q) (l : list Q) :
  eqlistA Qeq (insert_asc x (insert_asc y l)) (insert_asc y (insert_asc x l)).
Proof.
  assert (R : forall l0 : list Q, eqlistA Qeq l0 l0)
    by (intro l0; induction l0; constructor; [reflexivity | assumption]).
  induction l as [|z l IH]; simpl.
  - destruct (Qle_bool x y) eqn:A, (Qle_bool y x) eqn:B; simpl;
      rewrite ?A, ?B; try apply R.
    + apply Qle_bool_iff in A, B. repeat constructor; lra.
    + apply Qle_bool_false in A, B. lra.
  - destruct (Qle_bool y z) eqn:Y, (Qle_bool x z) eqn:X; simpl;
      rewrite ?X, ?Y.
    + destruct (Qle_bool x y) eqn:A, (Qle_bool y x) eqn:B; simpl;
        rewrite ?X, ?Y; try apply R.
      * apply Qle_bool_iff in A, B. repeat constructor; try lra. apply R.
      * apply Qle_bool_false in A, B. lra.
    + destruct (Qle_bool x y) eqn:A; simpl; rewrite ?X, ?Y; [|apply R].
      apply Qle_bool_iff in A, Y. apply Qle_bool_false in X. lra.
    + destruct (Qle_bool y x) eqn:B; simpl; rewrite ?X, ?Y; [|apply R].
      apply Qle_bool_iff in B, X. apply Qle_bool_false in Y. lra.
    + constructor; [reflexivity | exact IH].
Qed.

Lemma eqlistA_Qeq_trans (a b c : list Q) :
  eqlistA Qeq a b -> eqlistA Qeq b c -> eqlistA Qeq a c.
Proof.
  intro H. revert c. induction H as [|x y l l' Hxy _ IH]; intros c Hc.
  - exact Hc.
  - inversion Hc as [|? z ? l'' Hyz Hl]; subst.
    constructor; [rewrite Hxy; exact Hyz | apply IH; exact Hl].
Qed.

Lemma eqlistA_Qeq_refl (a : list Q) : eqlistA Qeq a a.
Proof. induction a; constructor; [reflexivity | assumption]. Qed.

(** Sorting forgets the order in which the values came. *)
Lemma sort_asc_PermutationA (l l' : list Q) :
  PermutationA Qeq l l' -> eqlistA Qeq (sort_asc l) (sort_asc l').
Proof.
  induction 1 as [|x y l l' Hxy _ IH|x y l|l1 l2 l3 _ IH1 _ IH2]; simpl.
  - constructor.
  - apply insert_asc_eqlistA; assumption.
  - apply insert_asc_swap.
  - eapply eqlistA_Qeq_trans; eassumption.
Qed.

Lemma PermutationA_Qeq_length (l l' : list Q) :
  PermutationA Qeq l l' -> length l = length l'.
Proof.
  induction 1; simpl; congruence.
Qed.

Lemma median_outlier (l : list Q) :
  PermutationA Qeq l outlier_days -> median l == 1 /\ length l = 7%nat.
Proof.
  intro H. pose proof (PermutationA_Qeq_length _ _ H) as Hlen.
  apply sort_asc_PermutationA in H.
  change (sort_asc outlier_days) with outlier_days in H.
  unfold median. unfold outlier_days in *.
  destruct (sort_asc l) as [|a1 [|a2 [|a3 [|a4 [|a5 [|a6 [|a7 [|a8 s]]]]]]]];
    try (repeat match goal with
                | E : eqlistA _ _ _ |- _ => inversion E; clear E; subst
                end; fail).
  repeat match goal with
         | E : eqlistA _ (_ :: _) (_ :: _) |- _ => inversion E; clear E; subst
         end.
  simpl. split; assumption.
Qed.

(** *** The window *)

Lemma insert_fecha_perm (r : Venta) (l : DataFrame) :
  Permutation (insert_fecha r l) (r :: l).
Proof.
  induction l as [|r' l IH]; simpl; [reflexivity|].
  destruct (fecha r' <=? fecha r)%Z; [|reflexivity].
  rewrite IH. apply perm_swap.
Qed.

Lemma sort_values_fold_perm (df acc : DataFrame) :
  Permutation (fold_left (fun acc r => insert_fecha r acc) df acc) (acc ++ df).
Proof.
  revert acc. induction df as [|r df IH]; simpl; intro acc.
  - rewrite app_nil_r. reflexivity.
  - rewrite IH, insert_fecha_perm. apply Permutation_middle.
Qed.

Lemma sort_values_perm (df : DataFrame) : Permutation (sort_values df) df.
Proof. apply (sort_values_fold_perm df []). Qed.

Lemma fecha_max_fold (l : DataFrame) (m0 : Z) :
  let m := fold_left (fun m r' => Z.max m (fecha r')) l m0 in
  (m = m0 \/ In m (map fecha l))
  /\ (m0 <= m)%Z
  /\ Forall (fun r => (fecha r <= m)%Z) l.
Proof.
  revert m0. induction l as [|r l IH]; simpl; intro m0.
  - repeat split; [left; reflexivity | lia | constructor].
  - specialize (IH (Z.max m0 (fecha r))).
    set (M := fold_left _ l (Z.max m0 (fecha r))) in *.
    destruct IH as (H1 & H2 & H3).
    repeat split.
    + destruct H1 as [H1 | H1]; [|right; right; exact H1].
      destruct (Z.max_spec m0 (fecha r)) as [[_ E] | [_ E]].
      * right. left. congruence.
      * left. congruence.
    + lia.
    + constructor; [lia | exact H3].
Qed.

Lemma fecha_max_spec (df : DataFrame) :
  df <> [] ->
  In (fecha_max df) (map fecha df)
  /\ Forall (fun r => (fecha r <= fecha_max df)%Z) df.
Proof.
  destruct df as [|r l]; [congruence|]. intros _. unfold fecha_max.
  destruct (fecha_max_fold l (fecha r)) as (H1 & H2 & H3). simpl. split.
  - destruct H1 as [H1 | H1]; [left; symmetry; exact H1 | right; exact H1].
  - constructor; assumption.
Qed.

Lemma fecha_max_perm (df df' : DataFrame) :
  Permutation df df' -> fecha_max df = fecha_max df'.
Proof.
  intro P. destruct df as [|r l].
  - apply Permutation_nil in P. subst. reflexivity.
  - assert (N : r :: l <> []) by congruence.
    assert (N' : df' <> []).
    { intros ->. apply Permutation_sym, Permutation_nil in P. congruence. }
    destruct (fecha_max_spec _ N) as [I1 F1].
    destruct (fecha_max_spec _ N') as [I2 F2].
    rewrite Forall_forall in F1, F2.
    apply in_map_iff in I1. destruct I1 as [a [Ea Ia]].
    apply in_map_iff in I2. destruct I2 as [b [Eb Ib]].
    pose proof (F2 a (Permutation_in _ P Ia)).
    pose proof (F1 b (Permutation_in _ (Permutation_sym P) Ib)).
    lia.
Qed.

Lemma filter_nil_iff {A : Type} (f : A -> bool) (l : list A) :
  filter f l = [] <-> forall x, In x l -> f x = false.
Proof.
  induction l as [|a l IH]; simpl.
  - split; [intros _ x [] | reflexivity].
  - destruct (f a) eqn:E; split.
    + discriminate.
    + intro H. specialize (H a (or_introl eq_refl)). congruence.
    + intros H x [<- | Hx]; [exact E | apply IH; assumption].
    + intro H. apply IH. intros x Hx. apply H. right. exact Hx.
Qed.

Lemma filter_nil_perm {A : Type} (f : A -> bool) (l l' : list A) :
  Permutation l l' -> filter f l = [] -> filter f l' = [].
Proof.
  intros P H. rewrite filter_nil_iff in *. intros x Hx.
  apply H. apply (Permutation_in _ (Permutation_sym P) Hx).
Qed.

(** The window the code cuts is empty exactly when the window of the
    series as given is. *)
Lemma window_cut (df : DataFrame) (days_back : Z) :
  desde_fecha (fecha_max (sort_values df) - days_back) (sort_values df) = []
  <-> window df days_back = [].
Proof.
  unfold desde_fecha, window.
  rewrite (fecha_max_perm _ _ (sort_values_perm df)).
  split; apply filter_nil_perm;
    [apply sort_values_perm | symmetry; apply sort_values_perm].
Qed.

Section Forecaster.
Variable metodo_preferido : string.
Variable linear_regression : list (Z * Q) -> LinearModel.

Lemma seleccion_no_sin_datos (a b c d e : Q) (dias : Z) (tend : string) :
  snd (fst (_seleccionar_mejor_metodo metodo_preferido a b c d e dias tend))
  <> "sin_datos".
Proof.
  unfold _seleccionar_mejor_metodo.
  repeat match goal with
         | |- context [if ?b then _ else _] => destruct b
         end; simpl; discriminate.
Qed.

Lemma calculate_demand_cases (df : DataFrame) (pid did days_back : Z) :
  let r := calculate_demand metodo_preferido linear_regression df pid did
             days_back in
  (window df days_back = [] /\ r = sin_datos pid did)
  \/ (window df days_back <> []
      /\ metodo_usado r <> "sin_datos"
      /\ 0 <= f_demanda_diaria r).
Proof.
  unfold calculate_demand. destruct df as [|r0 df0]; [left; split; reflexivity|].
  set (df := r0 :: df0).
  pose proof (window_cut df days_back) as W.
  destruct (desde_fecha (fecha_max (sort_values df) - days_back) (sort_values df))
    as [|v vs] eqn:E.
  - left. split; [apply W|]; reflexivity.
  - right. split.
    + intro H. apply W in H. discriminate.
    + destruct (_ml_tendencia _ _ _) as [[dml tend] cml].
      match goal with
      | |- context [_seleccionar_mejor_metodo ?m ?a ?b ?c ?d ?e ?f ?g] =>
          pose proof (seleccion_no_sin_datos a b c d e f g) as S;
          destruct (_seleccionar_mejor_metodo m a b c d e f g) as [[dem met] conf]
      end.
      simpl in *. split; [exact S | apply max_nonneg].
Qed.

End Forecaster.

End ForecasterFacts.

(** ** Stock calculator *)

Module CalculatorFacts.
Import StockCalculator PyFacts.

#[export] Instance round2_Proper : Proper (Qeq ==> Qeq) Py.round2.
Proof.
  intros x y E. unfold Py.round2.
  assert (E' : x * 100 == y * 100) by (rewrite E; reflexivity).
  rewrite (round_Proper _ _ E'). reflexivity.
Qed.

Lemma round2_mono (x y : Q) : x <= y -> Py.round2 x <= Py.round2 y.
Proof.
  intro L. unfold Py.round2.
  assert (L' : x * 100 <= y * 100) by lra.
  apply round_mono in L'. rewrite Zle_Qle in L'.
  apply Qmult_le_compat_r; [exact L' | discriminate].
Qed.

Lemma round2_zero : Py.round2 0 == 0.
Proof. reflexivity. Qed.

Lemma round2_pos (x : Q) : 0 < Py.round2 x -> 0 < x.
Proof.
  intro H. destruct (Qlt_le_dec 0 x) as [|L]; [assumption|].
  apply round2_mono in L. rewrite round2_zero in L. lra.
Qed.

Section Calculator.
Variable factor_ideal factor_maximo : Q.

(** The targets before rounding are ordered once the factors are. *)
Lemma niveles_cases (forecast : ForecastResult) (dias_stock umbral : Z) :
  let '(minimo, ideal, maximo) :=
    niveles factor_ideal factor_maximo forecast dias_stock umbral in
  (f_ventas_365_dias forecast < inject_Z umbral
   /\ minimo = 0 /\ ideal = 0 /\ maximo = 0)
  \/ (inject_Z umbral <= f_ventas_365_dias forecast
      /\ minimo = f_demanda_diaria forecast * inject_Z dias_stock
      /\ ideal = minimo * factor_ideal
      /\ maximo = minimo * factor_maximo).
Proof.
  unfold niveles.
  destruct (Py.Qltb (f_ventas_365_dias forecast) (inject_Z umbral)) eqn:E.
  - apply Qltb_true in E. left. auto.
  - apply Qltb_false in E. right. auto.
Qed.

End Calculator.

End CalculatorFacts.

(** * Claims on the allocation engine *)

Import DistributionService Invariantes Spec PyFacts GroupFacts CentralFacts.



(** C4. Central give-away cap: for a product with a central row, the total
    quantity transferred is at most
    [max(0, central.stock_actual - central.stock_minimo)] of the input
    snapshot, and every one of those transfers leaves from the central. *)
Theorem central_cap
    (target_level : string) (product_costs : Z -> Q)
    (stock_levels : list StockLevel)
    (excluded_deposits excluded_brands : list string)
    (p : Z) (deposits : Deposits) (central : StockLevel) :
  In (p, deposits) (products_by_id stock_levels excluded_deposits excluded_brands) ->
  central_data deposits = Some central ->
  let r := generate_distribution target_level product_costs stock_levels
             excluded_deposits excluded_brands in
  inject_Z (sum_transfers (transfers_of p (transfers r)))
  <= available_at_central central
  /\ Forall (fun t => deposit_origen_nombre t = CENTRAL_DEPOSIT_NAME)
       (transfers_of p (transfers r)).
Proof.
  intros Hin Hc. unfold generate_distribution.
  pose proof (group_by_product_well_grouped
                (filtered_levels stock_levels excluded_deposits excluded_brands))
    as Hwg.
  fold (products_by_id stock_levels excluded_deposits excluded_brands) in Hwg.
  pose proof (well_grouped_entry _ _ _ Hwg Hin) as Hwf.
  destruct Hwg as [Hnd _].
  destruct (productos_propios target_level product_costs _ _ _ Hnd Hin) as [Et _].
  destruct (procesar_productos _ _ _) as [ts ps]. simpl in *.
  rewrite Et.
  destruct (producto_pool target_level product_costs p _ _ Hc) as [H1 H2].
  split; [exact H1|].
  rewrite <- (central_data_nombre _ _ _ Hwf Hc). exact H2.
Qed.

Lemma central_cap_witness :
  In (1%Z, Escenario.depositos Escenario.red_120)
    (products_by_id Escenario.red_120 [] [])
  /\ central_data (Escenario.depositos Escenario.red_120)
     = Some Escenario.central_120
  /\ inject_Z
       (sum_transfers
          (transfers_of 1
             (transfers (generate_distribution "ideal" Escenario.sin_costos
                           Escenario.red_120 [] []))))
     <= available_at_central Escenario.central_120.
Proof.
  split; [left; reflexivity|]. split; [reflexivity|].
  apply (central_cap "ideal" Escenario.sin_costos Escenario.red_120
           [] [] 1 (Escenario.depositos Escenario.red_120) Escenario.central_120).
  - left. reflexivity.
  - reflexivity.
Defined.

(** C10. Mutual exclusion of the central's own purchase and outgoing
    transfers: when a purchase need tagged "Central bajo mínimo" is emitted
    for a product, the central row of that product is below its minimum, its
    give-away pool is 0, and no transfer is emitted for that product. *)
Theorem central_purchase_excludes_transfers
    (target_level : string) (product_costs : Z -> Q)
    (stock_levels : list StockLevel)
    (excluded_deposits excluded_brands : list string) (q : PurchaseNeed) :
  let r := generate_distribution target_level product_costs stock_levels
             excluded_deposits excluded_brands in
  In q (purchase_needs r) ->
  origen_necesidad q = "Central bajo mínimo" ->
  transfers_of (p_product_id q) (transfers r) = []
  /\ exists deposits central,
       In (p_product_id q, deposits)
         (products_by_id stock_levels excluded_deposits excluded_brands)
       /\ central_data deposits = Some central
       /\ stock_actual central < stock_minimo central
       /\ available_at_central central == 0.
Proof.
  unfold generate_distribution.
  destruct (group_by_product_well_grouped
              (filtered_levels stock_levels excluded_deposits excluded_brands))
    as [Hnd _].
  fold (products_by_id stock_levels excluded_deposits excluded_brands) in Hnd.
  pose proof (productos_In_purchase target_level product_costs
                (products_by_id stock_levels excluded_deposits excluded_brands) q)
    as Hq.
  pose proof (productos_propios target_level product_costs
                (products_by_id stock_levels excluded_deposits excluded_brands)
                (p_product_id q)) as Hp.
  destruct (procesar_productos _ _ _) as [ts ps]. simpl in *.
  intros Hin Hcause. destruct (Hq Hin) as [deposits [Hd Hin']].
  destruct (Hp _ Hnd Hd) as [Et _].
  assert (Hb : central_below_minimum q = true)
    by (unfold central_below_minimum; rewrite Hcause; reflexivity).
  destruct (producto_exclusion _ _ _ _ _ Hin' Hb) as [central (Hc & Hlt & Hnil)].
  split; [rewrite Et; exact Hnil|].
  exists deposits, central. repeat split; auto.
  unfold available_at_central. apply Q.max_l. lra.
Qed.

Lemma central_purchase_excludes_transfers_witness :
  In Escenario.compra_del_central
    (purchase_needs (generate_distribution "ideal" Escenario.sin_costos
                       Escenario.red_central_bajo [] []))
  /\ transfers_of 1
       (transfers (generate_distribution "ideal" Escenario.sin_costos
                     Escenario.red_central_bajo [] [])) = [].
Proof.
  split; [right; left; reflexivity|].
  apply (central_purchase_excludes_transfers "ideal" Escenario.sin_costos
           Escenario.red_central_bajo [] [] Escenario.compra_del_central).
  - right. left. reflexivity.
  - reflexivity.
Defined.

(** C9 as stated fails: a peer with all three targets at 0 and a stock of
    -0.3 gets neither a transfer nor a purchase need, so it is not brought
    up to 0. *)
Lemma suppressed_negative_peer_not_restored :
  let r := generate_distribution "ideal" Escenario.sin_costos
             Escenario.red_negativa [] [] in
  let s := Escenario.peer_negativo in
  In (1%Z, Escenario.depositos Escenario.red_negativa)
    (products_by_id Escenario.red_negativa [] [])
  /\ central_data (Escenario.depositos Escenario.red_negativa)
     = Some Escenario.central_120
  /\ In s (sucursales_data (Escenario.depositos Escenario.red_negativa))
  /\ stock_minimo s == 0 /\ stock_ideal s == 0 /\ stock_maximo s == 0
  /\ stock_actual s < 0
  /\ transfers r = [] /\ purchase_needs r = []
  /\ ~ stock_actual s
       + inject_Z
           (sum_transfers (transfers_to (deposito_nombre s) (transfers_of 1 (transfers r)))
            + sum_purchases
                (purchases_for (deposito_nombre s) (purchases_of 1 (purchase_needs r))))
       == 0.
Proof.
  cbv zeta. repeat split; try reflexivity.
  - left. reflexivity.
  - left. reflexivity.
  - vm_compute. discriminate.
Qed.

(** C9, amended. A peer of a product with a central row whose three targets
    are 0 and whose available stock is negative has the deficit
    [-stock_actual]; the transfer and purchase need it receives add up to
    [round(-stock_actual)] units (nothing when that rounds to 0), whatever the
    target level, which is exactly [-stock_actual] when the stock is a whole
    number. *)
Theorem suppressed_negative_peer
    (target_level : string) (product_costs : Z -> Q)
    (stock_levels : list StockLevel)
    (excluded_deposits excluded_brands : list string)
    (p : Z) (deposits : Deposits) (central s : StockLevel) :
  In (p, deposits) (products_by_id stock_levels excluded_deposits excluded_brands) ->
  central_data deposits = Some central ->
  In s (sucursales_data deposits) ->
  stock_minimo s == 0 -> stock_ideal s == 0 -> stock_maximo s == 0 ->
  stock_actual s < 0 ->
  let r := generate_distribution target_level product_costs stock_levels
             excluded_deposits excluded_brands in
  let total :=
    (sum_transfers (transfers_to (deposito_nombre s) (transfers_of p (transfers r)))
     + sum_purchases
         (purchases_for (deposito_nombre s) (purchases_of p (purchase_needs r))))%Z in
  total = Py.round (- stock_actual s)
  /\ forall z : Z, stock_actual s == inject_Z z -> total = (- z)%Z.
Proof.
  intros Hin Hc Hs Hmin Hideal Hmax Hneg. unfold generate_distribution.
  pose proof (group_by_product_well_grouped
                (filtered_levels stock_levels excluded_deposits excluded_brands))
    as Hwg.
  fold (products_by_id stock_levels excluded_deposits excluded_brands) in Hwg.
  pose proof (well_grouped_entry _ _ _ Hwg Hin) as Hwf.
  destruct Hwg as [Hnd _].
  destruct (productos_propios target_level product_costs _ _ _ Hnd Hin) as [Et Ep].
  destruct (procesar_productos _ _ _) as [ts ps]. simpl in *.
  rewrite Et, Ep.
  rewrite (producto_destino target_level product_costs p deposits central s Hwf Hc Hs).
  assert (Hobj : stock_objetivo target_level s == 0).
  { unfold stock_objetivo.
    destruct (target_level =? "minimo"); [exact Hmin|].
    destruct (target_level =? "maximo"); assumption. }
  assert (Hdef : rounded_deficit target_level s = Py.round (- stock_actual s)).
  { unfold rounded_deficit. apply round_Proper. rewrite Hobj. ring. }
  assert (Hround : (0 <= Py.round (- stock_actual s))%Z).
  { assert (L : 0 <= - stock_actual s) by lra.
    apply round_mono in L. change 0 with (inject_Z 0) in L.
    rewrite round_Z in L. exact L. }
  assert (Htotal : faltante_int target_level s = Py.round (- stock_actual s)).
  { rewrite faltante_int_rounded, Hdef.
    destruct (1 <=? Py.round (- stock_actual s))%Z eqn:L; [reflexivity|].
    apply Z.leb_gt in L. lia. }
  split; [exact Htotal|].
  intros z Hz. rewrite Htotal.
  assert (E : - stock_actual s == inject_Z (- z))
    by (rewrite inject_Z_opp, Hz; reflexivity).
  rewrite (round_Proper _ _ E). apply round_Z.
Qed.

Lemma suppressed_negative_peer_witness :
  In (1%Z, Escenario.depositos Escenario.red_menos_3)
    (products_by_id Escenario.red_menos_3 [] [])
  /\ central_data (Escenario.depositos Escenario.red_menos_3)
     = Some Escenario.central_120
  /\ In Escenario.peer_menos_3
       (sucursales_data (Escenario.depositos Escenario.red_menos_3))
  /\ stock_actual Escenario.peer_menos_3 < 0
  /\ (sum_transfers
        (transfers_to (deposito_nombre Escenario.peer_menos_3)
           (transfers_of 1
              (transfers (generate_distribution "ideal" Escenario.sin_costos
                            Escenario.red_menos_3 [] []))))
      + sum_purchases
          (purchases_for (deposito_nombre Escenario.peer_menos_3)
             (purchases_of 1
                (purchase_needs (generate_distribution "ideal" Escenario.sin_costos
                                   Escenario.red_menos_3 [] [])))))%Z
     = Py.round (- stock_actual Escenario.peer_menos_3).
Proof.
  split; [left; reflexivity|]. split; [reflexivity|].
  split; [left; reflexivity|]. split; [reflexivity|].
  apply (suppressed_negative_peer "ideal" Escenario.sin_costos
           Escenario.red_menos_3 [] [] 1
           (Escenario.depositos Escenario.red_menos_3)
           Escenario.central_120 Escenario.peer_menos_3).
  - left. reflexivity.
  - reflexivity.
  - left. reflexivity.
  - reflexivity.
  - reflexivity.
  - reflexivity.
  - reflexivity.
Defined.

(** C2 fails on the partial-coverage branch of central distribution:
    with the central half a unit above its minimum and a peer short of 5
    units, [generate_distribution] emits a transfer of 0 units. *)
Theorem partial_transfer_of_zero_units :
  let r := generate_distribution "ideal" Escenario.sin_costos
             Escenario.red_media_unidad [] [] in
  map (fun t => (deposit_destino_nombre t, cantidad_transferir t)) (transfers r)
  = [("SUCURSAL A", 0%Z)]
  /\ map (fun q => (p_deposit_destino_nombre q, cantidad_necesaria q,
                    origen_necesidad q)) (purchase_needs r)
     = [("SUCURSAL A", 5%Z, "Sucursal sin cobertura")].
Proof.
  split; reflexivity.
Qed.

(** C6. End-to-end scenario: a central row with 120 available and a minimum
    of 50, peer A with an ideal-target deficit of 40 listed before peer B
    with a deficit of 50. At target level "ideal" the run emits exactly a
    transfer of 40 to A, a transfer of 30 to B, and one purchase need of 20
    for B tagged "Sucursal sin cobertura". *)
Theorem scenario_central_120
    (product_costs : Z -> Q) (p : Z) (c a b : StockLevel) :
  product_id c = p -> product_id a = p -> product_id b = p ->
  deposito_nombre c = CENTRAL_DEPOSIT_NAME ->
  deposito_nombre a <> CENTRAL_DEPOSIT_NAME ->
  deposito_nombre b <> CENTRAL_DEPOSIT_NAME ->
  deposito_nombre a <> deposito_nombre b ->
  stock_actual c == 120 -> stock_minimo c == 50 ->
  rounded_deficit "ideal" a = 40%Z ->
  rounded_deficit "ideal" b = 50%Z ->
  let r := generate_distribution "ideal" product_costs [c; a; b] [] [] in
  map (fun t => (deposit_destino_nombre t, cantidad_transferir t)) (transfers r)
  = [(deposito_nombre a, 40%Z); (deposito_nombre b, 30%Z)]
  /\ map (fun q => (p_deposit_destino_nombre q, cantidad_necesaria q,
                    origen_necesidad q)) (purchase_needs r)
     = [(deposito_nombre b, 20%Z, "Sucursal sin cobertura")].
Proof.
  intros Hpc Hpa Hpb Hnc Hna Hnb Hab Hact Hmin Hda Hdb. subst p.
  set (p := product_id c) in *.
  assert (G : products_by_id [c; a; b] [] []
              = [(p, [(CENTRAL_DEPOSIT_NAME, c); (deposito_nombre a, a);
                      (deposito_nombre b, b)])]).
  { unfold products_by_id, filtered_levels, _group_by_product, group_insert.
    simpl. fold p. rewrite Hpa, Hpb, Hnc, Z.eqb_refl. simpl.
    apply String.eqb_neq in Hna, Hnb, Hab.
    rewrite Z.eqb_refl, Hna. simpl. rewrite Hnb, String.eqb_sym, Hab.
    reflexivity. }
  apply String.eqb_neq in Hna, Hnb.
  assert (C : central_data
                [(CENTRAL_DEPOSIT_NAME, c); (deposito_nombre a, a);
                 (deposito_nombre b, b)] = Some c).
  { unfold central_data. simpl. rewrite Hna, Hnb. reflexivity. }
  assert (S : sucursales_data
                [(CENTRAL_DEPOSIT_NAME, c); (deposito_nombre a, a);
                 (deposito_nombre b, b)] = [a; b]).
  { unfold sucursales_data. simpl. rewrite Hna, Hnb. reflexivity. }
  assert (B : compra_central "ideal" product_costs p c = []).
  { unfold compra_central.
    destruct (Py.Qltb (stock_actual c) (stock_minimo c)) eqn:E; [|reflexivity].
    apply Qltb_true in E. lra. }
  assert (Fa : faltante_int "ideal" a = 40%Z)
    by (rewrite faltante_int_rounded, Hda; reflexivity).
  assert (Fb : faltante_int "ideal" b = 50%Z)
    by (rewrite faltante_int_rounded, Hdb; reflexivity).
  set (disp := Py.max0 (stock_actual c - stock_minimo c)).
  assert (D : disp == 70).
  { unfold disp, Py.max0.
    destruct (Py.Qltb 0 (stock_actual c - stock_minimo c)) eqn:E; [lra|].
    apply Qltb_false in E. lra. }
  unfold generate_distribution. rewrite G. simpl.
  unfold procesar_producto. rewrite C, S, B. fold disp. simpl.
  pose proof (procesar_sucursal_paso "ideal" product_costs p c disp a) as Pa.
  destruct (procesar_sucursal "ideal" product_costs p c disp a) as [[d1 t1] p1].
  inversion Pa as [Z0 | Z1 Z2 | Z1 Z2 Z3 | Z1 Z2]; subst d1 t1 p1; rewrite Fa in *;
    try lia; try (change (inject_Z 40) with 40 in *; lra).
  pose proof (procesar_sucursal_paso "ideal" product_costs p c
                (disp - inject_Z 40) b) as Pb.
  destruct (procesar_sucursal "ideal" product_costs p c (disp - inject_Z 40) b)
    as [[d2 t2] p2].
  change (inject_Z 40) with 40 in *.
  inversion Pb as [Y0 | Y1 Y2 | Y1 Y2 Y3 | Y1 Y2]; subst d2 t2 p2; rewrite Fb in *;
    try lia; try (change (inject_Z 50) with 50 in *; lra).
  assert (I : Py.int (disp - 40) = 30%Z).
  { assert (E : disp - 40 == inject_Z 30)
      by (change (inject_Z 30) with 30; lra).
    rewrite (int_Proper _ _ E). apply int_Z. }
  simpl. rewrite I. split; reflexivity.
Qed.

Lemma scenario_central_120_witness :
  map (fun t => (deposit_destino_nombre t, cantidad_transferir t))
    (transfers (generate_distribution "ideal" Escenario.sin_costos
                  Escenario.red_120 [] []))
  = [("SUCURSAL A", 40%Z); ("SUCURSAL B", 30%Z)]
  /\ map (fun q => (p_deposit_destino_nombre q, cantidad_necesaria q,
                    origen_necesidad q))
       (purchase_needs (generate_distribution "ideal" Escenario.sin_costos
                          Escenario.red_120 [] []))
     = [("SUCURSAL B", 20%Z, "Sucursal sin cobertura")].
Proof.
  apply (scenario_central_120 Escenario.sin_costos 1
           Escenario.central_120 Escenario.peer_A Escenario.peer_B);
    try reflexivity; try discriminate.
Defined.

Import Redistribution RedistributionFacts.

(** Peer redistribution never emits a transfer of less than one unit. *)
Lemma redistribution_quantities_positive
    (target_level : string) (stock_levels : list StockLevel)
    (excluded_deposits : list string) :
  Forall (fun t => (1 <= cantidad_transferir t)%Z)
    (transfers (generate_excess_redistribution target_level stock_levels
                  excluded_deposits)).
Proof.
  unfold generate_excess_redistribution. simpl.
  eapply Forall_impl;
    [|apply flat_map_distintos, group_by_product_well_grouped].
  intros t [H _]. exact H.
Qed.

(** C3 as stated fails: a surplus of 1.5 units facing a deficit of 10 is
    moved as [round(1.5) = 2] units, more than the total surplus. *)
Lemma redistribution_exceeds_surplus :
  let r := generate_excess_redistribution "ideal" Escenario.red_sobrante [] in
  let deposits := Escenario.depositos Escenario.red_sobrante in
  In (1%Z, deposits) (Redistribution.products_by_id Escenario.red_sobrante [])
  /\ total_surplus deposits == 3 # 2
  /\ total_deficit "ideal" deposits == 10
  /\ sum_transfers (transfers_of 1 (transfers r)) = 2%Z
  /\ ~ inject_Z (sum_transfers (transfers_of 1 (transfers r)))
       <= Qmin (total_surplus deposits) (total_deficit "ideal" deposits).
Proof.
  cbv zeta. split; [left; reflexivity|]. repeat split.
  apply Qlt_not_le. reflexivity.
Qed.

(** C3, amended. For every product the quantities moved by peer
    redistribution add up to at most the total surplus and at most the total
    deficit, each location's amount counted in whole units rounded half up
    (so at most half a unit per location above the exact totals); with whole
    surpluses and deficits that is [min(total surplus, total deficit)]; and no
    transfer has its source equal to its destination. *)
Theorem redistribution_bounds
    (target_level : string) (stock_levels : list StockLevel)
    (excluded_deposits : list string) (p : Z) (deposits : Deposits) :
  In (p, deposits) (Redistribution.products_by_id stock_levels excluded_deposits) ->
  let r := generate_excess_redistribution target_level stock_levels
             excluded_deposits in
  (sum_transfers (transfers_of p (transfers r))
   <= Z.min (total_surplus_units deposits)
        (total_deficit_units target_level deposits))%Z
  /\ (Forall (fun e => exists z, excedente_disponible e == inject_Z z)
        (excedentes_de deposits) ->
      Forall (fun f => exists z, faltante f == inject_Z z)
        (faltantes_de target_level deposits) ->
      inject_Z (sum_transfers (transfers_of p (transfers r)))
      <= Qmin (total_surplus deposits) (total_deficit target_level deposits))
  /\ Forall (fun t => deposit_origen_nombre t <> deposit_destino_nombre t)
       (transfers r).
Proof.
  intro Hin. unfold generate_excess_redistribution. simpl.
  pose proof (group_by_product_well_grouped
                (filter (fun sl => negb (Py.str_in (deposito_nombre sl)
                                           excluded_deposits)) stock_levels))
    as Hwg.
  fold (Redistribution.products_by_id stock_levels excluded_deposits) in Hwg.
  rewrite (flat_map_propios target_level _ _ _ (proj1 Hwg) Hin).
  destruct (redistribuir_producto_bounds target_level p deposits) as (H1 & H2 & _).
  split; [lia|]. split.
  - intros We Wf. apply Q.min_glb.
    + unfold total_surplus. rewrite <- (surplus_units_whole _ We).
      rewrite <- Zle_Qle. exact H1.
    + unfold total_deficit. rewrite <- (deficit_units_whole _ Wf).
      rewrite <- Zle_Qle. exact H2.
  - eapply Forall_impl; [|apply (flat_map_distintos target_level _ Hwg)].
    intros t [_ H]. exact H.
Qed.

Lemma redistribution_bounds_witness :
  In (1%Z, Escenario.depositos Escenario.red_sobrante)
    (Redistribution.products_by_id Escenario.red_sobrante [])
  /\ (sum_transfers
        (transfers_of 1
           (transfers (generate_excess_redistribution "ideal"
                         Escenario.red_sobrante []))) <= 2)%Z.
Proof.
  split; [left; reflexivity|].
  apply (redistribution_bounds "ideal" Escenario.red_sobrante [] 1
           (Escenario.depositos Escenario.red_sobrante)).
  left. reflexivity.
Defined.

(** * Claims on the stock calculator *)

Import StockCalculator CalculatorFacts ForecasterFacts.

(** C5 as stated fails in both halves. With the default factors 2 and 4, a
    level is stored with [stock_minimo = 0.00] and [stock_ideal = 0.01]: its
    minimum 0.0027 rounds to 0 while its ideal 0.0055 rounds to 0.01. With
    factors 4 and 2, both at least 1, a level has [stock_minimo = 5 > 0] and
    [stock_ideal = 20 > stock_maximo = 10]. *)
Lemma targets_not_ordered :
  let run factor_ideal factor_maximo :=
    calculate_all_stock_levels factor_ideal factor_maximo 365
      Escenario.un_dia Escenario.umbral_uno Escenario.historial "mediana"
      Escenario.ajuste_nulo [Escenario.fila 1; Escenario.fila 2] in
  (1 <= 2 /\ 1 <= 4
   /\ ~ (forall sl, In sl (run 2 4) ->
           stock_minimo sl == 0 -> stock_ideal sl == 0 /\ stock_maximo sl == 0))
  /\ (1 <= 4 /\ 1 <= 2
      /\ ~ (forall sl, In sl (run 4 2) ->
              0 < stock_minimo sl ->
              stock_minimo sl <= stock_ideal sl
              /\ stock_ideal sl <= stock_maximo sl)).
Proof.
  cbv zeta. split; (split; [discriminate|]); (split; [discriminate|]).
  - intro H.
    destruct (H _ (or_introl eq_refl) eq_refl) as [Hideal _].
    vm_compute in Hideal. discriminate.
  - intro H.
    destruct (H _ (or_intror (or_introl eq_refl)) eq_refl) as [_ Hmax].
    vm_compute in Hmax. apply Hmax. reflexivity.
Qed.

Lemma calcular_nivel_objetivos
    (factor_ideal factor_maximo : Q) (sales_period_days : Z)
    (_get_dias_stock : option string -> option string -> option string -> Z)
    (_get_umbral_minimo : option string -> option string -> Z)
    (sales_history : Z * Z -> DemandForecaster.DataFrame)
    (metodo_calculo : string)
    (linear_regression : list (Z * Q) -> LinearModel)
    (ps : ProductStock) :
  1 <= factor_ideal -> factor_ideal <= factor_maximo ->
  let sl := calcular_nivel factor_ideal factor_maximo sales_period_days
              _get_dias_stock _get_umbral_minimo sales_history
              metodo_calculo linear_regression ps in
  (0 < stock_minimo sl ->
   stock_minimo sl <= stock_ideal sl /\ stock_ideal sl <= stock_maximo sl)
  /\ (demanda_diaria sl * inject_Z (dias_cobertura sl) == 0 ->
      stock_minimo sl == 0 /\ stock_ideal sl == 0 /\ stock_maximo sl == 0)
  /\ (ventas_365_dias sl
      < inject_Z (_get_umbral_minimo (ps_subrubro ps) (ps_rubro ps)) ->
      stock_minimo sl == 0 /\ stock_ideal sl == 0 /\ stock_maximo sl == 0).
Proof.
  intros Hi Him. cbv zeta. unfold calcular_nivel.
  set (forecast := DemandForecaster.calculate_demand _ _ _ _ _ _).
  set (dias := _get_dias_stock _ _ _).
  set (umbral := _get_umbral_minimo _ _).
  pose proof (niveles_cases factor_ideal factor_maximo forecast dias umbral) as N.
  destruct (niveles factor_ideal factor_maximo forecast dias umbral)
    as [[minimo ideal] maximo].
  simpl.
  assert (Z3 : minimo = 0 /\ ideal = 0 /\ maximo = 0 ->
               Py.round2 minimo == 0 /\ Py.round2 ideal == 0
               /\ Py.round2 maximo == 0).
  { intros (-> & -> & ->). repeat split; apply round2_zero. }
  destruct N as [(Hlow & Hz) | (Hhigh & Hm & Hid & Hmx)].
  - destruct (Z3 Hz) as (Z1 & Z2 & Z4). repeat split; try assumption.
    + intro Hpos. lra.
    + intro Hpos. lra.
  - subst ideal maximo. split; [|split].
    + intro Hpos. apply round2_pos in Hpos.
      split; apply round2_mono; nra.
    + intro Hzero. rewrite <- Hm in Hzero.
      assert (E1 : minimo * factor_ideal == 0) by (rewrite Hzero; ring).
      assert (E2 : minimo * factor_maximo == 0) by (rewrite Hzero; ring).
      split; [|split].
      * rewrite Hzero. apply round2_zero.
      * rewrite E1. apply round2_zero.
      * rewrite E2. apply round2_zero.
    + intro Hlow. exfalso. subst umbral. lra.
Qed.

(** C5, amended. With [1 <= factor_ideal <= factor_maximo], every level the
    calculator produces has all three targets at 0 when it is suppressed by
    the minimum-sales rule (its 365-day sales are below the threshold of the
    row it was computed from) or when its daily demand times its days of
    stock is 0, and has [stock_minimo <= stock_ideal <= stock_maximo] when
    [stock_minimo > 0]. *)
Theorem targets_ordered
    (factor_ideal factor_maximo : Q) (sales_period_days : Z)
    (_get_dias_stock : option string -> option string -> option string -> Z)
    (_get_umbral_minimo : option string -> option string -> Z)
    (sales_history : Z * Z -> DemandForecaster.DataFrame)
    (metodo_calculo : string)
    (linear_regression : list (Z * Q) -> LinearModel)
    (products_stock : list ProductStock) (sl : StockLevel) :
  1 <= factor_ideal -> factor_ideal <= factor_maximo ->
  In sl (calculate_all_stock_levels factor_ideal factor_maximo sales_period_days
           _get_dias_stock _get_umbral_minimo sales_history metodo_calculo
           linear_regression products_stock) ->
  (0 < stock_minimo sl ->
   stock_minimo sl <= stock_ideal sl /\ stock_ideal sl <= stock_maximo sl)
  /\ (demanda_diaria sl * inject_Z (dias_cobertura sl) == 0 ->
      stock_minimo sl == 0 /\ stock_ideal sl == 0 /\ stock_maximo sl == 0)
  /\ exists ps,
       In ps products_stock
       /\ sl = calcular_nivel factor_ideal factor_maximo sales_period_days
                _get_dias_stock _get_umbral_minimo sales_history
                metodo_calculo linear_regression ps
       /\ (ventas_365_dias sl
           < inject_Z (_get_umbral_minimo (ps_subrubro ps) (ps_rubro ps)) ->
           stock_minimo sl == 0 /\ stock_ideal sl == 0 /\ stock_maximo sl == 0).
Proof.
  intros Hi Him Hin. unfold calculate_all_stock_levels in Hin.
  apply in_map_iff in Hin. destruct Hin as [ps [<- Hps]].
  destruct (calcular_nivel_objetivos factor_ideal factor_maximo
              sales_period_days _get_dias_stock _get_umbral_minimo
              sales_history metodo_calculo linear_regression ps Hi Him)
    as (H1 & H2 & H3).
  split; [exact H1|]. split; [exact H2|].
  exists ps. split; [exact Hps|]. split; [reflexivity | exact H3].
Qed.

Lemma targets_ordered_witness :
  let sl :=
    calcular_nivel 2 4 365 Escenario.un_dia Escenario.umbral_uno
      Escenario.historial "mediana" Escenario.ajuste_nulo (Escenario.fila 2) in
  1 <= 2 /\ 2 <= 4 /\ 0 < stock_minimo sl
  /\ stock_minimo sl <= stock_ideal sl /\ stock_ideal sl <= stock_maximo sl.
Proof.
  cbv zeta. split; [discriminate|]. split; [discriminate|]. split; [reflexivity|].
  apply (targets_ordered 2 4 365 Escenario.un_dia Escenario.umbral_uno
           Escenario.historial "mediana" Escenario.ajuste_nulo
           [Escenario.fila 2]).
  - discriminate.
  - discriminate.
  - left. reflexivity.
  - reflexivity.
Defined.

(** * Claims on the demand forecaster *)

Import DemandForecaster.

(** C7. Outlier robustness of the median estimator: whenever the daily
    totals of the series are the seven values 1, 1, 1, 1, 2, 3, 6 in any
    order, the median estimate is [1 * 7 / days], the simple average is
    [15 / days], and they differ by more than half of the larger one (hence
    by more than 50% of either). *)
Theorem median_resists_outlier (df : DataFrame) (dias : Z) :
  PermutationA Qeq (map snd (groupby_sum df)) outlier_days ->
  _mediana_ajustada df dias == 7 / inject_Z (Z.max 1 dias)
  /\ _promedio_simple df dias == 15 / inject_Z (Z.max 1 dias)
  /\ (1 # 2) * _promedio_simple df dias
     < _promedio_simple df dias - _mediana_ajustada df dias
  /\ (1 # 2) * _mediana_ajustada df dias
     < _promedio_simple df dias - _mediana_ajustada df dias.
Proof.
  intro H.
  destruct (median_outlier _ H) as [Hmed Hlen].
  pose proof (Qsum_PermutationA _ _ H) as Hsum.
  rewrite Qsum_groupby in Hsum.
  change (Qsum outlier_days) with (15 # 1) in Hsum.
  rewrite length_map in Hlen.
  assert (Em : _mediana_ajustada df dias == 7 / inject_Z (Z.max 1 dias)).
  { unfold _mediana_ajustada.
    destruct (groupby_sum df) as [|g gs] eqn:G; [discriminate|].
    rewrite Hmed, Hlen, max1_as_max. change (inject_Z (Z.of_nat 7)) with 7.
    ring. }
  assert (Es : _promedio_simple df dias == 15 / inject_Z (Z.max 1 dias)).
  { unfold _promedio_simple. rewrite Hsum, max1_as_max. reflexivity. }
  assert (Hd : 0 < / inject_Z (Z.max 1 dias)).
  { apply Qinv_lt_0_compat. change 0 with (inject_Z 0).
    rewrite <- Zlt_Qlt. lia. }
  split; [exact Em|]. split; [exact Es|].
  rewrite Em, Es. unfold Qdiv. set (i := / inject_Z (Z.max 1 dias)) in *.
  split; lra.
Qed.

Lemma median_resists_outlier_witness :
  PermutationA Qeq (map snd (groupby_sum Escenario.ventas_outlier)) outlier_days
  /\ _mediana_ajustada Escenario.ventas_outlier 365 == 7 / 365
  /\ _promedio_simple Escenario.ventas_outlier 365 == 15 / 365.
Proof.
  assert (P : PermutationA Qeq (map snd (groupby_sum Escenario.ventas_outlier))
                outlier_days).
  { apply Permutation_PermutationA; [exact Q_Setoid|].
    cbv. do 2 apply perm_skip.
    apply (Permutation_cons_app [1; 1; 2; 3] []).
    apply perm_skip. symmetry. apply (Permutation_cons_append [2; 3] 1). }
  split; [exact P|].
  destruct (median_resists_outlier Escenario.ventas_outlier 365 P)
    as (H1 & H2 & _).
  split; assumption.
Defined.


(** * Further properties of the allocation engine *)

Import Propiedades.

Lemma paso_trazas (target_level : string) (product_costs : Z -> Q)
    (pid : Z) (central s : StockLevel) (disp disp' : Q)
    (ts : list TransferProposal) (ps : list PurchaseNeed) :
  paso target_level product_costs pid central disp s (disp', ts, ps) ->
  Forall (traslado_de target_level pid central s) ts
  /\ Forall (fun q => compra_de target_level product_costs pid s q
                      /\ peer_cause q = true) ps.
Proof.
  intro P.
  assert (R : (1 <= faltante_int target_level s)%Z ->
              faltante_int target_level s
              = Py.round (stock_objetivo target_level s - stock_actual s)).
  { intro H. rewrite faltante_int_rounded in *. unfold rounded_deficit in *.
    destruct (1 <=? Py.round _)%Z; [reflexivity | lia]. }
  inversion P as [Z0 | Z1 Z2 | Z1 Z2 Z3 | Z1 Z2]; subst; split;
    repeat constructor; simpl; try lia; try reflexivity.
  - rewrite int_nonneg by lra.
    assert (L : 0 <= disp) by lra. apply Qfloor_resp_le in L. exact L.
  - rewrite int_nonneg by lra. pose proof (Qfloor_le disp) as F.
    assert (L : inject_Z (Qfloor disp) < inject_Z (faltante_int target_level s))
      by lra.
    rewrite <- Zlt_Qlt in L. lia.
  - rewrite int_nonneg by lra. pose proof (Qfloor_le disp) as F.
    assert (L : inject_Z (Qfloor disp) < inject_Z (faltante_int target_level s))
      by lra.
    rewrite <- Zlt_Qlt in L. lia.
  - rewrite <- (R Z1), inject_Z_minus. ring.
  - rewrite <- (R Z1). reflexivity.
Qed.

Lemma sucursales_trazas (target_level : string) (product_costs : Z -> Q)
    (pid : Z) (central : StockLevel) (L : list StockLevel) :
  forall disp ts ps,
  procesar_sucursales target_level product_costs pid central disp L = (ts, ps) ->
  Forall (fun t => exists s, In s L /\ traslado_de target_level pid central s t) ts
  /\ Forall (fun q => exists s,
               In s L /\ compra_de target_level product_costs pid s q
               /\ peer_cause q = true) ps.
Proof.
  induction L as [|s L IH]; simpl; intros disp ts ps E.
  - injection E as <- <-. split; constructor.
  - pose proof (procesar_sucursal_paso target_level product_costs pid central
                  disp s) as P.
    destruct (procesar_sucursal target_level product_costs pid central disp s)
      as [[d1 t1] p1].
    destruct (procesar_sucursales target_level product_costs pid central d1 L)
      as [t2 p2] eqn:R.
    injection E as <- <-.
    destruct (paso_trazas _ _ _ _ _ _ _ _ _ P) as [Ht Hp].
    destruct (IH _ _ _ R) as [Ht2 Hp2].
    split; apply Forall_app; split.
    + eapply Forall_impl; [|exact Ht]. intros t H. exists s. split; [left|]; auto.
    + eapply Forall_impl; [|exact Ht2]. intros t [s' [H1 H2]].
      exists s'. split; [right|]; auto.
    + eapply Forall_impl; [|exact Hp]. intros q H. exists s. split; [left|]; auto.
    + eapply Forall_impl; [|exact Hp2]. intros q [s' [H1 H2]].
      exists s'. split; [right|]; auto.
Qed.

Lemma compra_central_traza (target_level : string) (product_costs : Z -> Q)
    (pid : Z) (central : StockLevel) :
  Forall (fun q => compra_de target_level product_costs pid central q
                   /\ central_below_minimum q = true)
    (compra_central target_level product_costs pid central).
Proof.
  unfold compra_central.
  destruct (Py.Qltb (stock_actual central) (stock_minimo central)); [|constructor].
  destruct (0 <? Py.round _)%Z eqn:E; [|constructor].
  apply Z.ltb_lt in E.
  repeat constructor; simpl; try reflexivity. lia.
Qed.

Lemma producto_trazas (target_level : string) (product_costs : Z -> Q)
    (pid : Z) (deposits : Deposits) :
  Forall (fun t => exists central s,
            central_data deposits = Some central
            /\ In s (sucursales_data deposits)
            /\ traslado_de target_level pid central s t)
    (fst (procesar_producto target_level product_costs pid deposits))
  /\ Forall (fun q => exists central d,
               central_data deposits = Some central
               /\ (In d (sucursales_data deposits) /\ peer_cause q = true
                   \/ d = central /\ central_below_minimum q = true)
               /\ compra_de target_level product_costs pid d q)
       (snd (procesar_producto target_level product_costs pid deposits)).
Proof.
  unfold procesar_producto.
  destruct (central_data deposits) as [central|]; [|split; constructor].
  destruct (procesar_sucursales _ _ _ _ _ _) as [ts ps] eqn:R.
  destruct (sucursales_trazas _ _ _ _ _ _ _ _ R) as [Ht Hp]. simpl. split.
  - eapply Forall_impl; [|exact Ht]. intros t [s [H1 H2]].
    exists central, s. auto.
  - apply Forall_app. split.
    + eapply Forall_impl; [|exact Hp]. intros q [s (H1 & H2 & H3)].
      exists central, s. auto.
    + eapply Forall_impl; [|apply compra_central_traza]. intros q [H1 H2].
      exists central, central. auto.
Qed.

Lemma productos_trazas (target_level : string) (product_costs : Z -> Q)
    (grouped : Grouped) :
  Forall (fun t => exists pid deposits central s,
            In (pid, deposits) grouped
            /\ central_data deposits = Some central
            /\ In s (sucursales_data deposits)
            /\ traslado_de target_level pid central s t)
    (fst (procesar_productos target_level product_costs grouped))
  /\ Forall (fun q => exists pid deposits central d,
               In (pid, deposits) grouped
               /\ central_data deposits = Some central
               /\ (In d (sucursales_data deposits) /\ peer_cause q = true
                   \/ d = central /\ central_below_minimum q = true)
               /\ compra_de target_level product_costs pid d q)
       (snd (procesar_productos target_level product_costs grouped)).
Proof.
  induction grouped as [|[pid deps] G IH]; simpl; [split; constructor|].
  destruct (producto_trazas target_level product_costs pid deps) as [Ht Hp].
  destruct (procesar_producto target_level product_costs pid deps) as [t1 p1].
  destruct (procesar_productos target_level product_costs G) as [t2 p2].
  simpl in *. destruct IH as [Ht2 Hp2].
  split; apply Forall_app; split.
  - eapply Forall_impl; [|exact Ht]. intros t (c & s & H).
    exists pid, deps, c, s. split; [left; reflexivity | exact H].
  - eapply Forall_impl; [|exact Ht2]. intros t (p' & d' & c & s & H0 & H).
    exists p', d', c, s. split; [right; exact H0 | exact H].
  - eapply Forall_impl; [|exact Hp]. intros q (c & d & H).
    exists pid, deps, c, d. split; [left; reflexivity | exact H].
  - eapply Forall_impl; [|exact Hp2]. intros q (p' & d' & c & d & H0 & H).
    exists p', d', c, d. split; [right; exact H0 | exact H].
Qed.

(** Every level filed by [_group_by_product] is one of the levels given. *)
Lemma group_insert_Forall (P : StockLevel -> Prop) (grouped : Grouped)
    (sl : StockLevel) :
  P sl ->
  (forall p deps n x, In (p, deps) grouped -> In (n, x) deps -> P x) ->
  forall p deps n x,
  In (p, deps) (group_insert grouped sl) -> In (n, x) deps -> P x.
Proof.
  intros Hsl Hall p deps n x Hin Hx. unfold group_insert in Hin.
  apply (dict_set_In Z.eqb Z.eqb_eq) in Hin. destruct Hin as [[= -> ->] | Hin].
  - apply (dict_set_In String.eqb String.eqb_eq) in Hx.
    destruct Hx as [[= -> ->] | Hx]; [exact Hsl|].
    destruct (dict_get Z.eqb (product_id sl) grouped) as [d|] eqn:G;
      [|contradiction].
    apply dict_get_In in G; [|apply Z.eqb_eq]. apply (Hall _ _ _ _ G Hx).
  - apply (Hall _ _ _ _ Hin Hx).
Qed.

Lemma group_by_product_Forall (P : StockLevel -> Prop) (l : list StockLevel) :
  Forall P l ->
  forall p deps n x,
  In (p, deps) (_group_by_product l) -> In (n, x) deps -> P x.
Proof.
  unfold _group_by_product.
  assert (G : forall (l : list StockLevel) (acc : Grouped),
             Forall P l ->
             (forall p deps n x, In (p, deps) acc -> In (n, x) deps -> P x) ->
             forall p deps n x,
             In (p, deps) (fold_left group_insert l acc) -> In (n, x) deps -> P x).
  { clear l. induction l as [|sl l IH]; simpl; intros acc Hl Hacc; [exact Hacc|].
    inversion Hl as [|? ? Hsl Hl']; subst.
    apply IH; [exact Hl'|]. apply group_insert_Forall; assumption. }
  intro Hl. apply G; [exact Hl|]. intros p deps n x [].
Qed.

(** Every purchase need of central distribution asks for at least one unit,
    costs the unit cost of its product times its quantity, carries one of the
    three causes, and together with the stock it is computed from reaches the
    target of its destination within half a unit. *)
Theorem purchase_needs_well_formed
    (target_level : string) (product_costs : Z -> Q)
    (stock_levels : list StockLevel)
    (excluded_deposits excluded_brands : list string) :
  Forall
    (fun q =>
       (1 <= cantidad_necesaria q)%Z
       /\ costo_unitario q = product_costs (p_product_id q)
       /\ costo_total q = costo_unitario q * inject_Z (cantidad_necesaria q)
       /\ causa_conocida q
       /\ p_stock_objetivo_destino q - (1 # 2)
          <= stock_actual_destino q + inject_Z (cantidad_necesaria q)
       /\ stock_actual_destino q + inject_Z (cantidad_necesaria q)
          <= p_stock_objetivo_destino q + (1 # 2))
    (purchase_needs
       (generate_distribution target_level product_costs stock_levels
          excluded_deposits excluded_brands)).
Proof.
  unfold generate_distribution.
  destruct (productos_trazas target_level product_costs
              (DistributionService.products_by_id stock_levels excluded_deposits
                 excluded_brands))
    as [_ Hp].
  destruct (procesar_productos _ _ _) as [ts ps]. simpl in *.
  eapply Forall_impl; [|exact Hp].
  intros q (pid & deps & c & d & _ & _ & Hcause & Hq).
  destruct Hq as (Hid & _ & _ & Hobj & Hcu & Hct & Hqty & Hfill).
  pose proof (round_lower (stock_objetivo target_level d - stock_actual d)).
  pose proof (round_upper (stock_objetivo target_level d - stock_actual d)).
  rewrite Hid, Hobj, Hcu, Hct.
  repeat split; try assumption; try reflexivity; try lra.
  unfold causa_conocida, peer_cause, central_below_minimum in *.
  destruct Hcause as [[_ Hc] | [_ Hc]].
  - apply orb_true_iff in Hc. destruct Hc as [Hc | Hc];
      apply String.eqb_eq in Hc; auto.
  - apply String.eqb_eq in Hc. auto.
Qed.

(** No transfer of central distribution is negative, each goes to a peer
    that was below its target, and none lifts its destination more than half
    a unit above that target. *)
Theorem transfers_never_overfill
    (target_level : string) (product_costs : Z -> Q)
    (stock_levels : list StockLevel)
    (excluded_deposits excluded_brands : list string) :
  Forall
    (fun t =>
       (0 <= cantidad_transferir t)%Z
       /\ stock_destino_despues t
          = stock_destino_antes t + inject_Z (cantidad_transferir t)
       /\ stock_destino_antes t < stock_objetivo_destino t
       /\ stock_destino_despues t <= stock_objetivo_destino t + (1 # 2))
    (transfers
       (generate_distribution target_level product_costs stock_levels
          excluded_deposits excluded_brands)).
Proof.
  unfold generate_distribution.
  destruct (productos_trazas target_level product_costs
              (DistributionService.products_by_id stock_levels excluded_deposits
                 excluded_brands))
    as [Ht _].
  destruct (procesar_productos _ _ _) as [ts ps]. simpl in *.
  eapply Forall_impl; [|exact Ht].
  intros t (pid & deps & c & s & _ & _ & _ & Htr).
  destruct Htr as (_ & _ & _ & _ & Hantes & Hobj & Hdesp & H0 & Hle & H1).
  rewrite Hantes, Hobj, Hdesp.
  rewrite faltante_int_rounded in Hle, H1. unfold rounded_deficit in *.
  set (x := stock_objetivo target_level s - stock_actual s) in *.
  destruct (1 <=? Py.round x)%Z eqn:E; [|lia].
  pose proof (round_upper x) as U. pose proof (round_pos x H1) as Pos.
  rewrite Zle_Qle in Hle. unfold x in *.
  repeat split; try assumption; try reflexivity; lra.
Qed.

Lemma paso_entero (target_level : string) (product_costs : Z -> Q)
    (pid : Z) (central s : StockLevel) (disp disp' : Q)
    (ts : list TransferProposal) (ps : list PurchaseNeed) :
  paso target_level product_costs pid central disp s (disp', ts, ps) ->
  (exists k, disp == inject_Z k) ->
  (exists k, disp' == inject_Z k)
  /\ Forall (fun t => (1 <= cantidad_transferir t)%Z) ts.
Proof.
  intros P [k Hk].
  inversion P as [Z0 | Z1 Z2 | Z1 Z2 Z3 | Z1 Z2]; subst.
  - split; [exists k; exact Hk | constructor].
  - split.
    + exists (k - faltante_int target_level s)%Z.
      rewrite inject_Z_minus, Hk. reflexivity.
    + repeat constructor. simpl. exact Z1.
  - split; [exists 0%Z; reflexivity|].
    repeat constructor. simpl.
    rewrite (int_Proper _ _ Hk), int_Z.
    assert (L : inject_Z 0 < inject_Z k) by (change (inject_Z 0) with 0; lra).
    rewrite <- Zlt_Qlt in L. lia.
  - split; [exists k; exact Hk | constructor].
Qed.

Lemma sucursales_entero (target_level : string) (product_costs : Z -> Q)
    (pid : Z) (central : StockLevel) (L : list StockLevel) :
  forall disp ts ps,
  procesar_sucursales target_level product_costs pid central disp L = (ts, ps) ->
  (exists k, disp == inject_Z k) ->
  Forall (fun t => (1 <= cantidad_transferir t)%Z) ts.
Proof.
  induction L as [|s L IH]; simpl; intros disp ts ps E Hk.
  - injection E as <- <-. constructor.
  - pose proof (procesar_sucursal_paso target_level product_costs pid central
                  disp s) as P.
    destruct (procesar_sucursal target_level product_costs pid central disp s)
      as [[d1 t1] p1].
    destruct (procesar_sucursales target_level product_costs pid central d1 L)
      as [t2 p2] eqn:R.
    injection E as <- <-.
    destruct (paso_entero _ _ _ _ _ _ _ _ _ P Hk) as [Hk1 Ht].
    apply Forall_app. split; [exact Ht | apply (IH _ _ _ R Hk1)].
Qed.

(** When the central row of a product holds a whole number of units above
    its minimum, every transfer of that product moves at least one unit. *)
Theorem whole_pool_transfers_at_least_one
    (target_level : string) (product_costs : Z -> Q)
    (stock_levels : list StockLevel)
    (excluded_deposits excluded_brands : list string)
    (p : Z) (deposits : Deposits) (central : StockLevel) (k : Z) :
  In (p, deposits)
    (DistributionService.products_by_id stock_levels excluded_deposits
       excluded_brands) ->
  central_data deposits = Some central ->
  stock_actual central - stock_minimo central == inject_Z k ->
  Forall (fun t => (1 <= cantidad_transferir t)%Z)
    (transfers_of p
       (transfers
          (generate_distribution target_level product_costs stock_levels
             excluded_deposits excluded_brands))).
Proof.
  intros Hin Hc Hk. unfold generate_distribution.
  destruct (group_by_product_well_grouped
              (filtered_levels stock_levels excluded_deposits excluded_brands))
    as [Hnd _].
  fold (DistributionService.products_by_id stock_levels excluded_deposits
          excluded_brands) in Hnd.
  destruct (productos_propios target_level product_costs _ _ _ Hnd Hin) as [Et _].
  destruct (procesar_productos _ _ _) as [ts ps]. simpl in *.
  rewrite Et. unfold procesar_producto. rewrite Hc.
  destruct (procesar_sucursales _ _ _ _ _ _) as [ts' ps'] eqn:R. simpl.
  apply (sucursales_entero _ _ _ _ _ _ _ _ R).
  unfold Py.max0.
  destruct (Py.Qltb 0 (stock_actual central - stock_minimo central));
    [exists k; exact Hk | exists 0%Z; reflexivity].
Qed.

Lemma whole_pool_transfers_at_least_one_witness :
  stock_actual Escenario.central_120 - stock_minimo Escenario.central_120
  == inject_Z 70
  /\ Forall (fun t => (1 <= cantidad_transferir t)%Z)
       (transfers_of 1
          (transfers
             (generate_distribution "ideal" Escenario.sin_costos
                Escenario.red_120 [] []))).
Proof.
  split; [reflexivity|].
  apply (whole_pool_transfers_at_least_one "ideal" Escenario.sin_costos
           Escenario.red_120 [] [] 1 (Escenario.depositos Escenario.red_120)
           Escenario.central_120 70).
  - left. reflexivity.
  - reflexivity.
  - reflexivity.
Defined.

Lemma filtered_levels_allowed (stock_levels : list StockLevel)
    (excluded_deposits excluded_brands : list string) :
  Forall (fun sl => In sl stock_levels
                    /\ Py.str_in (deposito_nombre sl) excluded_deposits = false
                    /\ Py.str_in (marca sl) excluded_brands = false)
    (filtered_levels stock_levels excluded_deposits excluded_brands).
Proof.
  apply Forall_forall. intros sl H. unfold filtered_levels in H.
  apply filter_In in H. destruct H as [Hin H].
  apply andb_true_iff in H. destruct H as [H1 H2].
  apply negb_true_iff in H1, H2. auto.
Qed.

(** What is known of the central row and of the peers of a group. *)
Lemma grupo_central (P : StockLevel -> Prop) (l : list StockLevel)
    (p : Z) (deposits : Deposits) (central : StockLevel) :
  Forall P l -> In (p, deposits) (_group_by_product l) ->
  central_data deposits = Some central ->
  P central /\ product_id central = p
  /\ deposito_nombre central = CENTRAL_DEPOSIT_NAME.
Proof.
  intros Hl Hin Hc.
  pose proof (well_grouped_entry _ _ _ (group_by_product_well_grouped l) Hin)
    as Hwf.
  pose proof (central_data_In _ _ Hc) as Hin'.
  split; [apply (group_by_product_Forall P l Hl _ _ _ _ Hin Hin')|].
  split; [|apply (central_data_nombre _ _ _ Hwf Hc)].
  destruct Hwf as [_ Hall]. rewrite Forall_forall in Hall.
  apply (Hall _ Hin').
Qed.

Lemma grupo_sucursal (P : StockLevel -> Prop) (l : list StockLevel)
    (p : Z) (deposits : Deposits) (s : StockLevel) :
  Forall P l -> In (p, deposits) (_group_by_product l) ->
  In s (sucursales_data deposits) ->
  P s /\ product_id s = p /\ deposito_nombre s <> CENTRAL_DEPOSIT_NAME.
Proof.
  intros Hl Hin Hs.
  pose proof (well_grouped_entry _ _ _ (group_by_product_well_grouped l) Hin)
    as Hwf.
  apply sucursales_data_In in Hs. destruct Hs as [n [Hs Hn]].
  split; [apply (group_by_product_Forall P l Hl _ _ _ _ Hin Hs)|].
  destruct Hwf as [_ Hall]. rewrite Forall_forall in Hall.
  destruct (Hall _ Hs) as [H1 H2]. simpl in *. split; congruence.
Qed.

(** A product without a central row among the levels kept by the exclusion
    lists gets no transfer and no purchase need. *)
Theorem no_central_no_output
    (target_level : string) (product_costs : Z -> Q)
    (stock_levels : list StockLevel)
    (excluded_deposits excluded_brands : list string) (p : Z) :
  (forall sl,
     In sl (filtered_levels stock_levels excluded_deposits excluded_brands) ->
     product_id sl = p -> deposito_nombre sl <> CENTRAL_DEPOSIT_NAME) ->
  let r := generate_distribution target_level product_costs stock_levels
             excluded_deposits excluded_brands in
  transfers_of p (transfers r) = [] /\ purchases_of p (purchase_needs r) = [].
Proof.
  intro Hno. unfold generate_distribution.
  destruct (productos_trazas target_level product_costs
              (DistributionService.products_by_id stock_levels excluded_deposits
                 excluded_brands)) as [Ht Hp].
  destruct (procesar_productos _ _ _) as [ts ps]. simpl in *.
  assert (Hself : Forall
            (fun sl => In sl (filtered_levels stock_levels excluded_deposits
                                excluded_brands))
            (filtered_levels stock_levels excluded_deposits excluded_brands))
    by (apply Forall_forall; auto).
  assert (Hne : forall pid deps c,
             In (pid, deps)
               (DistributionService.products_by_id stock_levels
                  excluded_deposits excluded_brands) ->
             central_data deps = Some c -> pid <> p).
  { intros pid deps c Hin Hc ->.
    destruct (grupo_central _ _ _ _ _ Hself Hin Hc) as (H1 & H2 & H3).
    apply (Hno c H1 H2 H3). }
  split; apply filter_none.
  - eapply Forall_impl; [|exact Ht].
    intros t (pid & deps & c & s & Hin & Hc & _ & Htr).
    destruct Htr as [-> _]. apply Z.eqb_neq. apply (Hne _ _ _ Hin Hc).
  - eapply Forall_impl; [|exact Hp].
    intros q (pid & deps & c & d & Hin & Hc & _ & Hq).
    destruct Hq as [-> _]. apply Z.eqb_neq. apply (Hne _ _ _ Hin Hc).
Qed.

Lemma no_central_no_output_witness :
  transfers_of 2
    (transfers (generate_distribution "ideal" Escenario.sin_costos
                  Casos.red_dos_productos [] [])) = []
  /\ purchases_of 2
       (purchase_needs (generate_distribution "ideal" Escenario.sin_costos
                          Casos.red_dos_productos [] [])) = [].
Proof.
  apply (no_central_no_output "ideal" Escenario.sin_costos
           Casos.red_dos_productos [] [] 2).
  intros sl H. simpl in H.
  destruct H as [<- | [<- | [<- | [<- | [<- | []]]]]]; simpl; intro E;
    discriminate.
Defined.

(** The exclusion lists are respected: no transfer leaves from or goes to an
    excluded deposit or carries an excluded brand, and no purchase need is
    for an excluded deposit or an excluded brand. *)
Theorem exclusions_respected
    (target_level : string) (product_costs : Z -> Q)
    (stock_levels : list StockLevel)
    (excluded_deposits excluded_brands : list string) :
  let r := generate_distribution target_level product_costs stock_levels
             excluded_deposits excluded_brands in
  Forall
    (fun t =>
       Py.str_in (deposit_origen_nombre t) excluded_deposits = false
       /\ Py.str_in (deposit_destino_nombre t) excluded_deposits = false
       /\ Py.str_in (t_marca t) excluded_brands = false)
    (transfers r)
  /\ Forall
       (fun q =>
          Py.str_in (p_deposit_destino_nombre q) excluded_deposits = false
          /\ Py.str_in (p_marca q) excluded_brands = false)
       (purchase_needs r).
Proof.
  unfold generate_distribution.
  destruct (productos_trazas target_level product_costs
              (DistributionService.products_by_id stock_levels excluded_deposits
                 excluded_brands)) as [Ht Hp].
  destruct (procesar_productos _ _ _) as [ts ps]. simpl in *.
  pose proof (filtered_levels_allowed stock_levels excluded_deposits
                excluded_brands) as Hal.
  split.
  - eapply Forall_impl; [|exact Ht].
    intros t (pid & deps & c & s & Hin & Hc & Hs & Htr).
    destruct (grupo_central _ _ _ _ _ Hal Hin Hc) as ((_ & C1 & C2) & _).
    destruct (grupo_sucursal _ _ _ _ _ Hal Hin Hs) as ((_ & S1 & S2) & _).
    destruct Htr as (_ & -> & -> & -> & _). auto.
  - eapply Forall_impl; [|exact Hp].
    intros q (pid & deps & c & d & Hin & Hc & Hd & Hq).
    destruct (grupo_central _ _ _ _ _ Hal Hin Hc) as ((_ & C1 & C2) & _).
    destruct Hq as (_ & -> & -> & _).
    destruct Hd as [[Hs _] | [-> _]]; [|auto].
    destruct (grupo_sucursal _ _ _ _ _ Hal Hin Hs) as ((_ & S1 & S2) & _). auto.
Qed.

(** Excluding the central deposit itself leaves nothing to distribute and
    nothing to buy. *)
Theorem excluded_central_disables_distribution
    (target_level : string) (product_costs : Z -> Q)
    (stock_levels : list StockLevel)
    (excluded_deposits excluded_brands : list string) :
  Py.str_in CENTRAL_DEPOSIT_NAME excluded_deposits = true ->
  let r := generate_distribution target_level product_costs stock_levels
             excluded_deposits excluded_brands in
  transfers r = [] /\ purchase_needs r = [].
Proof.
  intro Hex. unfold generate_distribution.
  destruct (productos_trazas target_level product_costs
              (DistributionService.products_by_id stock_levels excluded_deposits
                 excluded_brands)) as [Ht Hp].
  destruct (procesar_productos _ _ _) as [ts ps]. simpl in *.
  pose proof (filtered_levels_allowed stock_levels excluded_deposits
                excluded_brands) as Hal.
  assert (Hno : forall pid deps c,
             In (pid, deps)
               (DistributionService.products_by_id stock_levels
                  excluded_deposits excluded_brands) ->
             central_data deps = Some c -> False).
  { intros pid deps c Hin Hc.
    destruct (grupo_central _ _ _ _ _ Hal Hin Hc) as ((_ & C1 & _) & _ & C3).
    rewrite C3 in C1. congruence. }
  split.
  - destruct ts as [|t ts]; [reflexivity|]. exfalso.
    inversion Ht as [|? ? (pid & deps & c & s & Hin & Hc & _) _]; subst.
    apply (Hno _ _ _ Hin Hc).
  - destruct ps as [|q ps]; [reflexivity|]. exfalso.
    inversion Hp as [|? ? (pid & deps & c & d & Hin & Hc & _) _]; subst.
    apply (Hno _ _ _ Hin Hc).
Qed.

Lemma excluded_central_disables_distribution_witness :
  transfers (generate_distribution "ideal" Escenario.sin_costos
               Escenario.red_120 [CENTRAL_DEPOSIT_NAME] []) = []
  /\ purchase_needs (generate_distribution "ideal" Escenario.sin_costos
                       Escenario.red_120 [CENTRAL_DEPOSIT_NAME] []) = [].
Proof.
  apply (excluded_central_disables_distribution "ideal" Escenario.sin_costos
           Escenario.red_120 [CENTRAL_DEPOSIT_NAME] []).
  reflexivity.
Defined.

Lemma NoDup_map_inj {A B : Type} (f : A -> B) (l : list A) (a b : A) :
  NoDup (map f l) -> In a l -> In b l -> f a = f b -> a = b.
Proof.
  induction l as [|x l IH]; simpl; [contradiction|].
  intros Hnd Ha Hb E. inversion Hnd as [|? ? Hn Hd]; subst.
  destruct Ha as [-> | Ha], Hb as [-> | Hb]; auto.
  - exfalso. apply Hn. rewrite E. apply in_map. exact Hb.
  - exfalso. apply Hn. rewrite <- E. apply in_map. exact Ha.
Qed.

Lemma sucursales_compras_deficit (target_level : string)
    (product_costs : Z -> Q) (pid : Z) (central : StockLevel)
    (L : list StockLevel) :
  forall disp ts ps,
  procesar_sucursales target_level product_costs pid central disp L = (ts, ps) ->
  Forall (fun q => exists s,
            In s L /\ p_deposit_destino_nombre q = deposito_nombre s
            /\ (1 <= faltante_int target_level s)%Z) ps.
Proof.
  induction L as [|s L IH]; simpl; intros disp ts ps E.
  - injection E as <- <-. constructor.
  - pose proof (procesar_sucursal_paso target_level product_costs pid central
                  disp s) as P.
    destruct (procesar_sucursal target_level product_costs pid central disp s)
      as [[d1 t1] p1].
    destruct (procesar_sucursales target_level product_costs pid central d1 L)
      as [t2 p2] eqn:R.
    injection E as <- <-.
    apply Forall_app. split.
    + inversion P as [Z0 | Z1 Z2 | Z1 Z2 Z3 | Z1 Z2]; subst;
        repeat constructor; exists s; simpl; auto.
    + eapply Forall_impl; [|apply (IH _ _ _ R)].
      intros q (s' & H1 & H2). exists s'. split; [right|]; auto.
Qed.

Lemma peer_sin_faltante
    (target_level : string) (product_costs : Z -> Q)
    (stock_levels : list StockLevel)
    (excluded_deposits excluded_brands : list string)
    (p : Z) (deposits : Deposits) (s : StockLevel) :
  In (p, deposits)
    (DistributionService.products_by_id stock_levels excluded_deposits
       excluded_brands) ->
  In s (sucursales_data deposits) ->
  faltante_int target_level s = 0%Z ->
  let r := generate_distribution target_level product_costs stock_levels
             excluded_deposits excluded_brands in
  transfers_to (deposito_nombre s) (transfers_of p (transfers r)) = []
  /\ purchases_for (deposito_nombre s) (purchases_of p (purchase_needs r)) = [].
Proof.
  intros Hin Hs F0. unfold generate_distribution.
  pose proof (group_by_product_well_grouped
                (filtered_levels stock_levels excluded_deposits excluded_brands))
    as Hwg.
  fold (DistributionService.products_by_id stock_levels excluded_deposits
          excluded_brands) in Hwg.
  pose proof (well_grouped_entry _ _ _ Hwg Hin) as Hwf.
  destruct Hwg as [Hnd _].
  destruct (productos_propios target_level product_costs _ _ _ Hnd Hin)
    as [Et Ep].
  destruct (procesar_productos _ _ _) as [ts ps]. simpl in *.
  rewrite Et, Ep. clear Et Ep.
  destruct (sucursales_data_nombres _ _ Hwf) as [Hnames Hnc].
  unfold procesar_producto.
  destruct (central_data deposits) as [c|] eqn:Hc; [|split; reflexivity].
  destruct (procesar_sucursales target_level product_costs p c _ _)
    as [ts' ps'] eqn:R.
  simpl. split; apply filter_none.
  - destruct (sucursales_trazas _ _ _ _ _ _ _ _ R) as [Ht _].
    eapply Forall_impl; [|exact Ht].
    intros t (s' & Hs' & Htr).
    destruct Htr as (_ & _ & _ & Hd & _ & _ & _ & _ & _ & H1).
    apply String.eqb_neq. intro E. rewrite Hd in E.
    rewrite (NoDup_map_inj deposito_nombre _ _ _ Hnames Hs' Hs E) in H1. lia.
  - apply Forall_app. split.
    + eapply Forall_impl; [|apply (sucursales_compras_deficit _ _ _ _ _ _ _ _ R)].
      intros q (s' & Hs' & Hd & H1).
      apply String.eqb_neq. intro E. rewrite Hd in E.
      rewrite (NoDup_map_inj deposito_nombre _ _ _ Hnames Hs' Hs E) in H1. lia.
    + eapply Forall_impl; [|apply compra_central_traza].
      intros q [(_ & Hd & _) _].
      apply String.eqb_neq. intro E. rewrite Hd in E.
      rewrite (central_data_nombre _ _ _ Hwf Hc) in E.
      rewrite Forall_forall in Hnc. apply (Hnc _ Hs). symmetry. exact E.
Qed.


Lemma faltante_int_medio (target_level : string) (s : StockLevel) :
  stock_objetivo target_level s <= stock_actual s + (1 # 2) ->
  faltante_int target_level s = 0%Z.
Proof.
  intro Hle. unfold faltante_int.
  destruct (Qle_bool (stock_objetivo target_level s - stock_actual s) 0);
    [reflexivity|].
  assert (L : stock_objetivo target_level s - stock_actual s <= 1 # 2) by lra.
  apply round_mono in L. change (Py.round (1 # 2)) with 0%Z in L.
  apply Z.leb_le in L. rewrite L. reflexivity.
Qed.

(** A peer that holds its target stock, more, or at most half a unit less
    receives neither a transfer nor a purchase need. *)
Theorem peer_at_target_gets_nothing
    (target_level : string) (product_costs : Z -> Q)
    (stock_levels : list StockLevel)
    (excluded_deposits excluded_brands : list string)
    (p : Z) (deposits : Deposits) (s : StockLevel) :
  In (p, deposits)
    (DistributionService.products_by_id stock_levels excluded_deposits
       excluded_brands) ->
  In s (sucursales_data deposits) ->
  stock_objetivo target_level s <= stock_actual s + (1 # 2) ->
  let r := generate_distribution target_level product_costs stock_levels
             excluded_deposits excluded_brands in
  transfers_to (deposito_nombre s) (transfers_of p (transfers r)) = []
  /\ purchases_for (deposito_nombre s) (purchases_of p (purchase_needs r)) = [].
Proof.
  intros Hin Hs Hle.
  apply (peer_sin_faltante target_level product_costs stock_levels
           excluded_deposits excluded_brands p deposits s Hin Hs).
  apply faltante_int_medio, Hle.
Qed.

Lemma peer_at_target_gets_nothing_witness :
  stock_objetivo "ideal" Casos.peer_C <= stock_actual Casos.peer_C + (1 # 2)
  /\ transfers_to "SUCURSAL C"
       (transfers_of 1
          (transfers (generate_distribution "ideal" Escenario.sin_costos
                        Casos.red_con_C [] []))) = []
  /\ purchases_for "SUCURSAL C"
       (purchases_of 1
          (purchase_needs (generate_distribution "ideal" Escenario.sin_costos
                             Casos.red_con_C [] []))) = [].
Proof.
  split; [discriminate|].
  apply (peer_at_target_gets_nothing "ideal" Escenario.sin_costos
           Casos.red_con_C [] [] 1 (Escenario.depositos Casos.red_con_C)
           Casos.peer_C).
  - left. reflexivity.
  - right. right. left. reflexivity.
  - discriminate.
Defined.

(** * Further properties of peer redistribution *)

Lemma emparejar_topes (pid : Z) (o : StockLevel) (fals : list Faltante) :
  forall r r' fals' ts,
  emparejar pid o r fals = (r', fals', ts) ->
  r <= stock_actual o - stock_ideal o ->
  Forall tope_ok fals ->
  Forall tope_ok fals' /\ Forall (traslado_entre_pares o) ts.
Proof.
  induction fals as [|f fals IH]; simpl; intros r r' fals' ts E Hr Hf.
  - injection E as <- <- <-. split; constructor.
  - inversion Hf as [|? ? Hf1 Hf2]; subst.
    destruct (Qle_bool (faltante f) 0) eqn:E1.
    { destruct (emparejar pid o r fals) as [[d rest'] ts0] eqn:R.
      injection E as <- <- <-.
      destruct (IH _ _ _ _ R Hr Hf2) as [I1 I2].
      split; [constructor|]; assumption. }
    destruct (Qle_bool r 0) eqn:E2.
    { injection E as <- <- <-. split; [assumption | constructor]. }
    destruct (Py.round (Py.min r (faltante f)) <? 1)%Z eqn:E3.
    { destruct (emparejar pid o r fals) as [[d rest'] ts0] eqn:R.
      injection E as <- <- <-.
      destruct (IH _ _ _ _ R Hr Hf2) as [I1 I2].
      split; [constructor|]; assumption. }
    apply Z.ltb_ge in E3.
    set (c := Py.round (Py.min r (faltante f))) in *.
    pose proof (round_upper (Py.min r (faltante f))) as U. fold c in U.
    pose proof (min_le_l r (faltante f)) as M1.
    pose proof (min_le_r r (faltante f)) as M2.
    assert (C1 : inject_Z 1 <= inject_Z c) by (rewrite <- Zle_Qle; exact E3).
    change (inject_Z 1) with 1 in C1.
    destruct Hf1 as [T1 T2].
    destruct (emparejar pid o (r - inject_Z c) fals) as [[d rest'] ts0] eqn:R.
    injection E as <- <- <-.
    assert (Hr' : r - inject_Z c <= stock_actual o - stock_ideal o) by lra.
    destruct (IH _ _ _ _ R Hr' Hf2) as [I1 I2].
    split.
    + constructor; [|exact I1]. split; simpl; [lra | exact T2].
    + constructor; [|exact I2].
      unfold traslado_entre_pares. simpl.
      repeat split; try assumption; try reflexivity; lra.
Qed.

Lemma redistribuir_topes (pid : Z) (excs : list Excedente) :
  forall fals,
  Forall (fun e => excedente_disponible e
                   <= stock_actual (exc_stock_level e)
                      - stock_ideal (exc_stock_level e)) excs ->
  Forall tope_ok fals ->
  Forall (fun t => exists o, In o (map exc_stock_level excs)
                             /\ traslado_entre_pares o t)
    (redistribuir pid excs fals).
Proof.
  induction excs as [|e excs IH]; simpl; intros fals He Hf; [constructor|].
  inversion He as [|? ? He1 He2]; subst.
  assert (W : forall ts0,
             Forall (fun t => exists o, In o (map exc_stock_level excs)
                                        /\ traslado_entre_pares o t) ts0 ->
             Forall (fun t => exists o,
                       (exc_stock_level e = o \/ In o (map exc_stock_level excs))
                       /\ traslado_entre_pares o t) ts0).
  { intros ts0 H. eapply Forall_impl; [|exact H].
    intros t [o [H1 H2]]. exists o. auto. }
  destruct (Qle_bool (excedente_disponible e) 0); [apply W, IH; assumption|].
  destruct (emparejar pid (exc_stock_level e) (excedente_disponible e) fals)
    as [[r' fals'] ts] eqn:R.
  destruct (emparejar_topes _ _ _ _ _ _ _ R He1 Hf) as [J1 J2].
  apply Forall_app. split.
  - eapply Forall_impl; [|exact J2]. intros t H.
    exists (exc_stock_level e). auto.
  - apply W, IH; assumption.
Qed.

(** Every transfer of peer redistribution moves at least one unit out of a
    location that holds more than its maximum, leaves that location at its
    ideal stock or at most half a unit below, goes to a location below its
    ideal stock and lifts it at most half a unit above its target; and the
    run yields no purchase need. *)
Theorem redistribution_transfers_are_sound
    (target_level : string) (stock_levels : list StockLevel)
    (excluded_deposits : list string) :
  let r := generate_excess_redistribution target_level stock_levels
             excluded_deposits in
  purchase_needs r = []
  /\ Forall
       (fun t => exists o,
          In o stock_levels
          /\ Py.str_in (deposito_nombre o) excluded_deposits = false
          /\ stock_maximo o < stock_actual o /\ 0 < stock_maximo o
          /\ traslado_entre_pares o t)
       (transfers r).
Proof.
  unfold generate_excess_redistribution. simpl. split; [reflexivity|].
  unfold Redistribution.products_by_id.
  set (kept := filter _ stock_levels).
  assert (Hkept : Forall
            (fun sl => In sl stock_levels
                       /\ Py.str_in (deposito_nombre sl) excluded_deposits = false)
            kept).
  { apply Forall_forall. intros sl H. apply filter_In in H.
    destruct H as [H1 H2]. apply negb_true_iff in H2. auto. }
  apply Forall_forall. intros t Ht.
  apply in_flat_map in Ht. destruct Ht as [[pid deps] [Hin Ht]].
  unfold redistribuir_producto in Ht.
  assert (He : Forall (fun e => excedente_disponible e
                                <= stock_actual (exc_stock_level e)
                                   - stock_ideal (exc_stock_level e))
                 (excedentes_de deps)).
  { apply Forall_forall. intros e H. apply sort_desc_In in H.
    apply in_flat_map in H. destruct H as [[n sl] [_ H]].
    unfold clasificar_excedente in H.
    destruct (_ && _); [|contradiction].
    destruct (Qle_bool 1 _); [|contradiction].
    destruct H as [<- | []]. simpl. lra. }
  assert (Hf : Forall tope_ok (faltantes_de target_level deps)).
  { apply Forall_forall. intros f H. apply sort_desc_In in H.
    apply in_flat_map in H. destruct H as [[n sl] [_ H]].
    unfold clasificar_faltante in H.
    destruct (Qle_bool 1 _); [|contradiction].
    destruct (Py.Qltb (stock_actual sl) (stock_ideal sl)) eqn:E;
      [|contradiction].
    apply Qltb_true in E. destruct H as [<- | []].
    split; simpl; [lra | exact E]. }
  pose proof (redistribuir_topes pid _ _ He Hf) as H.
  rewrite Forall_forall in H. destruct (H _ Ht) as [o [Ho Htr]].
  exists o. apply in_map_iff in Ho. destruct Ho as [e [<- Ho]].
  apply sort_desc_In in Ho.
  apply in_flat_map in Ho. destruct Ho as [[n sl] [Hsl Ho]].
  unfold clasificar_excedente in Ho.
  destruct (Py.Qltb (stock_maximo sl) (stock_actual sl)) eqn:E1;
    [|contradiction].
  destruct (Py.Qltb 0 (stock_maximo sl)) eqn:E2; [|contradiction].
  simpl in Ho. destruct (Qle_bool 1 _); [|contradiction].
  destruct Ho as [<- | []]. simpl in *.
  apply Qltb_true in E1, E2.
  destruct (group_by_product_Forall _ kept Hkept _ _ _ _ Hin Hsl) as [K1 K2].
  exact (conj K1 (conj K2 (conj E1 (conj E2 Htr)))).
Qed.

(** * Redistribution opportunities *)

Import Opportunities.

Lemma clasificar_In (deposits : Deposits) :
  (forall e, In e (fst (clasificar deposits)) ->
     In (re_deposito e, re_stock_level e) deposits
     /\ stock_maximo (re_stock_level e) < stock_actual (re_stock_level e)
     /\ re_excedente e
        = stock_actual (re_stock_level e) - stock_ideal (re_stock_level e))
  /\ (forall f, In f (snd (clasificar deposits)) ->
        In (rf_deposito f, rf_stock_level f) deposits
        /\ stock_actual (rf_stock_level f) <= stock_maximo (rf_stock_level f)
        /\ stock_actual (rf_stock_level f) < stock_minimo (rf_stock_level f)
        /\ rf_faltante f
           = stock_ideal (rf_stock_level f) - stock_actual (rf_stock_level f)).
Proof.
  induction deposits as [|[n sl] deposits [IHe IHf]]; simpl.
  - split; intros x [].
  - destruct (clasificar deposits) as [es fs]. simpl in *.
    destruct (Py.Qltb (stock_maximo sl) (stock_actual sl)) eqn:E1.
    + apply Qltb_true in E1. split; simpl.
      * intros e [<- | He]; simpl; [auto|].
        destruct (IHe e He) as (H1 & H2). auto.
      * intros f Hf. destruct (IHf f Hf) as (H1 & H2). auto.
    + apply Qltb_false in E1.
      destruct (Py.Qltb (stock_actual sl) (stock_minimo sl)) eqn:E2.
      * apply Qltb_true in E2. split; simpl.
        -- intros e He. destruct (IHe e He) as (H1 & H2). auto.
        -- intros f [<- | Hf]; simpl; [auto|].
           destruct (IHf f Hf) as (H1 & H2). auto.
      * split; simpl.
        -- intros e He. destruct (IHe e He) as (H1 & H2). auto.
        -- intros f Hf. destruct (IHf f Hf) as (H1 & H2). auto.
Qed.

(** Every redistribution opportunity suggests at least one unit, no more
    than the source holds above its ideal stock nor than the destination
    lacks below its ideal stock, from a level above its maximum to a level of
    the same product below its minimum in another deposit. *)
Theorem opportunities_are_sound (stock_levels : list StockLevel) :
  Forall
    (fun o => exists src dst,
       In src stock_levels /\ In dst stock_levels
       /\ product_id src = o_product_id o /\ product_id dst = o_product_id o
       /\ deposito_nombre src = desde o /\ deposito_nombre dst = hacia o
       /\ desde o <> hacia o
       /\ stock_maximo src < stock_actual src
       /\ stock_actual dst < stock_minimo dst
       /\ (1 <= cantidad_sugerida o)%Z
       /\ inject_Z (cantidad_sugerida o) <= stock_actual src - stock_ideal src
       /\ inject_Z (cantidad_sugerida o) <= stock_ideal dst - stock_actual dst)
    (get_redistribution_opportunities stock_levels).
Proof.
  apply Forall_forall. intros o Ho.
  unfold get_redistribution_opportunities in Ho.
  apply in_flat_map in Ho. destruct Ho as [[pid deps] [Hin Ho]].
  pose proof (well_grouped_entry _ _ _
                (group_by_product_well_grouped stock_levels) Hin) as [Hnd Hall].
  rewrite Forall_forall in Hall.
  assert (Hself : Forall (fun sl => In sl stock_levels) stock_levels)
    by (apply Forall_forall; auto).
  unfold oportunidades_producto in Ho.
  destruct (clasificar_In deps) as [He Hf].
  destruct (clasificar deps) as [es fs]. simpl in *.
  assert (Ho' : In o (flat_map (fun exc => flat_map (oportunidad pid exc) fs) es)).
  { destruct es as [|e es]; [contradiction|].
    destruct fs as [|f fs]; [contradiction|]. exact Ho. }
  clear Ho. apply in_flat_map in Ho'. destruct Ho' as [e [Hine Ho]].
  apply in_flat_map in Ho. destruct Ho as [f [Hinf Ho]].
  unfold oportunidad in Ho.
  destruct (Qle_bool 1 (Py.min (re_excedente e) (rf_faltante f))) eqn:E;
    [|contradiction].
  apply Qle_bool_iff in E. destruct Ho as [<- | []]. simpl.
  destruct (He e Hine) as (E1 & E2 & E3).
  destruct (Hf f Hinf) as (F1 & F2 & F3 & F4).
  destruct (Hall _ E1) as [N1 P1]. destruct (Hall _ F1) as [N2 P2].
  simpl in *.
  pose proof (min_le_l (re_excedente e) (rf_faltante f)) as M1.
  pose proof (min_le_r (re_excedente e) (rf_faltante f)) as M2.
  assert (Pos : 0 <= Py.min (re_excedente e) (rf_faltante f)) by lra.
  pose proof (Qfloor_le (Py.min (re_excedente e) (rf_faltante f))) as Fl.
  assert (One : (1 <= Py.int (Py.min (re_excedente e) (rf_faltante f)))%Z).
  { rewrite int_nonneg by exact Pos.
    apply Qfloor_resp_le in E. exact E. }
  rewrite int_nonneg in * by exact Pos.
  rewrite E3, F4 in *.
  exists (re_stock_level e), (rf_stock_level f).
  split; [apply (group_by_product_Forall _ _ Hself _ _ _ _ Hin E1)|].
  split; [apply (group_by_product_Forall _ _ Hself _ _ _ _ Hin F1)|].
  repeat split; try assumption; try lra.
  intro Heq. rewrite Heq in E1.
  pose proof (NoDup_keys_unique String.eqb String.eqb_eq _ _ _ _ Hnd E1 F1)
    as Hsame.
  rewrite Hsame in E2. lra.
Qed.

(** * Further properties of the stock calculator *)

Import StockReports.

Lemma estados_calculados
    (factor_ideal factor_maximo : Q) (sales_period_days : Z)
    (_get_dias_stock : option string -> option string -> option string -> Z)
    (_get_umbral_minimo : option string -> option string -> Z)
    (sales_history : Z * Z -> DemandForecaster.DataFrame)
    (metodo_calculo : string)
    (linear_regression : list (Z * Q) -> LinearModel)
    (products_stock : list ProductStock) :
  Forall
    (fun sl =>
       estado_conocido sl
       /\ (estado sl = "sin_stock" <-> stock_actual sl <= 0)
       /\ (estado sl = "bajo_minimo" ->
           0 < stock_actual sl
           /\ stock_actual sl < demanda_diaria sl * inject_Z (dias_cobertura sl))
       /\ (estado sl = "excedente" ->
           0 < stock_actual sl
           /\ demanda_diaria sl * inject_Z (dias_cobertura sl) <= stock_actual sl
           /\ demanda_diaria sl * inject_Z (dias_cobertura sl) * factor_maximo
              < stock_actual sl))
    (calculate_all_stock_levels factor_ideal factor_maximo sales_period_days
       _get_dias_stock _get_umbral_minimo sales_history metodo_calculo
       linear_regression products_stock).
Proof.
  apply Forall_forall. intros sl Hin. unfold calculate_all_stock_levels in Hin.
  apply in_map_iff in Hin. destruct Hin as [ps [<- _]].
  unfold calcular_nivel.
  set (forecast := DemandForecaster.calculate_demand _ _ _ _ _ _).
  set (dias := _get_dias_stock _ _ _).
  set (umbral := _get_umbral_minimo _ _).
  pose proof (niveles_cases factor_ideal factor_maximo forecast dias umbral) as N.
  destruct (niveles factor_ideal factor_maximo forecast dias umbral)
    as [[minimo ideal] maximo].
  unfold estado_conocido. simpl. unfold determinar_estado.
  destruct N as [(_ & -> & -> & ->) | (_ & Hm & _ & Hmx)].
  - change (Qeq_bool 0 0) with true. cbv iota.
    destruct (Qle_bool (ps_stock_disponible ps) 0) eqn:E.
    + apply Qle_bool_iff in E.
      repeat split; auto; try discriminate.
    + apply Qle_bool_false in E.
      repeat split; auto; try discriminate. intro. lra.
  - subst maximo. rewrite <- Hm.
    destruct (Qeq_bool minimo 0) eqn:E0;
      destruct (Qle_bool (ps_stock_disponible ps) 0) eqn:E1;
      try (apply Qle_bool_iff in E1); try (apply Qle_bool_false in E1);
      try (repeat split; auto; try discriminate; intro; lra).
    destruct (Py.Qltb (ps_stock_disponible ps) minimo) eqn:E2.
    { apply Qltb_true in E2.
      repeat split; auto; try discriminate; intro; lra. }
    apply Qltb_false in E2.
    destruct (Py.Qltb (minimo * factor_maximo) (ps_stock_disponible ps)) eqn:E3.
    { apply Qltb_true in E3.
      repeat split; auto; try discriminate; intro; lra. }
    repeat split; auto; try discriminate; intro; lra.
Qed.

(** The state of every level the calculator produces is one of four:
    "sin_stock" with an available stock of 0 or less; "bajo_minimo" with a
    positive stock below daily demand times days of stock; "excedente" with
    a positive stock that reaches that minimum and exceeds it times the
    maximum factor; or "ok" with a positive stock. *)
Theorem stock_state_characterised
    (factor_ideal factor_maximo : Q) (sales_period_days : Z)
    (_get_dias_stock : option string -> option string -> option string -> Z)
    (_get_umbral_minimo : option string -> option string -> Z)
    (sales_history : Z * Z -> DemandForecaster.DataFrame)
    (metodo_calculo : string)
    (linear_regression : list (Z * Q) -> LinearModel)
    (products_stock : list ProductStock) :
  Forall
    (fun sl =>
       (estado sl = "sin_stock" /\ stock_actual sl <= 0)
       \/ (estado sl = "bajo_minimo"
           /\ 0 < stock_actual sl
           /\ stock_actual sl
              < demanda_diaria sl * inject_Z (dias_cobertura sl))
       \/ (estado sl = "excedente"
           /\ 0 < stock_actual sl
           /\ demanda_diaria sl * inject_Z (dias_cobertura sl)
              <= stock_actual sl
           /\ demanda_diaria sl * inject_Z (dias_cobertura sl) * factor_maximo
              < stock_actual sl)
       \/ (estado sl = "ok" /\ 0 < stock_actual sl))
    (calculate_all_stock_levels factor_ideal factor_maximo sales_period_days
       _get_dias_stock _get_umbral_minimo sales_history metodo_calculo
       linear_regression products_stock).
Proof.
  eapply Forall_impl; [|apply estados_calculados].
  intros sl (Hc & Hs & Hb & He).
  destruct Hc as [E | [E | [E | E]]].
  - right. right. right. split; [exact E|].
    destruct (Qlt_le_dec 0 (stock_actual sl)) as [H | H]; [exact H|].
    apply Hs in H. rewrite E in H. discriminate H.
  - right. left. split; [exact E | apply Hb, E].
  - right. right. left. split; [exact E | apply He, E].
  - left. split; [exact E | apply Hs, E].
Qed.

Lemma contar_bounds (label : string) (l : list StockLevel) :
  (0 <= contar label l <= Z.of_nat (length l))%Z.
Proof.
  unfold contar. pose proof (filter_length_le (fun s => estado s =? label) l).
  lia.
Qed.

Lemma round1_range (x : Q) : 0 <= x -> x <= 100 ->
  0 <= PyMore.round1 x /\ PyMore.round1 x <= 100.
Proof.
  intros H0 H1. unfold PyMore.round1.
  assert (L0 : inject_Z 0 <= x * 10) by (change (inject_Z 0) with 0; lra).
  assert (L1 : x * 10 <= inject_Z 1000) by (change (inject_Z 1000) with 1000; lra).
  apply round_mono in L0, L1. rewrite round_Z in L0, L1.
  rewrite Zle_Qle in L0, L1.
  change (inject_Z 0) with 0 in L0. change (inject_Z 1000) with 1000 in L1.
  set (r := inject_Z (Py.round (x * 10))) in *.
  unfold Qdiv. change (/ 10) with (1 # 10). lra.
Qed.

Lemma porcentaje_range (parte total : Z) :
  (0 <= parte <= total)%Z ->
  0 <= porcentaje parte total /\ porcentaje parte total <= 100.
Proof.
  intros [H0 H1]. unfold porcentaje. apply round1_range.
  - apply Qmult_le_0_compat; [|discriminate].
    apply Qle_shift_div_l.
    + change 0 with (inject_Z 0). rewrite <- Zlt_Qlt.
      pose proof (max1_pos total). lia.
    + rewrite Qmult_0_l. change 0 with (inject_Z 0). rewrite <- Zle_Qle. exact H0.
  - assert (D : inject_Z parte / inject_Z (Py.max1 total) <= 1).
    { apply Qle_shift_div_r.
      - change 0 with (inject_Z 0). rewrite <- Zlt_Qlt.
        pose proof (max1_pos total). lia.
      - rewrite Qmult_1_l. rewrite <- Zle_Qle.
        pose proof (max1_pos total). rewrite max1_as_max. lia. }
    set (d := inject_Z parte / inject_Z (Py.max1 total)) in *. lra.
Qed.

(** In the summary of any list of levels no count is negative or above the
    total, and both percentages lie between 0 and 100, also for the empty
    list. *)
Theorem summary_in_range (stock_levels : list StockLevel) :
  let s := get_summary stock_levels in
  s_total s = Z.of_nat (length stock_levels)
  /\ (0 <= s_bajo_minimo s <= s_total s)%Z
  /\ (0 <= s_sin_stock s <= s_total s)%Z
  /\ (0 <= s_excedente s <= s_total s)%Z
  /\ (0 <= s_ok s <= s_total s)%Z
  /\ 0 <= porcentaje_bajo_minimo s /\ porcentaje_bajo_minimo s <= 100
  /\ 0 <= porcentaje_excedente s /\ porcentaje_excedente s <= 100.
Proof.
  unfold get_summary. simpl.
  pose proof (contar_bounds "bajo_minimo" stock_levels) as B1.
  pose proof (contar_bounds "sin_stock" stock_levels) as B2.
  pose proof (contar_bounds "excedente" stock_levels) as B3.
  pose proof (contar_bounds "ok" stock_levels) as B4.
  destruct (porcentaje_range _ _ B1) as [P1 P2].
  destruct (porcentaje_range _ _ B3) as [P3 P4].
  repeat split; try lia; assumption.
Qed.

Lemma contar_partition (l : list StockLevel) :
  Forall estado_conocido l ->
  (contar "bajo_minimo" l + contar "sin_stock" l
   + contar "excedente" l + contar "ok" l)%Z
  = Z.of_nat (length l).
Proof.
  unfold contar. induction 1 as [|sl l Hsl _ IH]; [reflexivity|].
  cbn [filter length].
  destruct Hsl as [E | [E | [E | E]]]; rewrite E; simpl (_ =? _);
    cbn [length]; lia.
Qed.

(** The summary of the levels the calculator produces accounts for every
    level once: the four counts add up to the number of product-deposit rows
    given to the calculator. *)
Theorem summary_counts_every_level
    (factor_ideal factor_maximo : Q) (sales_period_days : Z)
    (_get_dias_stock : option string -> option string -> option string -> Z)
    (_get_umbral_minimo : option string -> option string -> Z)
    (sales_history : Z * Z -> DemandForecaster.DataFrame)
    (metodo_calculo : string)
    (linear_regression : list (Z * Q) -> LinearModel)
    (products_stock : list ProductStock) :
  let s :=
    get_summary
      (calculate_all_stock_levels factor_ideal factor_maximo sales_period_days
         _get_dias_stock _get_umbral_minimo sales_history metodo_calculo
         linear_regression products_stock) in
  (s_bajo_minimo s + s_sin_stock s + s_excedente s + s_ok s)%Z = s_total s
  /\ s_total s = Z.of_nat (length products_stock).
Proof.
  unfold get_summary. simpl. split.
  - apply contar_partition.
    eapply Forall_impl;
      [|apply (estados_calculados factor_ideal factor_maximo
                 sales_period_days _get_dias_stock _get_umbral_minimo
                 sales_history metodo_calculo linear_regression products_stock)].
    intros sl [H _]. exact H.
  - unfold calculate_all_stock_levels. rewrite length_map. reflexivity.
Qed.

(** ** Top 200 products *)

Lemma dict_get_None {K V : Type} (eqb : K -> K -> bool)
    (eqb_eq : forall a b, eqb a b = true <-> a = b)
    (k : K) (d : list (K * V)) :
  dict_get eqb k d = None -> ~ In k (map fst d).
Proof.
  induction d as [|[k0 v0] d IH]; simpl; [auto|].
  destruct (eqb k k0) eqn:E; [discriminate|].
  intros H [H1 | H1].
  - subst. assert (eqb k k = true) by (apply eqb_eq; reflexivity). congruence.
  - apply (IH H H1).
Qed.

Lemma dict_set_has {K V : Type} (eqb : K -> K -> bool)
    (eqb_eq : forall a b, eqb a b = true <-> a = b)
    (k : K) (v : V) (d : list (K * V)) :
  In (k, v) (dict_set eqb k v d).
Proof.
  induction d as [|[k0 v0] d IH]; simpl; [left; reflexivity|].
  destruct (eqb k k0) eqn:E.
  - apply eqb_eq in E. subst. left. reflexivity.
  - right. exact IH.
Qed.

Lemma Qsum_app (a b : list Q) :
  DemandForecaster.Qsum (a ++ b)
  == DemandForecaster.Qsum a + DemandForecaster.Qsum b.
Proof.
  induction a as [|x a IH]; simpl; [ring|]. rewrite IH. ring.
Qed.

Lemma filter_snoc {A : Type} (f : A -> bool) (l : list A) (x : A) :
  filter f (l ++ [x]) = filter f l ++ (if f x then [x] else []).
Proof.
  rewrite filter_app. simpl. destruct (f x); reflexivity.
Qed.

Lemma totals_insert_inv (pre : list StockLevel)
    (acc : list (Z * ProductTotal)) (sl : StockLevel) :
  NoDup (map fst acc) ->
  (forall x, In x pre -> In (product_id x) (map fst acc)) ->
  (forall p t, In (p, t) acc ->
     registros t = filter (fun x => (product_id x =? p)%Z) pre
     /\ monto_total t == DemandForecaster.Qsum (map monto_90_dias (registros t))
     /\ registros t <> []) ->
  NoDup (map fst (totals_insert acc sl))
  /\ (forall x, In x (pre ++ [sl]) ->
        In (product_id x) (map fst (totals_insert acc sl)))
  /\ (forall p t, In (p, t) (totals_insert acc sl) ->
        registros t = filter (fun x => (product_id x =? p)%Z) (pre ++ [sl])
        /\ monto_total t == DemandForecaster.Qsum (map monto_90_dias (registros t))
        /\ registros t <> []).
Proof.
  intros Hnd Hkeys Hinv. unfold totals_insert.
  set (actual := match dict_get Z.eqb (product_id sl) acc with
                 | Some t => t
                 | None => mkProductTotal 0 []
                 end).
  set (nuevo := mkProductTotal (monto_total actual + monto_90_dias sl)
                  (registros actual ++ [sl])).
  assert (Hnd' : NoDup (map fst (dict_set Z.eqb (product_id sl) nuevo acc)))
    by (apply dict_set_NoDup; [apply Z.eqb_eq | exact Hnd]).
  assert (Hact : registros actual
                 = filter (fun x => (product_id x =? product_id sl)%Z) pre
                 /\ monto_total actual
                    == DemandForecaster.Qsum (map monto_90_dias (registros actual))).
  { unfold actual.
    destruct (dict_get Z.eqb (product_id sl) acc) as [t|] eqn:G.
    - apply dict_get_In in G; [|apply Z.eqb_eq].
      destruct (Hinv _ _ G) as (H1 & H2 & _). auto.
    - apply (dict_get_None Z.eqb Z.eqb_eq) in G. simpl. split; [|reflexivity].
      symmetry. apply filter_none. apply Forall_forall. intros x Hx.
      apply Z.eqb_neq. intro E. apply G. rewrite <- E. apply Hkeys, Hx. }
  destruct Hact as [Hreg Hmonto].
  split; [exact Hnd'|]. split.
  - intros x Hx. rewrite dict_set_keys by apply Z.eqb_eq.
    apply in_app_or in Hx. destruct Hx as [Hx | [<- | []]]; auto.
  - intros p t Hin.
    destruct (Z.eq_dec p (product_id sl)) as [-> | Hne].
    + pose proof (dict_set_has Z.eqb Z.eqb_eq (product_id sl) nuevo acc) as Hn.
      rewrite (NoDup_keys_unique Z.eqb Z.eqb_eq _ _ _ _ Hnd' Hin Hn).
      unfold nuevo. simpl. rewrite filter_snoc, Z.eqb_refl, <- Hreg.
      split; [reflexivity|]. split.
      * rewrite map_app, Qsum_app, Hmonto. simpl. ring.
      * destruct (registros actual); discriminate.
    + apply (dict_set_In Z.eqb Z.eqb_eq) in Hin.
      destruct Hin as [[= -> _] | Hin]; [congruence|].
      destruct (Hinv _ _ Hin) as (H1 & H2 & H3).
      rewrite filter_snoc.
      assert (E : (product_id sl =? p)%Z = false)
        by (apply Z.eqb_neq; congruence).
      rewrite E, app_nil_r. auto.
Qed.

Lemma product_totals_inv (l pre : list StockLevel)
    (acc : list (Z * ProductTotal)) :
  NoDup (map fst acc) ->
  (forall x, In x pre -> In (product_id x) (map fst acc)) ->
  (forall p t, In (p, t) acc ->
     registros t = filter (fun x => (product_id x =? p)%Z) pre
     /\ monto_total t == DemandForecaster.Qsum (map monto_90_dias (registros t))
     /\ registros t <> []) ->
  let final := fold_left totals_insert l acc in
  NoDup (map fst final)
  /\ (forall x, In x (pre ++ l) -> In (product_id x) (map fst final))
  /\ (forall p t, In (p, t) final ->
        registros t = filter (fun x => (product_id x =? p)%Z) (pre ++ l)
        /\ monto_total t == DemandForecaster.Qsum (map monto_90_dias (registros t))
        /\ registros t <> []).
Proof.
  revert pre acc. induction l as [|sl l IH]; simpl; intros pre acc H1 H2 H3.
  - rewrite app_nil_r. auto.
  - destruct (totals_insert_inv pre acc sl H1 H2 H3) as (J1 & J2 & J3).
    specialize (IH (pre ++ [sl]) _ J1 J2 J3).
    rewrite <- app_assoc in IH. exact IH.
Qed.

Lemma product_totals_spec (stock_levels : list StockLevel) :
  NoDup (map fst (product_totals stock_levels))
  /\ Forall
       (fun sl => In (product_id sl) (map fst (product_totals stock_levels)))
       stock_levels
  /\ Forall
       (fun e =>
          registros (snd e)
          = filter (fun x => (product_id x =? fst e)%Z) stock_levels
          /\ registros (snd e) <> []
          /\ monto_total (snd e) == monto_producto stock_levels (fst e))
       (product_totals stock_levels).
Proof.
  destruct (product_totals_inv stock_levels [] []) as (H1 & H2 & H3);
    try (intros; contradiction); [constructor|].
  simpl in *. fold (product_totals stock_levels) in *.
  split; [exact H1|]. split; [apply Forall_forall; exact H2|].
  apply Forall_forall. intros [p t] Hin. simpl.
  destruct (H3 _ _ Hin) as (R1 & R2 & R3).
  split; [exact R1|]. split; [exact R3|].
  unfold monto_producto. rewrite <- R1. exact R2.
Qed.

(** The per-product totals behind the top 200: one entry per product of the
    list, holding that product's levels in their order and the sum of their
    90-day sales amounts. *)
Theorem product_totals_are_sums (stock_levels : list StockLevel) :
  NoDup (map fst (product_totals stock_levels))
  /\ Forall
       (fun sl => In (product_id sl) (map fst (product_totals stock_levels)))
       stock_levels
  /\ Forall
       (fun e =>
          registros (snd e)
          = filter (fun x => (product_id x =? fst e)%Z) stock_levels
          /\ registros (snd e) <> []
          /\ monto_total (snd e) == monto_producto stock_levels (fst e))
       (product_totals stock_levels).
Proof. apply product_totals_spec. Qed.

Lemma insert_desc_sorted {A : Type} (key : A -> Q) (x : A) (l : list A) :
  StronglySorted (fun a b => key b <= key a) l ->
  StronglySorted (fun a b => key b <= key a)
    (Redistribution.insert_desc key x l).
Proof.
  induction 1 as [|y l Hs IH Hy]; simpl.
  - constructor; constructor.
  - destruct (Py.Qltb (key x) (key y)) eqn:E.
    + constructor; [exact IH|].
      apply Forall_forall. intros z Hz.
      apply (Permutation_in _ (insert_desc_perm key x l)) in Hz.
      destruct Hz as [<- | Hz].
      * apply Qltb_true in E. lra.
      * rewrite Forall_forall in Hy. apply Hy, Hz.
    + apply Qltb_false in E.
      constructor; [constructor; assumption|].
      constructor; [exact E|].
      apply Forall_forall. intros z Hz.
      rewrite Forall_forall in Hy. specialize (Hy z Hz). lra.
Qed.

Lemma sort_desc_sorted {A : Type} (key : A -> Q) (l : list A) :
  StronglySorted (fun a b => key b <= key a) (Redistribution.sort_desc key l).
Proof.
  induction l as [|x l IH]; simpl; [constructor|].
  apply insert_desc_sorted, IH.
Qed.

Lemma sorted_split {A : Type} (R : A -> A -> Prop) (a b : list A) :
  StronglySorted R (a ++ b) ->
  forall x y, In x a -> In y b -> R x y.
Proof.
  induction a as [|z a IH]; simpl; intros H x y Hx Hy; [contradiction|].
  inversion H as [|? ? Hs Hall]; subst.
  destruct Hx as [<- | Hx].
  - rewrite Forall_forall in Hall. apply Hall, in_or_app. right. exact Hy.
  - apply (IH Hs x y Hx Hy).
Qed.

Lemma existsb_eqb_In (x : Z) (l : list Z) :
  existsb (Z.eqb x) l = true <-> In x l.
Proof.
  rewrite existsb_exists. split.
  - intros (y & Hy & E). apply Z.eqb_eq in E. subst. exact Hy.
  - intro H. exists x. split; [exact H | apply Z.eqb_refl].
Qed.

Lemma top_ranking (stock_levels : list StockLevel) (p q : Z) :
  In p (map fst (product_totals stock_levels)) ->
  In q (map fst (product_totals stock_levels)) ->
  In p (top_200_ids stock_levels) ->
  ~ In q (top_200_ids stock_levels) ->
  monto_producto stock_levels q <= monto_producto stock_levels p.
Proof.
  intros Hp Hq Hin Hout.
  destruct (product_totals_spec stock_levels) as (Hnd & _ & Hsum).
  rewrite Forall_forall in Hsum.
  set (s := Redistribution.sort_desc (fun x => monto_total (snd x))
              (product_totals stock_levels)).
  assert (Hsorted : StronglySorted
            (fun a b : Z * ProductTotal =>
               monto_total (snd b) <= monto_total (snd a))
            (firstn 200 s ++ skipn 200 s))
    by (rewrite firstn_skipn; apply sort_desc_sorted).
  unfold top_200_ids, sorted_products in Hin, Hout. fold s in Hin, Hout.
  apply in_map_iff in Hin. destruct Hin as ([p' tp] & Ep & Hin).
  simpl in Ep. subst p'.
  apply in_map_iff in Hq. destruct Hq as ([q' tq] & Eq & Hq).
  simpl in Eq. subst q'.
  assert (Hq' : In (q, tq) (skipn 200 s)).
  { assert (Hs : In (q, tq) (firstn 200 s ++ skipn 200 s))
      by (rewrite firstn_skipn; apply sort_desc_In; exact Hq).
    apply in_app_or in Hs. destruct Hs as [Hs | Hs]; [|exact Hs].
    exfalso. apply Hout. apply in_map_iff. exists (q, tq). auto. }
  pose proof (sorted_split _ _ _ Hsorted _ _ Hin Hq') as Hle. simpl in Hle.
  assert (Hp' : In (p, tp) (product_totals stock_levels)).
  { apply (sort_desc_In (fun x => monto_total (snd x))).
    fold s. rewrite <- (firstn_skipn 200 s). apply in_or_app. left. exact Hin. }
  destruct (Hsum _ Hp') as (_ & _ & E1).
  destruct (Hsum _ Hq) as (_ & _ & E2).
  simpl in E1, E2. rewrite <- E1, <- E2. exact Hle.
Qed.

(** The ranking behind the top 200 holds at most 200 products, none of them
    twice, all of them products of the list; and it keeps the best sellers:
    a product left out of it never sold for more, over 90 days and all
    locations, than a product kept in it. *)
Theorem top_200_are_best_sellers (stock_levels : list StockLevel) :
  (length (top_200_ids stock_levels) <= 200)%nat
  /\ NoDup (top_200_ids stock_levels)
  /\ incl (top_200_ids stock_levels) (map product_id stock_levels)
  /\ forall dentro fuera : StockLevel,
       In dentro stock_levels ->
       In fuera stock_levels ->
       existsb (Z.eqb (product_id dentro)) (top_200_ids stock_levels) = true ->
       existsb (Z.eqb (product_id fuera)) (top_200_ids stock_levels) = false ->
       monto_producto stock_levels (product_id fuera)
       <= monto_producto stock_levels (product_id dentro).
Proof.
  destruct (product_totals_spec stock_levels) as (Hnd & Hkeys & Hsum).
  rewrite Forall_forall in Hkeys, Hsum.
  set (s := Redistribution.sort_desc (fun x => monto_total (snd x))
              (product_totals stock_levels)).
  split; [|split; [|split]].
  - unfold top_200_ids, sorted_products. rewrite length_map.
    apply firstn_le_length.
  - unfold top_200_ids, sorted_products. fold s.
    assert (Hs : NoDup (map fst s)).
    { apply (Permutation_NoDup
               (l := map fst (product_totals stock_levels))); [|exact Hnd].
      apply Permutation_map. symmetry. apply sort_desc_perm. }
    rewrite <- (firstn_skipn 200 s), map_app in Hs.
    apply NoDup_app_remove_r in Hs. exact Hs.
  - intros p Hp. unfold top_200_ids, sorted_products in Hp. fold s in Hp.
    apply in_map_iff in Hp. destruct Hp as ([p' t] & E & Hp).
    simpl in E. subst p'.
    assert (Hp' : In (p, t) (product_totals stock_levels)).
    { apply (sort_desc_In (fun x => monto_total (snd x))).
      fold s. rewrite <- (firstn_skipn 200 s). apply in_or_app. left.
      exact Hp. }
    destruct (Hsum _ Hp') as (R1 & R3 & _). simpl in R1, R3.
    destruct (registros t) as [|x r] eqn:Er; [congruence|].
    assert (Hx : In x (filter (fun x => (product_id x =? p)%Z) stock_levels))
      by (rewrite <- R1; left; reflexivity).
    apply filter_In in Hx. destruct Hx as [Hx E]. apply Z.eqb_eq in E.
    apply in_map_iff. exists x. split; assumption.
  - intros dentro fuera Hd Hf Hin Hout.
    apply top_ranking; auto.
    + apply existsb_eqb_In, Hin.
    + intro H. apply existsb_eqb_In in H. congruence.
Qed.

Lemma top_200_are_best_sellers_witness :
  length (top_200_ids Casos.muchos_productos) = 200%nat
  /\ existsb (Z.eqb (product_id (Casos.con_monto 201)))
       (top_200_ids Casos.muchos_productos) = true
  /\ existsb (Z.eqb (product_id (Casos.con_monto 1)))
       (top_200_ids Casos.muchos_productos) = false
  /\ monto_producto Casos.muchos_productos (product_id (Casos.con_monto 1))
     <= monto_producto Casos.muchos_productos
          (product_id (Casos.con_monto 201)).
Proof.
  split; [vm_compute; reflexivity|].
  split; [vm_compute; reflexivity|].
  split; [vm_compute; reflexivity|].
  destruct (top_200_are_best_sellers Casos.muchos_productos)
    as (_ & _ & _ & Hrank).
  apply (Hrank (Casos.con_monto 201) (Casos.con_monto 1)).
  - apply in_map, in_seq. lia.
  - apply in_map, in_seq. lia.
  - vm_compute. reflexivity.
  - vm_compute. reflexivity.
Defined.

Lemma product_totals_keys (stock_levels : list StockLevel) (p : Z) :
  In p (map fst (product_totals stock_levels))
  <-> In p (map product_id stock_levels).
Proof.
  destruct (product_totals_spec stock_levels) as (_ & Hkeys & Hsum).
  rewrite Forall_forall in Hkeys, Hsum. split.
  - intro Hp. apply in_map_iff in Hp. destruct Hp as ([p' t] & E & Hp).
    simpl in E. subst p'.
    destruct (Hsum _ Hp) as (R1 & R3 & _). simpl in R1, R3.
    destruct (registros t) as [|x r] eqn:Er; [congruence|].
    assert (Hx : In x (filter (fun x => (product_id x =? p)%Z) stock_levels))
      by (rewrite <- R1; left; reflexivity).
    apply filter_In in Hx. destruct Hx as [Hx E]. apply Z.eqb_eq in E.
    apply in_map_iff. exists x. split; assumption.
  - intro Hp. apply in_map_iff in Hp. destruct Hp as (x & <- & Hx).
    apply Hkeys, Hx.
Qed.

Lemma product_totals_length (stock_levels : list StockLevel) :
  length (product_totals stock_levels) = length (productos stock_levels).
Proof.
  rewrite <- (length_map fst). apply Permutation_length.
  apply NoDup_Permutation.
  - apply product_totals_spec.
  - apply NoDup_nodup.
  - intro p. unfold productos. rewrite nodup_In. apply product_totals_keys.
Qed.

(** With at most 200 distinct products the ranking keeps every product:
    the report is then every level that is below its minimum or out of
    stock and has a positive minimum, in the order of the input. *)
Theorem few_products_all_ranked (stock_levels : list StockLevel) :
  (length (productos stock_levels) <= 200)%nat ->
  get_top_200_products stock_levels
  = filter (fun sl => bajo_o_sin_stock sl && Py.Qltb 0 (stock_minimo sl))
      stock_levels.
Proof.
  intro Hlen. unfold get_top_200_products. apply filter_ext_in.
  intros sl Hsl.
  assert (E : existsb (Z.eqb (product_id sl)) (top_200_ids stock_levels)
              = true).
  { apply existsb_eqb_In. unfold top_200_ids, sorted_products.
    rewrite firstn_all2.
    - apply (Permutation_in (l := map fst (product_totals stock_levels))).
      + apply Permutation_map. symmetry. apply sort_desc_perm.
      + apply product_totals_keys, in_map, Hsl.
    - rewrite (Permutation_length (sort_desc_perm _ _)).
      rewrite product_totals_length. exact Hlen. }
  rewrite E. reflexivity.
Qed.

Lemma few_products_all_ranked_witness :
  get_top_200_products Casos.pocos_productos = Casos.pocos_productos
  /\ get_top_200_products Casos.pocos_productos
     = filter (fun sl => bajo_o_sin_stock sl && Py.Qltb 0 (stock_minimo sl))
         Casos.pocos_productos.
Proof.
  split; [vm_compute; reflexivity|].
  apply (few_products_all_ranked Casos.pocos_productos).
  vm_compute. lia.
Defined.

(** * Purchase summary *)

Import PurchaseService.









(** * Extended and immobilised stock summaries *)

Lemma set_add_spec (x : Z) (s : list Z) :
  NoDup s ->
  NoDup (set_add x s) /\ (forall y, In y (set_add x s) <-> y = x \/ In y s).
Proof.
  intro Hnd. unfold set_add.
  destruct (existsb (Z.eqb x) s) eqn:E.
  - apply existsb_eqb_In in E. split; [exact Hnd|].
    intro y. split; [auto|]. intros [-> | H]; assumption.
  - assert (Hx : ~ In x s)
      by (intro H; apply existsb_eqb_In in H; congruence).
    split.
    + apply NoDup_app; [exact Hnd | repeat constructor; intros [] |].
      intros a Ha [<- | []]. contradiction.
    + intro y. rewrite in_app_iff. simpl. intuition congruence.
Qed.

Lemma set_fold_spec (f : StockLevel -> bool) (l : list StockLevel)
    (acc : list Z) :
  NoDup acc ->
  let r :=
    fold_left
      (fun s sl => if f sl then set_add (product_id sl) s else s) l acc in
  NoDup r
  /\ (forall x, In x r <-> In x acc \/ In x (map product_id (filter f l))).
Proof.
  revert acc. induction l as [|sl l IH]; intros acc Hnd; cbv zeta; simpl.
  - split; [exact Hnd|]. tauto.
  - destruct (f sl) eqn:E.
    + destruct (set_add_spec (product_id sl) acc Hnd) as [N1 N2].
      destruct (IH _ N1) as [I1 I2]. split; [exact I1|].
      intro x. rewrite I2, N2. simpl. intuition congruence.
    + destruct (IH _ Hnd) as [I1 I2]. split; [exact I1|]. exact I2.
Qed.

Lemma set_fold_all (l : list StockLevel) (acc : list Z) :
  NoDup acc ->
  let r := fold_left (fun s sl => set_add (product_id sl) s) l acc in
  NoDup r /\ (forall x, In x r <-> In x acc \/ In x (map product_id l)).
Proof.
  revert acc. induction l as [|sl l IH]; intros acc Hnd; cbv zeta; simpl.
  - split; [exact Hnd|]. tauto.
  - destruct (set_add_spec (product_id sl) acc Hnd) as [N1 N2].
    destruct (IH _ N1) as [I1 I2]. split; [exact I1|].
    intro x. rewrite I2, N2. simpl. intuition congruence.
Qed.

Lemma valor_paso_nonneg (product_costs : Z -> Q) (l : list StockLevel)
    (v : Q) :
  0 <= v -> 0 <= fold_left (valor_paso product_costs) l v.
Proof.
  revert v. induction l as [|sl l IH]; intros v Hv; simpl; [exact Hv|].
  apply IH. unfold valor_paso.
  destruct (Py.Qltb 0 (product_costs (product_id sl))) eqn:E1;
    [|exact Hv].
  destruct (Py.Qltb 0 (stock_real sl)) eqn:E2; [|exact Hv]. simpl.
  apply Qltb_true in E1. apply Qltb_true in E2. nra.
Qed.

Lemma top_200_ids_facts (stock_levels : list StockLevel) :
  (length (top_200_ids stock_levels) <= 200)%nat.
Proof.
  unfold top_200_ids, sorted_products. rewrite length_map.
  apply firstn_le_length.
Qed.

(** The extended summary is coherent: the products of the top-200 report
    are among the products below their minimum or out of stock, these among
    all products, the first are at most 200, the product count is the number
    of distinct product ids, and the stock value is never negative. *)
Theorem extended_summary_is_coherent (product_costs : Z -> Q)
    (stock_levels : list StockLevel) :
  let r := get_extended_summary product_costs stock_levels in
  (0 <= skus_top_bajo_minimo r)%Z
  /\ (skus_top_bajo_minimo r <= skus_bajo_minimo r)%Z
  /\ (skus_bajo_minimo r <= skus_total r)%Z
  /\ (skus_top_bajo_minimo r <= 200)%Z
  /\ skus_total r = Z.of_nat (length (productos stock_levels))
  /\ 0 <= valor_stock_total r.
Proof.
  cbv zeta. unfold get_extended_summary.
  cbn [skus_top_bajo_minimo skus_bajo_minimo skus_total valor_stock_total].
  destruct (set_fold_all stock_levels [] (NoDup_nil _)) as [A1 A2].
  destruct (set_fold_spec bajo_o_sin_stock stock_levels [] (NoDup_nil _))
    as [B1 B2].
  destruct (set_fold_all (get_top_200_products stock_levels) []
              (NoDup_nil _)) as [C1 C2].
  cbv zeta in *.
  set (vistos := fold_left (fun s sl => set_add (product_id sl) s)
                   stock_levels []) in *.
  set (bajo := fold_left
                 (fun s sl => if bajo_o_sin_stock sl
                              then set_add (product_id sl) s else s)
                 stock_levels []) in *.
  set (top := fold_left (fun s sl => set_add (product_id sl) s)
                (get_top_200_products stock_levels) []) in *.
  assert (Htop : forall x, In x top ->
            In x (top_200_ids stock_levels)
            /\ In x (map product_id (filter bajo_o_sin_stock stock_levels))).
  { intros x Hx. apply C2 in Hx. destruct Hx as [[] | Hx].
    apply in_map_iff in Hx. destruct Hx as (sl & <- & Hsl).
    unfold get_top_200_products in Hsl. apply filter_In in Hsl.
    destruct Hsl as [Hsl Hc].
    apply andb_prop in Hc. destruct Hc as [Hc _].
    apply andb_prop in Hc. destruct Hc as [Hc1 Hc2].
    split; [apply existsb_eqb_In, Hc1|].
    apply in_map, filter_In. split; assumption. }
  split; [lia|].
  split.
  { apply Nat2Z.inj_le, NoDup_incl_length; [exact C1|].
    intros x Hx. apply B2. right. apply Htop, Hx. }
  split.
  { apply Nat2Z.inj_le, NoDup_incl_length; [exact B1|].
    intros x Hx. apply A2. right. apply B2 in Hx. destruct Hx as [[] | Hx].
    apply in_map_iff in Hx. destruct Hx as (sl & <- & Hsl).
    apply filter_In in Hsl. apply in_map, Hsl. }
  split.
  { pose proof (top_200_ids_facts stock_levels) as L.
    assert (length top <= length (top_200_ids stock_levels))%nat
      by (apply NoDup_incl_length; [exact C1 | intros x Hx; apply Htop, Hx]).
    lia. }
  split.
  { f_equal. apply Permutation_length, NoDup_Permutation;
      [exact A1 | apply NoDup_nodup |].
    intro x. unfold productos. rewrite nodup_In, A2. simpl. tauto. }
  apply (Qle_trans _ (Py.round2 0)); [rewrite round2_zero; lra|].
  apply round2_mono, valor_paso_nonneg. lra.
Qed.

Lemma inmovilizado_paso_inv (product_costs : Z -> Q) (sl : StockLevel)
    (n : Z) (u v : Q) :
  (forall pid, 0 <= product_costs pid) ->
  let '(n', u', v') := inmovilizado_paso product_costs (n, u, v) sl in
  (n <= n')%Z /\ (n' <= n + contar "excedente" [sl])%Z /\ u <= u' /\ v <= v'.
Proof.
  intro Hc. unfold inmovilizado_paso, contar. simpl filter.
  destruct (estado sl =? "excedente")%string; simpl andb.
  - destruct (Py.Qltb 0 (stock_maximo sl)).
    + destruct (Py.Qltb 0 (stock_actual sl - stock_maximo sl)) eqn:E2.
      * apply Qltb_true in E2. specialize (Hc (product_id sl)).
        simpl. repeat split; try lia; nra.
      * simpl. repeat split; try lia; lra.
    + simpl. repeat split; try lia; lra.
  - simpl. repeat split; try lia; lra.
Qed.

Lemma contar_cons (label : string) (sl : StockLevel) (l : list StockLevel) :
  contar label (sl :: l) = (contar label [sl] + contar label l)%Z.
Proof.
  unfold contar. cbn [filter].
  destruct (estado sl =? label)%string; cbn [length]; lia.
Qed.

Lemma inmovilizado_inv (product_costs : Z -> Q) (l : list StockLevel)
    (n : Z) (u v : Q) :
  (forall pid, 0 <= product_costs pid) ->
  let '(n', u', v') :=
    fold_left (inmovilizado_paso product_costs) l (n, u, v) in
  (n <= n')%Z /\ (n' <= n + contar "excedente" l)%Z /\ u <= u' /\ v <= v'.
Proof.
  intro Hc. revert n u v.
  induction l as [|sl l IH]; intros n u v.
  - simpl. unfold contar. simpl. repeat split; try lia; lra.
  - cbn [fold_left]. rewrite contar_cons.
    pose proof (inmovilizado_paso_inv product_costs sl n u v Hc) as Hs.
    destruct (inmovilizado_paso product_costs (n, u, v) sl) as [[n1 u1] v1].
    specialize (IH n1 u1 v1).
    destruct (fold_left _ l _) as [[n' u'] v'].
    destruct Hs as (S1 & S2 & S3 & S4). destruct IH as (I1 & I2 & I3 & I4).
    repeat split; try lia; lra.
Qed.

(** The immobilised-stock summary never counts more levels than the stock
    summary reports in surplus, and with no negative unit cost its units
    and its value are never negative. *)
Theorem immobilized_summary_bounded (product_costs : Z -> Q)
    (stock_levels : list StockLevel) :
  (forall pid, 0 <= product_costs pid) ->
  let r := get_immobilized_stock_summary product_costs stock_levels in
  (0 <= im_total_productos r)%Z
  /\ (im_total_productos r <= s_excedente (get_summary stock_levels))%Z
  /\ (0 <= im_total_unidades r)%Z
  /\ 0 <= im_valor_total r.
Proof.
  intro Hc. cbv zeta. unfold get_immobilized_stock_summary.
  pose proof (inmovilizado_inv product_costs stock_levels 0 0 0 Hc) as H.
  destruct (fold_left _ stock_levels _) as [[n u] v].
  destruct H as (H1 & H2 & H3 & H4). simpl.
  split; [exact H1|]. split; [lia|]. split.
  - rewrite int_Z. rewrite <- (round_Z 0). apply round_mono. exact H3.
  - apply (Qle_trans _ (Py.round2 0)); [rewrite round2_zero; lra|].
    apply round2_mono. exact H4.
Qed.

Lemma immobilized_summary_bounded_witness :
  let r :=
    get_immobilized_stock_summary Casos.costo_diez Casos.red_inmovilizada in
  s_excedente (get_summary Casos.red_inmovilizada) = 2%Z
  /\ im_total_productos r = 1%Z
  /\ im_total_unidades r = 10%Z
  /\ im_valor_total r == 100
  /\ (0 <= im_total_productos r)%Z
  /\ (im_total_productos r
      <= s_excedente (get_summary Casos.red_inmovilizada))%Z
  /\ (0 <= im_total_unidades r)%Z
  /\ 0 <= im_valor_total r.
Proof.
  cbv zeta.
  split; [vm_compute; reflexivity|].
  split; [vm_compute; reflexivity|].
  split; [vm_compute; reflexivity|].
  split; [vm_compute; reflexivity|].
  apply (immobilized_summary_bounded Casos.costo_diez Casos.red_inmovilizada).
  intro pid. unfold Casos.costo_diez. lra.
Defined.

(** * Further properties of the demand forecaster *)

Lemma ml_tendencia_rango (linear_regression : list (Z * Q) -> LinearModel)
    (df : DataFrame) (fecha_fin : Z) :
  let '(_, tend, conf) := _ml_tendencia linear_regression df fecha_fin in
  (tend = "creciente" \/ tend = "decreciente" \/ tend = "estable")
  /\ 3 # 10 <= conf /\ conf <= 95 # 100.
Proof.
  unfold _ml_tendencia.
  destruct (Z.of_nat (length (groupby_sum df)) <? min_days_for_ml)%Z.
  - split; [auto|]. split; lra.
  - split.
    + repeat match goal with
             | |- context [if ?b then _ else _] => destruct b
             end; auto.
    + unfold Py.max, Py.min.
      destruct (Py.Qltb (score _) (95 # 100)) eqn:E1;
        match goal with
        | |- context [Py.Qltb (3 # 10) ?x] =>
            destruct (Py.Qltb (3 # 10) x) eqn:E2
        end;
        try apply Qltb_true in E1; try apply Qltb_true in E2;
        try apply Qltb_false in E1; try apply Qltb_false in E2;
        split; lra.
Qed.

(** Every forecast is within range: the daily demand is never negative,
    the confidence lies between 0 and 0.95, the trend is one of the three
    labels and the method one of the six; the regression estimate is only
    used alone with a confidence above 0.6 and a trend that is not flat. *)
Theorem forecast_in_range (metodo_preferido : string)
    (linear_regression : list (Z * Q) -> LinearModel)
    (sales_history : DataFrame) (pid did days_back : Z) :
  let r := calculate_demand metodo_preferido linear_regression sales_history
             pid did days_back in
  0 <= f_demanda_diaria r
  /\ 0 <= confianza r /\ confianza r <= 95 # 100
  /\ (f_tendencia r = "creciente" \/ f_tendencia r = "decreciente"
      \/ f_tendencia r = "estable")
  /\ (metodo_usado r = "sin_datos" \/ metodo_usado r = "promedio_simple"
      \/ metodo_usado r = "mediana" \/ metodo_usado r = "promedio_movil"
      \/ metodo_usado r = "ml_tendencia" \/ metodo_usado r = "combinado")
  /\ (metodo_usado r <> "ml_tendencia"
      \/ (6 # 10 < confianza r /\ f_tendencia r <> "estable"))
  /\ f_product_id r = pid /\ f_deposit_id r = did.
Proof.
  cbv zeta. unfold calculate_demand.
  assert (Hsin : let r := sin_datos pid did in
            0 <= f_demanda_diaria r
            /\ 0 <= confianza r /\ confianza r <= 95 # 100
            /\ (f_tendencia r = "creciente" \/ f_tendencia r = "decreciente"
                \/ f_tendencia r = "estable")
            /\ (metodo_usado r = "sin_datos"
                \/ metodo_usado r = "promedio_simple"
                \/ metodo_usado r = "mediana"
                \/ metodo_usado r = "promedio_movil"
                \/ metodo_usado r = "ml_tendencia"
                \/ metodo_usado r = "combinado")
            /\ (metodo_usado r <> "ml_tendencia"
                \/ (6 # 10 < confianza r /\ f_tendencia r <> "estable"))
            /\ f_product_id r = pid /\ f_deposit_id r = did).
  { simpl. repeat split; try lra; auto. left. discriminate. }
  destruct sales_history as [|r0 df0]; [exact Hsin|].
  destruct (desde_fecha _ _) as [|v vs]; [exact Hsin|]. clear Hsin.
  match goal with
  | |- context [_ml_tendencia ?lr ?d ?f] =>
      pose proof (ml_tendencia_rango lr d f) as Hml;
      destruct (_ml_tendencia lr d f) as [[dml tend] cml]
  end.
  destruct Hml as (Ht & Hc1 & Hc2).
  unfold _seleccionar_mejor_metodo.
  destruct (metodo_preferido =? "promedio_simple")%string;
    [simpl; repeat split; try apply max_nonneg; try lra; auto 10;
     left; discriminate|].
  destruct (metodo_preferido =? "mediana")%string;
    [simpl; repeat split; try apply max_nonneg; try lra; auto 10;
     left; discriminate|].
  match goal with
  | |- context [(?a <? min_days_for_movil)%Z] =>
      destruct (a <? min_days_for_movil)%Z;
        [simpl; repeat split; try apply max_nonneg; try lra; auto 10;
         left; discriminate|];
      destruct (a <? min_days_for_ml)%Z;
        [simpl; repeat split; try apply max_nonneg; try lra; auto 10;
         left; discriminate|]
  end.
  destruct (Py.Qltb (6 # 10) cml) eqn:E1; simpl andb.
  - destruct (tend =? "estable")%string eqn:E2; simpl negb; cbv iota.
    + simpl. repeat split; try apply max_nonneg; try lra; auto 10.
      left. discriminate.
    + simpl. apply Qltb_true in E1. apply String.eqb_neq in E2.
      repeat split; try apply max_nonneg; try lra; auto 10.
  - simpl. repeat split; try apply max_nonneg; try lra; auto 10.
    left. discriminate.
Qed.

Lemma Qsum_nonneg (l : list Q) : Forall (fun q => 0 <= q) l -> 0 <= Qsum l.
Proof.
  induction 1 as [|q l Hq _ IH]; simpl; lra.
Qed.

Lemma Qsum_filter_le {A : Type} (c : A -> Q) (f g : A -> bool) (l : list A) :
  Forall (fun x => 0 <= c x) l ->
  (forall x, f x = true -> g x = true) ->
  0 <= Qsum (map c (filter f l))
  /\ Qsum (map c (filter f l)) <= Qsum (map c (filter g l))
  /\ Qsum (map c (filter g l)) <= Qsum (map c l).
Proof.
  intros Hl Hfg. induction Hl as [|x l Hx _ IH]; simpl; [lra|].
  destruct IH as (I1 & I2 & I3).
  destruct (f x) eqn:Ef.
  - rewrite (Hfg x Ef). simpl. lra.
  - destruct (g x); simpl; lra.
Qed.

Lemma desde_fecha_incl (a b : Z) (r : Venta) :
  (b <= a)%Z -> (a <=? fecha r)%Z = true -> (b <=? fecha r)%Z = true.
Proof.
  intros Hab H. apply Z.leb_le in H. apply Z.leb_le. lia.
Qed.

(** With no negative quantity in the sales history the sales of the
    forecast grow with the window: those of the last 30 days are at most
    those of the last 60, these at most those of the last 90, and these at
    most those of the whole period; none is negative. *)
Theorem window_sales_are_nested (metodo_preferido : string)
    (linear_regression : list (Z * Q) -> LinearModel)
    (sales_history : DataFrame) (pid did days_back : Z) :
  Forall (fun v => 0 <= cantidad v) sales_history ->
  let r := calculate_demand metodo_preferido linear_regression sales_history
             pid did days_back in
  0 <= f_ventas_30_dias r
  /\ f_ventas_30_dias r <= f_ventas_60_dias r
  /\ f_ventas_60_dias r <= f_ventas_90_dias r
  /\ f_ventas_90_dias r <= f_ventas_365_dias r.
Proof.
  intro Hq. cbv zeta. unfold calculate_demand.
  destruct sales_history as [|r0 df0]; [simpl; repeat split; lra|].
  set (hist := r0 :: df0) in *.
  set (fin := fecha_max (sort_values hist)).
  assert (Hdf : Forall (fun v => 0 <= cantidad v)
                  (desde_fecha (fin - days_back) (sort_values hist))).
  { apply Forall_forall. intros v Hv. unfold desde_fecha in Hv.
    apply filter_In in Hv. destruct Hv as [Hv _].
    apply (Permutation_in _ (sort_values_perm hist)) in Hv.
    rewrite Forall_forall in Hq. apply Hq, Hv. }
  destruct (desde_fecha (fin - days_back) (sort_values hist)) as [|v vs];
    [simpl; repeat split; lra|].
  set (df := v :: vs) in *.
  destruct (_ml_tendencia _ _ _) as [[dml tend] cml].
  destruct (_seleccionar_mejor_metodo _ _ _ _ _ _ _ _) as [[dem met] conf].
  cbn [f_ventas_30_dias f_ventas_60_dias f_ventas_90_dias f_ventas_365_dias].
  unfold desde_fecha.
  destruct (Qsum_filter_le cantidad
              (fun r => (fin - 30 <=? fecha r)%Z)
              (fun r => (fin - 60 <=? fecha r)%Z) df Hdf) as (A1 & A2 & _);
    [intro x; apply desde_fecha_incl; lia|].
  destruct (Qsum_filter_le cantidad
              (fun r => (fin - 60 <=? fecha r)%Z)
              (fun r => (fin - 90 <=? fecha r)%Z) df Hdf) as (_ & B2 & B3);
    [intro x; apply desde_fecha_incl; lia|].
  repeat split; assumption.
Qed.

Lemma window_sales_are_nested_witness :
  let r := calculate_demand "mediana" Escenario.ajuste_nulo
             Escenario.ventas_outlier 1 1 365 in
  0 <= f_ventas_30_dias r
  /\ f_ventas_30_dias r <= f_ventas_60_dias r
  /\ f_ventas_60_dias r <= f_ventas_90_dias r
  /\ f_ventas_90_dias r <= f_ventas_365_dias r.
Proof.
  apply (window_sales_are_nested "mediana" Escenario.ajuste_nulo
           Escenario.ventas_outlier 1 1 365).
  unfold Escenario.ventas_outlier. repeat constructor; simpl; lra.
Defined.

Lemma Qsum_perm (l l' : list Q) : Permutation l l' -> Qsum l == Qsum l'.
Proof.
  induction 1; simpl; try lra.
Qed.

Lemma max_0_comp (x y : Q) : x == y -> Py.max 0 x == Py.max 0 y.
Proof.
  intro E. unfold Py.max.
  destruct (Py.Qltb 0 x) eqn:E1; destruct (Py.Qltb 0 y) eqn:E2;
    try apply Qltb_true in E1; try apply Qltb_true in E2;
    try apply Qltb_false in E1; try apply Qltb_false in E2; lra.
Qed.

Lemma fecha_min_mismo_dia (d : Z) (df : DataFrame) :
  df <> [] -> Forall (fun v => fecha v = d) df -> fecha_min df = d.
Proof.
  destruct df as [|r l]; [congruence|]. intros _ H.
  inversion H as [|? ? Hr Hl]; subst. unfold fecha_min.
  clear H. induction Hl as [|x l Hx _ IH]; simpl; [reflexivity|].
  rewrite Hx, Z.min_id. exact IH.
Qed.

Lemma groupby_mismo_dia (d : Z) (df : DataFrame) :
  df <> [] -> Forall (fun v => fecha v = d) df ->
  exists q, groupby_sum df = [(d, q)].
Proof.
  destruct df as [|r l]; [congruence|]. intros _ H.
  inversion H as [|? ? Hr Hl]; subst. unfold groupby_sum. simpl.
  generalize (cantidad r). clear H.
  induction Hl as [|x l Hx _ IH]; simpl; intro q0; [eauto|].
  rewrite Hx, Z.ltb_irrefl, Z.eqb_refl. apply IH.
Qed.

(** Sales on a single day: when every sale of the history falls on the same
    date, the forecast daily demand is the whole quantity sold that day (or
    0 when it is negative), whatever the preferred method and however long
    the period. *)
Theorem single_day_sales_demand (metodo_preferido : string)
    (linear_regression : list (Z * Q) -> LinearModel)
    (sales_history : DataFrame) (pid did days_back d : Z) :
  sales_history <> [] ->
  Forall (fun v => fecha v = d) sales_history ->
  (0 <= days_back)%Z ->
  let r := calculate_demand metodo_preferido linear_regression sales_history
             pid did days_back in
  f_demanda_diaria r == Py.max 0 (Qsum (map cantidad sales_history))
  /\ metodo_usado r <> "sin_datos".
Proof.
  intros Hne Hd Hdb. cbv zeta.
  pose proof (sort_values_perm sales_history) as P.
  assert (Sd : Forall (fun v => fecha v = d) (sort_values sales_history)).
  { apply Forall_forall. intros v Hv.
    rewrite Forall_forall in Hd. apply Hd, (Permutation_in _ P Hv). }
  assert (Sne : sort_values sales_history <> []).
  { intro E. rewrite E in P. apply Permutation_nil in P. congruence. }
  assert (Hmax : fecha_max (sort_values sales_history) = d).
  { destruct (fecha_max_spec _ Sne) as [I _].
    apply in_map_iff in I. destruct I as (v & E & Hv).
    rewrite Forall_forall in Sd. rewrite <- E. apply Sd, Hv. }
  assert (Hwin : desde_fecha (d - days_back) (sort_values sales_history)
                 = sort_values sales_history).
  { apply filter_all. eapply Forall_impl; [|exact Sd].
    intros v E. simpl in E. rewrite E. apply Z.leb_le. lia. }
  pose proof (fecha_min_mismo_dia d _ Sne Sd) as Hmin.
  destruct (groupby_mismo_dia d _ Sne Sd) as [q Hg].
  assert (Hq : q == Qsum (map cantidad sales_history)).
  { rewrite <- (Qsum_perm _ _ (Permutation_map cantidad P)).
    rewrite <- Qsum_groupby, Hg. simpl. ring. }
  unfold calculate_demand.
  destruct sales_history as [|r0 df0]; [congruence|].
  set (hist := r0 :: df0) in *.
  rewrite Hmax, Hwin.
  destruct (sort_values hist) as [|v vs] eqn:ES; [congruence|].
  rewrite Hmin. replace (d - d + 1)%Z with 1%Z by lia.
  destruct (_ml_tendencia _ _ _) as [[dml tend] cml].
  assert (Hsimple : _promedio_simple (v :: vs) 1 == q).
  { unfold _promedio_simple.
    rewrite (Qsum_perm _ _ (Permutation_map cantidad P)), <- Hq.
    change (inject_Z (Py.max1 1)) with 1. field. }
  assert (Hmed : _mediana_ajustada (v :: vs) 1 == q).
  { unfold _mediana_ajustada. rewrite Hg. simpl.
    change (median [q]) with q.
    change (inject_Z (Py.max1 1)) with 1. change (inject_Z 1) with 1.
    field. }
  unfold _seleccionar_mejor_metodo.
  destruct (metodo_preferido =? "promedio_simple")%string.
  { simpl. split; [|discriminate]. apply max_0_comp. rewrite Hsimple. exact Hq. }
  destruct (metodo_preferido =? "mediana")%string.
  { simpl. split; [|discriminate]. apply max_0_comp. rewrite Hmed. exact Hq. }
  change (1 <? min_days_for_movil)%Z with true. cbv iota.
  simpl. split; [|discriminate]. apply max_0_comp. rewrite Hmed. exact Hq.
Qed.

Lemma single_day_sales_demand_witness :
  let r := calculate_demand "combinado" Escenario.ajuste_nulo
             Casos.venta_unica 1 1 180 in
  f_demanda_diaria r == Py.max 0 (Qsum (map cantidad Casos.venta_unica))
  /\ metodo_usado r <> "sin_datos".
Proof.
  apply (single_day_sales_demand "combinado" Escenario.ajuste_nulo
           Casos.venta_unica 1 1 180 100).
  - discriminate.
  - unfold Casos.venta_unica. repeat constructor.
  - lia.
Defined.

(** * From the stock calculator to the allocation engine *)

Lemma round2_upper (x : Q) : Py.round2 x <= x + (1 # 200).
Proof.
  unfold Py.round2. pose proof (round_upper (x * 100)) as H.
  apply Qle_shift_div_r; [reflexivity|]. lra.
Qed.

Lemma niveles_sanos
    (factor_ideal factor_maximo : Q) (sales_period_days : Z)
    (_get_dias_stock : option string -> option string -> option string -> Z)
    (_get_umbral_minimo : option string -> option string -> Z)
    (sales_history : Z * Z -> DemandForecaster.DataFrame)
    (metodo_calculo : string)
    (linear_regression : list (Z * Q) -> LinearModel)
    (products_stock : list ProductStock) :
  Forall
    (fun sl =>
       estado sl = "ok" \/ estado sl = "excedente" ->
       stock_minimo sl <= stock_actual sl + (1 # 200))
    (calculate_all_stock_levels factor_ideal factor_maximo sales_period_days
       _get_dias_stock _get_umbral_minimo sales_history metodo_calculo
       linear_regression products_stock).
Proof.
  apply Forall_forall. intros sl Hin. unfold calculate_all_stock_levels in Hin.
  apply in_map_iff in Hin. destruct Hin as [ps [<- _]].
  unfold calcular_nivel.
  destruct (niveles _ _ _ _ _) as [[minimo ideal] maximo].
  simpl. unfold determinar_estado.
  pose proof (round2_upper minimo) as Hup.
  destruct (Qeq_bool minimo 0) eqn:E0.
  - apply Qeq_bool_iff in E0.
    destruct (Qle_bool (ps_stock_disponible ps) 0) eqn:E1.
    + intros [H | H]; discriminate H.
    + apply Qle_bool_false in E1. intros _. lra.
  - destruct (Qle_bool (ps_stock_disponible ps) 0) eqn:E1;
      [intros [H | H]; discriminate H|].
    destruct (Py.Qltb (ps_stock_disponible ps) minimo) eqn:E2;
      [intros [H | H]; discriminate H|].
    apply Qltb_false in E2. intros _. lra.
Qed.

(** Calculator and allocation engine fit together at the minimum level: a
    peer level that the calculator marks "ok" or "excedente" receives
    neither a transfer nor a purchase need when the distribution targets
    the minimum stock. *)
Theorem healthy_levels_need_nothing
    (factor_ideal factor_maximo : Q) (sales_period_days : Z)
    (_get_dias_stock : option string -> option string -> option string -> Z)
    (_get_umbral_minimo : option string -> option string -> Z)
    (sales_history : Z * Z -> DemandForecaster.DataFrame)
    (metodo_calculo : string)
    (linear_regression : list (Z * Q) -> LinearModel)
    (products_stock : list ProductStock)
    (product_costs : Z -> Q)
    (excluded_deposits excluded_brands : list string)
    (p : Z) (deposits : Deposits) (s : StockLevel) :
  let stock_levels :=
    calculate_all_stock_levels factor_ideal factor_maximo sales_period_days
      _get_dias_stock _get_umbral_minimo sales_history metodo_calculo
      linear_regression products_stock in
  In (p, deposits)
    (DistributionService.products_by_id stock_levels excluded_deposits
       excluded_brands) ->
  In s (sucursales_data deposits) ->
  estado s = "ok" \/ estado s = "excedente" ->
  let r := generate_distribution "minimo" product_costs stock_levels
             excluded_deposits excluded_brands in
  transfers_to (deposito_nombre s) (transfers_of p (transfers r)) = []
  /\ purchases_for (deposito_nombre s) (purchases_of p (purchase_needs r)) = [].
Proof.
  intros stock_levels Hin Hs He.
  apply (peer_sin_faltante "minimo" product_costs stock_levels
           excluded_deposits excluded_brands p deposits s Hin Hs).
  apply faltante_int_medio.
  assert (Hsan : Forall
            (fun sl => estado sl = "ok" \/ estado sl = "excedente" ->
                       stock_minimo sl <= stock_actual sl + (1 # 200))
            (filtered_levels stock_levels excluded_deposits excluded_brands)).
  { apply Forall_forall. intros sl Hsl.
    pose proof (filtered_levels_allowed stock_levels excluded_deposits
                  excluded_brands) as Hf.
    rewrite Forall_forall in Hf. destruct (Hf _ Hsl) as [Hsl' _].
    pose proof (niveles_sanos factor_ideal factor_maximo sales_period_days
                  _get_dias_stock _get_umbral_minimo sales_history
                  metodo_calculo linear_regression products_stock) as Hn.
    rewrite Forall_forall in Hn. apply Hn, Hsl'. }
  destruct (grupo_sucursal _ _ _ _ _ Hsan Hin Hs) as [Hmin _].
  specialize (Hmin He).
  change (stock_objetivo "minimo" s) with (stock_minimo s). lra.
Qed.

Lemma healthy_levels_need_nothing_witness :
  let peer_A :=
    calcular_nivel 2 4 365 Escenario.un_dia Escenario.umbral_uno
      Escenario.historial "mediana" Escenario.ajuste_nulo
      (Casos.fila_en 2 "SUCURSAL A" 7) in
  let r := generate_distribution "minimo" Escenario.sin_costos
             Casos.niveles_producto_2 [] [] in
  estado peer_A = "ok"
  /\ stock_actual peer_A < stock_ideal peer_A
  /\ map cantidad_transferir
       (transfers_to "SUCURSAL B" (transfers_of 2 (transfers r))) = [3%Z]
  /\ map cantidad_transferir
       (transfers_to "SUCURSAL A"
          (transfers_of 2
             (transfers
                (generate_distribution "ideal" Escenario.sin_costos
                   Casos.niveles_producto_2 [] [])))) = [3%Z]
  /\ transfers_to "SUCURSAL A" (transfers_of 2 (transfers r)) = []
  /\ purchases_for "SUCURSAL A" (purchases_of 2 (purchase_needs r)) = [].
Proof.
  cbv zeta.
  split; [vm_compute; reflexivity|].
  split; [vm_compute; reflexivity|].
  split; [vm_compute; reflexivity|].
  split; [vm_compute; reflexivity|].
  apply (healthy_levels_need_nothing 2 4 365 Escenario.un_dia
           Escenario.umbral_uno Escenario.historial "mediana"
           Escenario.ajuste_nulo Casos.filas_producto_2 Escenario.sin_costos
           [] [] 2
           (Escenario.depositos Casos.niveles_producto_2)
           (calcular_nivel 2 4 365 Escenario.un_dia Escenario.umbral_uno
              Escenario.historial "mediana" Escenario.ajuste_nulo
              (Casos.fila_en 2 "SUCURSAL A" 7))).
  - left. vm_compute. reflexivity.
  - left. vm_compute. reflexivity.
  - left. vm_compute. reflexivity.
Defined.

(** * One line per product and destination *)

Lemma sucursales_destinos (target_level : string) (product_costs : Z -> Q)
    (pid : Z) (central : StockLevel) (L : list StockLevel) :
  NoDup (map deposito_nombre L) ->
  forall disp ts ps,
  procesar_sucursales target_level product_costs pid central disp L = (ts, ps) ->
  NoDup (map deposit_destino_nombre ts)
  /\ NoDup (map p_deposit_destino_nombre ps)
  /\ incl (map deposit_destino_nombre ts) (map deposito_nombre L)
  /\ incl (map p_deposit_destino_nombre ps) (map deposito_nombre L).
Proof.
  induction L as [|s L IH]; simpl; intros Hnd disp ts ps E.
  - injection E as <- <-. simpl.
    repeat split; try constructor; intros x [].
  - inversion Hnd as [|? ? Hn HndL]; subst.
    pose proof (procesar_sucursal_paso target_level product_costs pid central
                  disp s) as P.
    destruct (procesar_sucursal target_level product_costs pid central disp s)
      as [[d1 t1] p1].
    destruct (procesar_sucursales target_level product_costs pid central d1 L)
      as [t2 p2] eqn:R.
    injection E as <- <-.
    destruct (IH HndL _ _ _ R) as (N1 & N2 & I1 & I2).
    assert (Ht1 : t1 = []
                  \/ exists t, t1 = [t]
                               /\ deposit_destino_nombre t = deposito_nombre s)
      by (inversion P; subst; [left | right | right | left];
          try reflexivity; eexists; split; reflexivity).
    assert (Hp1 : p1 = []
                  \/ exists q, p1 = [q]
                               /\ p_deposit_destino_nombre q = deposito_nombre s)
      by (inversion P; subst; [left | left | right | right];
          try reflexivity; eexists; split; reflexivity).
    repeat split.
    + destruct Ht1 as [-> | (t & -> & Et)]; simpl; [exact N1|].
      constructor; [|exact N1]. rewrite Et. intro H. apply Hn, I1, H.
    + destruct Hp1 as [-> | (q & -> & Eq)]; simpl; [exact N2|].
      constructor; [|exact N2]. rewrite Eq. intro H. apply Hn, I2, H.
    + destruct Ht1 as [-> | (t & -> & Et)]; simpl.
      * intros x Hx. right. apply I1, Hx.
      * intros x [<- | Hx]; [left; symmetry; exact Et | right; apply I1, Hx].
    + destruct Hp1 as [-> | (q & -> & Eq)]; simpl.
      * intros x Hx. right. apply I2, Hx.
      * intros x [<- | Hx]; [left; symmetry; exact Eq | right; apply I2, Hx].
Qed.

Lemma producto_destinos (target_level : string) (product_costs : Z -> Q)
    (p : Z) (deposits : Deposits) :
  well_filed p deposits ->
  NoDup (map deposit_destino_nombre
           (fst (procesar_producto target_level product_costs p deposits)))
  /\ NoDup (map p_deposit_destino_nombre
              (snd (procesar_producto target_level product_costs p deposits))).
Proof.
  intro Hwf. unfold procesar_producto.
  destruct (central_data deposits) as [c|] eqn:Hc; [|split; constructor].
  destruct (sucursales_data_nombres _ _ Hwf) as [Hnames Hnc].
  destruct (procesar_sucursales _ _ _ _ _ _) as [ts ps] eqn:R.
  destruct (sucursales_destinos _ _ _ _ _ Hnames _ _ _ R)
    as (N1 & N2 & I1 & I2).
  simpl. split; [exact N1|].
  rewrite map_app. apply NoDup_app; [exact N2 | |].
  - pose proof (compra_central_traza target_level product_costs p c) as T.
    unfold compra_central in *.
    destruct (Py.Qltb (stock_actual c) (stock_minimo c));
      [|constructor].
    destruct (0 <? Py.round _)%Z; [|constructor].
    simpl. constructor; [intros [] | constructor].
  - intros x Hx Hx'.
    assert (Ex : x = CENTRAL_DEPOSIT_NAME).
    { apply in_map_iff in Hx'. destruct Hx' as (q & <- & Hq).
      pose proof (compra_central_traza target_level product_costs p c) as T.
      rewrite Forall_forall in T. destruct (T _ Hq) as [(_ & Hd & _) _].
      rewrite Hd. apply (central_data_nombre _ _ _ Hwf Hc). }
    apply I2 in Hx. apply in_map_iff in Hx. destruct Hx as (s & Es & Hs).
    rewrite Forall_forall in Hnc. apply (Hnc _ Hs). congruence.
Qed.

Lemma productos_ids_In (target_level : string) (product_costs : Z -> Q)
    (grouped : Grouped) :
  Forall (fun t => In (t_product_id t) (map fst grouped))
    (fst (procesar_productos target_level product_costs grouped))
  /\ Forall (fun q => In (p_product_id q) (map fst grouped))
       (snd (procesar_productos target_level product_costs grouped)).
Proof.
  induction grouped as [|[pid deps] G IH]; simpl; [split; constructor|].
  destruct (producto_ids target_level product_costs pid deps) as [Ht Hp].
  destruct (procesar_producto target_level product_costs pid deps) as [t1 p1].
  destruct (procesar_productos target_level product_costs G) as [t2 p2].
  simpl in *. destruct IH as [IHt IHp].
  split; apply Forall_app; split.
  - eapply Forall_impl; [|exact Ht]. intros t E. left. symmetry. exact E.
  - eapply Forall_impl; [|exact IHt]. intros t H. right. exact H.
  - eapply Forall_impl; [|exact Hp]. intros q E. left. symmetry. exact E.
  - eapply Forall_impl; [|exact IHp]. intros q H. right. exact H.
Qed.

Lemma NoDup_lineas {A : Type} (pid : A -> Z) (dest : A -> string) (p : Z)
    (l : list A) :
  Forall (fun x => pid x = p) l ->
  NoDup (map dest l) ->
  NoDup (map (fun x => (pid x, dest x)) l).
Proof.
  induction l as [|x l IH]; simpl; intros Hp Hnd; [constructor|].
  inversion Hp; subst. inversion Hnd as [|? ? Hn Hd]; subst.
  constructor; [|auto].
  intro H. apply Hn. apply in_map_iff in H. destruct H as (y & [= _ E] & Hy).
  rewrite <- E. apply in_map, Hy.
Qed.

Lemma productos_lineas (target_level : string) (product_costs : Z -> Q)
    (grouped : Grouped) :
  well_grouped grouped ->
  NoDup (map linea_traslado
           (fst (procesar_productos target_level product_costs grouped)))
  /\ NoDup (map linea_compra
              (snd (procesar_productos target_level product_costs grouped))).
Proof.
  intros [Hnd Hwf].
  induction grouped as [|[pid deps] G IH]; simpl; [split; constructor|].
  inversion Hnd as [|? ? Hn HndG]; subst.
  inversion Hwf as [|? ? Hwf1 HwfG]; subst.
  destruct (producto_ids target_level product_costs pid deps) as [Ht Hp].
  destruct (producto_destinos target_level product_costs pid deps Hwf1)
    as [Dt Dp].
  destruct (productos_ids_In target_level product_costs G) as [Gt Gp].
  destruct (procesar_producto target_level product_costs pid deps) as [t1 p1].
  destruct (procesar_productos target_level product_costs G) as [t2 p2].
  simpl in *. destruct (IH HndG HwfG) as [IHt IHp].
  rewrite !map_app. split; apply NoDup_app; auto.
  - apply (NoDup_lineas t_product_id deposit_destino_nombre pid); assumption.
  - intros [a b] H1 H2.
    apply in_map_iff in H1. destruct H1 as (x & [= E1 _] & Hx).
    apply in_map_iff in H2. destruct H2 as (y & [= E2 _] & Hy).
    rewrite Forall_forall in Ht, Gt.
    apply Hn. rewrite <- (Ht _ Hx), E1, <- E2. apply Gt, Hy.
  - apply (NoDup_lineas p_product_id p_deposit_destino_nombre pid); assumption.
  - intros [a b] H1 H2.
    apply in_map_iff in H1. destruct H1 as (x & [= E1 _] & Hx).
    apply in_map_iff in H2. destruct H2 as (y & [= E2 _] & Hy).
    rewrite Forall_forall in Hp, Gp.
    apply Hn. rewrite <- (Hp _ Hx), E1, <- E2. apply Gp, Hy.
Qed.

(** The proposal has one line per product and destination: no two
    transfers, and no two purchase needs, share their product and their
    destination, even when the input repeats a product at a location. *)
Theorem one_line_per_destination
    (target_level : string) (product_costs : Z -> Q)
    (stock_levels : list StockLevel)
    (excluded_deposits excluded_brands : list string) :
  let r := generate_distribution target_level product_costs stock_levels
             excluded_deposits excluded_brands in
  NoDup (map linea_traslado (transfers r))
  /\ NoDup (map linea_compra (purchase_needs r)).
Proof.
  cbv zeta. unfold generate_distribution.
  pose proof (group_by_product_well_grouped
                (filtered_levels stock_levels excluded_deposits excluded_brands))
    as Hwg.
  fold (DistributionService.products_by_id stock_levels excluded_deposits
          excluded_brands) in Hwg.
  destruct (productos_lineas target_level product_costs _ Hwg) as [H1 H2].
  destruct (procesar_productos _ _ _) as [ts ps]. simpl in *.
  split; assumption.
Qed.

(** * Sign of the targets *)

Lemma round2_nonneg (x : Q) : 0 <= x -> 0 <= Py.round2 x.
Proof.
  intro H. apply (Qle_trans _ (Py.round2 0)); [rewrite round2_zero; lra|].
  apply round2_mono, H.
Qed.

(** With non-negative factors and days of stock, no level the calculator
    produces has a negative daily demand or a negative minimum, ideal or
    maximum stock, whatever the sales history holds. *)
Theorem targets_never_negative
    (factor_ideal factor_maximo : Q) (sales_period_days : Z)
    (_get_dias_stock : option string -> option string -> option string -> Z)
    (_get_umbral_minimo : option string -> option string -> Z)
    (sales_history : Z * Z -> DemandForecaster.DataFrame)
    (metodo_calculo : string)
    (linear_regression : list (Z * Q) -> LinearModel)
    (products_stock : list ProductStock) :
  0 <= factor_ideal -> 0 <= factor_maximo ->
  (forall m r s, (0 <= _get_dias_stock m r s)%Z) ->
  Forall
    (fun sl =>
       0 <= demanda_diaria sl /\ 0 <= stock_minimo sl
       /\ 0 <= stock_ideal sl /\ 0 <= stock_maximo sl)
    (calculate_all_stock_levels factor_ideal factor_maximo sales_period_days
       _get_dias_stock _get_umbral_minimo sales_history metodo_calculo
       linear_regression products_stock).
Proof.
  intros Hi Hm Hd. apply Forall_forall. intros sl Hin.
  unfold calculate_all_stock_levels in Hin.
  apply in_map_iff in Hin. destruct Hin as [ps [<- _]].
  unfold calcular_nivel.
  set (forecast := DemandForecaster.calculate_demand _ _ _ _ _ _).
  set (dias := _get_dias_stock _ _ _).
  set (umbral := _get_umbral_minimo _ _).
  assert (Hdem : 0 <= f_demanda_diaria forecast).
  { destruct (calculate_demand_cases metodo_calculo linear_regression
                (sales_history (ps_product_id ps, ps_deposit_id ps))
                (ps_product_id ps) (ps_deposit_id ps) sales_period_days)
      as [[_ E] | (_ & _ & H)].
    - unfold forecast. rewrite E. simpl. lra.
    - exact H. }
  assert (Hdias : 0 <= inject_Z dias).
  { change 0 with (inject_Z 0). rewrite <- Zle_Qle. apply Hd. }
  pose proof (niveles_cases factor_ideal factor_maximo forecast dias umbral) as N.
  destruct (niveles factor_ideal factor_maximo forecast dias umbral)
    as [[minimo ideal] maximo].
  simpl.
  assert (H0 : 0 <= minimo /\ 0 <= ideal /\ 0 <= maximo).
  { destruct N as [(_ & -> & -> & ->) | (_ & E1 & E2 & E3)].
    - repeat split; lra.
    - assert (0 <= minimo) by (rewrite E1; nra).
      rewrite E2, E3. repeat split; nra. }
  destruct H0 as (A & B & C).
  repeat split; [exact Hdem | | |]; apply round2_nonneg; assumption.
Qed.

Lemma targets_never_negative_witness :
  Forall
    (fun sl =>
       0 <= demanda_diaria sl /\ 0 <= stock_minimo sl
       /\ 0 <= stock_ideal sl /\ 0 <= stock_maximo sl)
    (calculate_all_stock_levels 2 4 365 Escenario.un_dia Escenario.umbral_uno
       Escenario.historial "mediana" Escenario.ajuste_nulo
       [Escenario.fila 1; Escenario.fila 2]).
Proof.
  apply (targets_never_negative 2 4 365 Escenario.un_dia Escenario.umbral_uno
           Escenario.historial "mediana" Escenario.ajuste_nulo
           [Escenario.fila 1; Escenario.fila 2]).
  - discriminate.
  - discriminate.
  - intros m r s. unfold Escenario.un_dia. lia.
Defined.
